(** * gongshen: fair-competition review prototype

    A shallow embedding of [server.js] (the [/api/review] handler) and of
    [script.js] (the browser-side project store and its lifecycle), with the
    properties the specification states about them.

    Conventions.  A JavaScript string is a Rocq [string] holding the UTF-8
    bytes of its text.  A JavaScript number is kept abstract (class
    [JSNumber]): the code only passes numbers through, tests their
    truthiness and prints them.  An object is the list of its own
    properties in the order the engine enumerates them. *)

From Stdlib Require Import String Ascii List ZArith QArith Qround DecimalString Lia Bool.
From stdpp Require Import base option list strings.
Import ListNotations.

Local Open Scope stdpp_scope.
Local Open Scope list_scope.

(** ** JavaScript values *)

Module JS.

(** What the code needs of the Number type. *)
Class JSNumber (number : Type) := {
  (** the Number denoted by a numeric literal of the JSON grammar *)
  number_of_literal : string -> number;
  (** [Number::toString], radix 10 *)
  number_toString : number -> string;
  (** false on NaN, +Infinity and -Infinity *)
  number_isFinite : number -> bool;
  (** [ToBoolean]: false on +0, -0 and NaN *)
  number_truthy : number -> bool
}.

#[local] Unset Elimination Schemes.
Inductive value {number : Type} : Type :=
| VUndefined
| VNull
| VBool (b : bool)
| VNum (n : number)
| VStr (s : string)
| VArr (items : list value)
| VObj (props : list (string * value)).
#[local] Set Elimination Schemes.
Global Arguments value : clear implicits.

(** A completion: a value, or a thrown exception. *)
Inductive completion (A : Type) : Type :=
| Return (a : A)
| Throw (error : string).
Global Arguments Return {A} a.
Global Arguments Throw {A} error.

Definition bind {A B} (c : completion A) (k : A -> completion B) : completion B :=
  match c with
  | Return a => k a
  | Throw e => Throw e
  end.

Definition TypeError : string := "TypeError".
Definition SyntaxError : string := "SyntaxError".

Section Values.
Context {number : Type} `{JSNumber number}.

(** [ToBoolean] *)
Definition truthy (v : value number) : bool :=
  match v with
  | VUndefined | VNull => false
  | VBool b => b
  | VNum n => number_truthy n
  | VStr s => negb (s =? "")%string
  | VArr _ | VObj _ => true
  end.

(** [a || b] *)
Definition or_else (a b : value number) : value number :=
  if truthy a then a else b.

(** [typeof v === 'string'], [typeof v === 'number'], [Array.isArray(v)] *)
Definition is_string (v : value number) : bool :=
  match v with VStr _ => true | _ => false end.
Definition is_number (v : value number) : bool :=
  match v with VNum _ => true | _ => false end.
Definition isArray (v : value number) : bool :=
  match v with VArr _ => true | _ => false end.

End Values.

(** *** Own properties, in enumeration order *)

Definition code (c : ascii) : N := N_of_ascii c.

Definition is_digit (c : ascii) : bool :=
  let n := code c in (48 <=? n)%N && (n <=? 57)%N.

Fixpoint digits_value (s : string) (acc : N) : option N :=
  match s with
  | EmptyString => Some acc
  | String c r =>
      if is_digit c then digits_value r (acc * 10 + (code c - 48))%N else None
  end.

(** [ToString] of a non-negative integer *)
Definition decimal (n : N) : string := NilZero.string_of_uint (N.to_uint n).

(** An array index: a key that is the decimal form of an integer below
    [2^32 - 1] (reading it as a number and printing the number gives the
    key back).  Such keys are enumerated first, in ascending order. *)
Definition array_index (k : string) : option N :=
  match digits_value k 0 with
  | Some n =>
      if (n <=? 4294967294)%N && (k =? decimal n)%string then Some n else None
  | None => None
  end.

Section Properties.
Context {A : Type}.

Fixpoint lookup_property (k : string) (props : list (string * A)) : option A :=
  match props with
  | [] => None
  | (k', v) :: rest => if (k' =? k)%string then Some v else lookup_property k rest
  end.

Definition has_property (k : string) (props : list (string * A)) : bool :=
  match lookup_property k props with Some _ => true | None => false end.

(** Assignment to a property that exists: the value changes, the position
    does not. *)
Definition replace_property (k : string) (v : A) (props : list (string * A))
  : list (string * A) :=
  map (fun kv => if (fst kv =? k)%string then (fst kv, v) else kv) props.

(** A new property: an array index goes to its place among the array
    indices, any other key to the end. *)
Fixpoint insert_index (i : N) (k : string) (v : A) (props : list (string * A))
  : list (string * A) :=
  match props with
  | [] => [(k, v)]
  | (k', v') :: rest =>
      match array_index k' with
      | Some j =>
          if (j <? i)%N then (k', v') :: insert_index i k v rest
          else (k, v) :: props
      | None => (k, v) :: props
      end
  end.

(** [obj[k] = v] on an ordinary object *)
Definition define_property (k : string) (v : A) (props : list (string * A))
  : list (string * A) :=
  if has_property k props then replace_property k v props
  else
    match array_index k with
    | Some i => insert_index i k v props
    | None => props ++ [(k, v)]
    end.

(** [obj[k] = v] for an object [v], on an ordinary object whose prototype
    is [Object.prototype]: the key [__proto__], unless the object has it as
    an own property, reaches the setter of [Object.prototype], which
    changes the prototype and adds no property; any other key is defined
    on the object. *)
Definition assign_property (k : string) (v : A) (props : list (string * A))
  : list (string * A) :=
  if (k =? "__proto__")%string && negb (has_property k props) then props
  else define_property k v props.

(** The object that results from defining the members one after the other. *)
Definition object_of (members : list (string * A)) : list (string * A) :=
  fold_left (fun acc kv => define_property (fst kv) (snd kv) acc) members [].

End Properties.

(** The order in which an object enumerates two of its keys. *)
Definition key_before (k1 k2 : string) : Prop :=
  match array_index k1, array_index k2 with
  | Some i, Some j => (i < j)%N
  | Some _, None => True
  | None, Some _ => False
  | None, None => k1 <> k2
  end.

(** Keys as an object enumerates them: array indices first and ascending,
    then the other keys, none twice. *)
Fixpoint keys_in_order (keys : list string) : Prop :=
  match keys with
  | [] => True
  | k :: rest => Forall (key_before k) rest /\ keys_in_order rest
  end.

Section PropertyOrder.
Context {A : Type}.

Definition in_property_order (props : list (string * A)) : Prop :=
  keys_in_order (map fst props).

End PropertyOrder.

(** A value made of [null], booleans, strings, arrays and objects, the
    objects being in property order: what [script.js] stores. *)
Fixpoint plain {number : Type} (v : value number) : Prop :=
  match v with
  | VNull | VBool _ | VStr _ => True
  | VUndefined | VNum _ => False
  | VArr items =>
      (fix all (l : list (value number)) : Prop :=
         match l with
         | [] => True
         | x :: r => plain x /\ all r
         end) items
  | VObj props =>
      in_property_order props
      /\ (fix all (l : list (string * value number)) : Prop :=
            match l with
            | [] => True
            | kx :: r => plain (snd kx) /\ all r
            end) props
  end.

End JS.

(** ** JSON text: [JSON.stringify] and [JSON.parse] *)

Module JSON.
Import JS.

(** *** Serialisation *)

Definition hex_char (d : N) : ascii :=
  ascii_of_N (if (d <? 10)%N then 48 + d else 87 + d)%N.

(** One character of a quoted string ([QuoteJSONString]). *)
Definition quote_char (c : ascii) : string :=
  let n := code c in
  if (n =? 8)%N then "\b"
  else if (n =? 9)%N then "\t"
  else if (n =? 10)%N then "\n"
  else if (n =? 12)%N then "\f"
  else if (n =? 13)%N then "\r"
  else if (n =? 34)%N then String "\" (String c "")
  else if (n =? 92)%N then "\\"
  else if (n <? 32)%N then
    "\u00" +:+ String (hex_char (n / 16)) (String (hex_char (n mod 16)) "")
  else String c "".

Fixpoint quote_chars (s : string) : string :=
  match s with
  | EmptyString => ""
  | String c r => quote_char c +:+ quote_chars r
  end.

Definition dquote : ascii := ascii_of_N 34.

Definition quote (s : string) : string :=
  String dquote (quote_chars s +:+ String dquote "").

Section Stringify.
Context {number : Type} `{JSNumber number}.

(** [SerializeJSONProperty], without replacer or indentation; [None] is
    JavaScript's [undefined]. *)
Fixpoint stringify (v : value number) : option string :=
  match v with
  | VUndefined => None
  | VNull => Some "null"
  | VBool b => Some (if b then "true" else "false")
  | VNum n => Some (if number_isFinite n then number_toString n else "null")
  | VStr s => Some (quote s)
  | VArr items =>
      let fix elements (l : list (value number)) : list string :=
        match l with
        | [] => []
        | x :: r =>
            match stringify x with Some t => t | None => "null" end :: elements r
        end in
      Some ("[" +:+ String.concat "," (elements items) +:+ "]")
  | VObj props =>
      let fix members (l : list (string * value number)) : list string :=
        match l with
        | [] => []
        | (k, x) :: r =>
            match stringify x with
            | Some t => (quote k +:+ ":" +:+ t) :: members r
            | None => members r
            end
        end in
      Some ("{" +:+ String.concat "," (members props) +:+ "}")
  end.

(** The texts [stringify] joins: of the elements of an array, of the
    members of an object. *)
Definition element_text (x : value number) : string :=
  match stringify x with Some t => t | None => "null" end.

Fixpoint member_texts (l : list (string * value number)) : list string :=
  match l with
  | [] => []
  | kx :: r =>
      match stringify (snd kx) with
      | Some t => (quote (fst kx) +:+ ":" +:+ t) :: member_texts r
      | None => member_texts r
      end
  end.

End Stringify.

(** *** Parsing *)

(** The result of a parser that runs on fuel. *)
Inductive parsed (A : Type) : Type :=
| Parsed (a : A)
| Malformed
| OutOfFuel.
Global Arguments Parsed {A} a.
Global Arguments Malformed {A}.
Global Arguments OutOfFuel {A}.

Definition is_ws (c : ascii) : bool :=
  let n := code c in
  (n =? 9)%N || (n =? 10)%N || (n =? 13)%N || (n =? 32)%N.

Fixpoint skip_ws (s : string) : string :=
  match s with
  | EmptyString => ""
  | String c r => if is_ws c then skip_ws r else s
  end.

Definition hex_value (c : ascii) : option N :=
  let n := code c in
  if (48 <=? n)%N && (n <=? 57)%N then Some (n - 48)%N
  else if (97 <=? n)%N && (n <=? 102)%N then Some (n - 87)%N
  else if (65 <=? n)%N && (n <=? 70)%N then Some (n - 55)%N
  else None.

Definition hex4 (a b c d : ascii) : option N :=
  match hex_value a, hex_value b, hex_value c, hex_value d with
  | Some x, Some y, Some z, Some w => Some (((x * 16 + y) * 16 + z) * 16 + w)%N
  | _, _, _, _ => None
  end.

(** The characters between the quotes: a character of the text itself, or
    the UTF-16 code unit an escape sequence names. *)
Inductive unit16 : Type :=
| Raw (c : ascii)
| Esc (u : N).

Definition simple_escape (e : ascii) : option N :=
  let n := code e in
  if (n =? 34)%N then Some 34%N            (* quotation mark *)
  else if (n =? 92)%N then Some 92%N       (* backslash *)
  else if (n =? 47)%N then Some 47%N       (* solidus *)
  else if (n =? 98)%N then Some 8%N        (* backspace *)
  else if (n =? 102)%N then Some 12%N      (* form feed *)
  else if (n =? 110)%N then Some 10%N      (* line feed *)
  else if (n =? 114)%N then Some 13%N      (* carriage return *)
  else if (n =? 116)%N then Some 9%N       (* tab *)
  else None.

(** Reads up to the closing quote; the opening quote is already consumed. *)
Fixpoint parse_chars (s : string) : option (list unit16 * string) :=
  match s with
  | EmptyString => None
  | String c r =>
      if (code c =? 34)%N then Some ([], r)
      else if (code c =? 92)%N then
        match r with
        | EmptyString => None
        | String e r1 =>
            match simple_escape e with
            | Some u =>
                match parse_chars r1 with
                | Some (us, rest) => Some (Esc u :: us, rest)
                | None => None
                end
            | None =>
                if (code e =? 117)%N then
                  match r1 with
                  | String h1 (String h2 (String h3 (String h4 r2))) =>
                      match hex4 h1 h2 h3 h4 with
                      | Some u =>
                          match parse_chars r2 with
                          | Some (us, rest) => Some (Esc u :: us, rest)
                          | None => None
                          end
                      | None => None
                      end
                  | _ => None
                  end
                else None
            end
        end
      else if (code c <? 32)%N then None
      else
        match parse_chars r with
        | Some (us, rest) => Some (Raw c :: us, rest)
        | None => None
        end
  end.

(** UTF-8 bytes of a code point (a lone surrogate gets the three-byte
    form of its code unit). *)
Definition utf8 (cp : N) : string :=
  let byte (n : N) := ascii_of_N n in
  if (cp <? 128)%N then String (byte cp) ""
  else if (cp <? 2048)%N then
    String (byte (192 + cp / 64)%N) (String (byte (128 + cp mod 64)%N) "")
  else if (cp <? 65536)%N then
    String (byte (224 + cp / 4096)%N)
      (String (byte (128 + (cp / 64) mod 64)%N)
        (String (byte (128 + cp mod 64)%N) ""))
  else
    String (byte (240 + cp / 262144)%N)
      (String (byte (128 + (cp / 4096) mod 64)%N)
        (String (byte (128 + (cp / 64) mod 64)%N)
          (String (byte (128 + cp mod 64)%N) ""))).

Definition is_high_surrogate (u : N) : bool := (55296 <=? u)%N && (u <=? 56319)%N.
Definition is_low_surrogate (u : N) : bool := (56320 <=? u)%N && (u <=? 57343)%N.

(** The string the characters denote; an escaped high surrogate followed by
    an escaped low surrogate is one code point. *)
Fixpoint decode_units (l : list unit16) : string :=
  match l with
  | [] => ""
  | Raw c :: r => String c (decode_units r)
  | Esc hi :: r =>
      match r with
      | Esc lo :: r' =>
          if is_high_surrogate hi && is_low_surrogate lo
          then utf8 (65536 + (hi - 55296) * 1024 + (lo - 56320))%N +:+ decode_units r'
          else utf8 hi +:+ decode_units r
      | _ => utf8 hi +:+ decode_units r
      end
  end.

Definition parse_string (s : string) : option (string * string) :=
  match parse_chars s with
  | Some (us, rest) => Some (decode_units us, rest)
  | None => None
  end.

(** Numeric literals: an optional minus sign; a zero, or digits that do not
    start with zero; an optional fraction (a dot and digits); an optional
    exponent (e or E, an optional sign, digits). *)
Fixpoint take_digits (s : string) : string * string :=
  match s with
  | EmptyString => ("", "")
  | String c r =>
      if is_digit c then let '(d, rest) := take_digits r in (String c d, rest)
      else ("", s)
  end.

Definition lex_sign (s : string) : string * string :=
  match s with
  | String c r => if (code c =? 45)%N then (String c "", r) else ("", s)
  | EmptyString => ("", s)
  end.

Definition lex_int (s : string) : option (string * string) :=
  match s with
  | String c r =>
      if (code c =? 48)%N then Some (String c "", r)
      else if is_digit c then Some (take_digits s)
      else None
  | EmptyString => None
  end.

Definition lex_frac (s : string) : option (string * string) :=
  match s with
  | String c r =>
      if (code c =? 46)%N then
        match take_digits r with
        | (EmptyString, _) => None
        | (d, rest) => Some (String c d, rest)
        end
      else Some ("", s)
  | EmptyString => Some ("", s)
  end.

Definition lex_exp (s : string) : option (string * string) :=
  match s with
  | String c r =>
      if (code c =? 101)%N || (code c =? 69)%N then
        let '(sg, r1) :=
          match r with
          | String p r' =>
              if (code p =? 43)%N || (code p =? 45)%N then (String p "", r') else ("", r)
          | EmptyString => ("", r)
          end in
        match take_digits r1 with
        | (EmptyString, _) => None
        | (d, rest) => Some (String c (sg +:+ d), rest)
        end
      else Some ("", s)
  | EmptyString => Some ("", s)
  end.

Definition lex_number (s : string) : option (string * string) :=
  let '(sg, s1) := lex_sign s in
  match lex_int s1 with
  | None => None
  | Some (i, s2) =>
      match lex_frac s2 with
      | None => None
      | Some (f, s3) =>
          match lex_exp s3 with
          | None => None
          | Some (e, s4) => Some (sg +:+ i +:+ f +:+ e, s4)
          end
      end
  end.

(** [true], [false], [null] *)
Fixpoint strip_prefix (p s : string) : option string :=
  match p with
  | EmptyString => Some s
  | String a p' =>
      match s with
      | String b s' => if (a =? b)%char then strip_prefix p' s' else None
      | EmptyString => None
      end
  end.

Section Parse.
Context {number : Type} `{JSNumber number}.

Definition literal (p : string) (v : value number) (s : string)
  : parsed (value number * string) :=
  match strip_prefix p s with
  | Some rest => Parsed (v, rest)
  | None => Malformed
  end.

(** Recursive descent; every call takes one unit of fuel. *)
Fixpoint parse_value (fuel : nat) (s : string) {struct fuel}
  : parsed (value number * string) :=
  match fuel with
  | O => OutOfFuel
  | S fuel' =>
      match skip_ws s with
      | EmptyString => Malformed
      | String c r =>
          if (code c =? 123)%N then                      (* left brace *)
            match skip_ws r with
            | EmptyString => Malformed
            | String c' r' =>
                if (code c' =? 125)%N then Parsed (VObj [], r')
                else
                  match parse_members fuel' r with
                  | Parsed (ms, rest) => Parsed (VObj (object_of ms), rest)
                  | Malformed => Malformed
                  | OutOfFuel => OutOfFuel
                  end
            end
          else if (code c =? 91)%N then                  (* left bracket *)
            match skip_ws r with
            | EmptyString => Malformed
            | String c' r' =>
                if (code c' =? 93)%N then Parsed (VArr [], r')
                else
                  match parse_elements fuel' r with
                  | Parsed (vs, rest) => Parsed (VArr vs, rest)
                  | Malformed => Malformed
                  | OutOfFuel => OutOfFuel
                  end
            end
          else if (code c =? 34)%N then                  (* quotation mark *)
            match parse_string r with
            | Some (str, rest) => Parsed (VStr str, rest)
            | None => Malformed
            end
          else if (code c =? 116)%N then literal "true" (VBool true) (String c r)
          else if (code c =? 102)%N then literal "false" (VBool false) (String c r)
          else if (code c =? 110)%N then literal "null" VNull (String c r)
          else
            match lex_number (String c r) with
            | Some (lit, rest) => Parsed (VNum (number_of_literal lit), rest)
            | None => Malformed
            end
      end
  end

with parse_elements (fuel : nat) (s : string) {struct fuel}
  : parsed (list (value number) * string) :=
  match fuel with
  | O => OutOfFuel
  | S fuel' =>
      match parse_value fuel' s with
      | Parsed (v, r) =>
          match skip_ws r with
          | EmptyString => Malformed
          | String c r' =>
              if (code c =? 44)%N then                   (* comma *)
                match parse_elements fuel' r' with
                | Parsed (vs, rest) => Parsed (v :: vs, rest)
                | Malformed => Malformed
                | OutOfFuel => OutOfFuel
                end
              else if (code c =? 93)%N then Parsed ([v], r')
              else Malformed
          end
      | Malformed => Malformed
      | OutOfFuel => OutOfFuel
      end
  end

with parse_members (fuel : nat) (s : string) {struct fuel}
  : parsed (list (string * value number) * string) :=
  match fuel with
  | O => OutOfFuel
  | S fuel' =>
      match skip_ws s with
      | EmptyString => Malformed
      | String q r =>
          if (code q =? 34)%N then
            match parse_string r with
            | None => Malformed
            | Some (k, r1) =>
                match skip_ws r1 with
                | EmptyString => Malformed
                | String c r2 =>
                    if (code c =? 58)%N then             (* colon *)
                      match parse_value fuel' r2 with
                      | Parsed (v, r3) =>
                          match skip_ws r3 with
                          | EmptyString => Malformed
                          | String c' r4 =>
                              if (code c' =? 44)%N then
                                match parse_members fuel' r4 with
                                | Parsed (ms, rest) => Parsed ((k, v) :: ms, rest)
                                | Malformed => Malformed
                                | OutOfFuel => OutOfFuel
                                end
                              else if (code c' =? 125)%N then Parsed ([(k, v)], r4)
                              else Malformed
                          end
                      | Malformed => Malformed
                      | OutOfFuel => OutOfFuel
                      end
                    else Malformed
                end
            end
          else Malformed
      end
  end.

(** Fuel that no text exhausts (lemma [parse_value_fuel]). *)
Definition fuel_for (text : string) : nat := 2 * String.length text + 1.

(** [JSON.parse(text)], without reviver: one value, white space around it. *)
Definition parse (text : string) : completion (value number) :=
  match parse_value (fuel_for text) text with
  | Parsed (v, rest) =>
      match skip_ws rest with
      | EmptyString => Return v
      | String _ _ => Throw SyntaxError
      end
  | Malformed => Throw SyntaxError
  | OutOfFuel => Throw SyntaxError
  end.

(** *** Vocabulary of the proofs *)

(** A text that starts as the text of a value does. *)
Definition starts_value (t : string) : Prop :=
  exists c t', t = String c t' /\ is_ws c = false
    /\ (code c =? 93)%N = false /\ (code c =? 125)%N = false.

(** A value that [parse_value] reads back from its text. *)
Definition reads_back (v : value number) : Prop :=
  exists t, stringify v = Some t /\ starts_value t
    /\ forall rest, exists n, parse_value n (t +:+ rest) = Parsed (v, rest).

End Parse.

End JSON.

(** Numbers as their literal text, for running the definitions. *)
Module LiteralNumber.
Import JS.

#[export] Instance literal_number : JSNumber string := {
  number_of_literal := fun lit => lit;
  number_toString := fun n => n;
  number_isFinite := fun _ => true;
  number_truthy := fun n => negb ((n =? "0")%string || (n =? "-0")%string)
}.

End LiteralNumber.


(** ** server.js: the [/api/review] route *)

Module Server.
Import JS.

Section Handler.
Context {number : Type} `{JSNumber number}.

(** [v.k], for a key that no built-in prototype defines (the keys read
    below are of that kind): the own property of an object, [undefined] on
    any other value that has properties, a [TypeError] on [null] and
    [undefined]. *)
Definition Get (v : value number) (k : string) : completion (value number) :=
  match v with
  | VUndefined | VNull => Throw TypeError
  | VObj props =>
      Return (match lookup_property k props with Some x => x | None => VUndefined end)
  | VBool _ | VNum _ | VStr _ | VArr _ => Return VUndefined
  end.

(** [ToString], as a template literal applies it.  An array is joined with
    commas; an object prints through [Object.prototype.toString] unless an
    own [toString] property hides it, and then no conversion is left. *)
Fixpoint ToString (v : value number) : completion string :=
  match v with
  | VUndefined => Return "undefined"
  | VNull => Return "null"
  | VBool b => Return (if b then "true" else "false")
  | VNum n => Return (number_toString n)
  | VStr s => Return s
  | VArr items =>
      let fix join (l : list (value number)) : completion (list string) :=
        match l with
        | [] => Return []
        | x :: r =>
            bind (match x with
                  | VUndefined | VNull => Return ""
                  | _ => ToString x
                  end)
              (fun t => bind (join r) (fun ts => Return (t :: ts)))
        end in
      bind (join items) (fun ts => Return (String.concat "," ts))
  | VObj props =>
      if has_property "toString" props then Throw TypeError
      else Return "[object Object]"
  end.

Definition nl : string := String (ascii_of_N 10) "".

(** [buildPrompt({ businessType, jurisdiction, content, options })] *)
Definition buildPrompt (businessType jurisdiction content options : value number)
  : completion string :=
  bind (ToString businessType) (fun businessType' =>
  bind (ToString jurisdiction) (fun jurisdiction' =>
  bind (ToString content) (fun content' =>
  Return (
    nl +:+
    "你是一名熟悉反垄断法和反不正当竞争法的合规顾问，需要对以下商业安排进行公平竞争合规审查。请用中文回答。" +:+ nl +:+
    nl +:+
    "【业务场景类型】" +:+ businessType' +:+ nl +:+
    "【主要适用法域】" +:+ jurisdiction' +:+ nl +:+
    "【文本内容】" +:+ nl +:+
    content' +:+ nl +:+
    nl +:+
    "请给出结构化输出（JSON），字段包括：" +:+ nl +:+
    "riskScore：0-100 的整数，分数越高表示竞争法风险越大；" +:+ nl +:+
    "summary：对整体风险的简短总结（2-4 句话）；" +:+ nl +:+
    "issues：数组，每个元素包含 title（风险点标题）、level（低/中/高）、description（风险点说明）、suggestion（整改建议）、lawReference（可能涉及的法律条款或监管指引）；" +:+ nl +:+
    "modelNote：对模型分析局限性的简短说明。" +:+ nl +:+
    nl +:+
    "只输出 JSON，不要输出其他解释文字。")))).

(** [res.status(s).json(b)] *)
Record response := { status : nat; body : value number }.

Definition error_body (message : string) : value number :=
  VObj [("error", VStr message)].

Definition bad_request : response :=
  {| status := 400; body := error_body "content 不能为空" |}.
Definition parse_failure : response :=
  {| status := 500; body := error_body "解析大模型结果失败" |}.
Definition internal_error : response :=
  {| status := 500; body := error_body "服务器内部错误" |}.

(** The four reads of the object literal that shapes the reply. *)
Definition normalize (parsed : value number) : completion (value number) :=
  bind (Get parsed "riskScore") (fun riskScore =>
  bind (Get parsed "summary") (fun summary =>
  bind (Get parsed "issues") (fun issues =>
  bind (Get parsed "modelNote") (fun modelNote =>
  Return (VObj
    [ ("riskScore", if is_number riskScore then riskScore else VNull);
      ("summary", or_else summary (VStr ""));
      ("issues", if isArray issues then issues else VArr []);
      ("modelNote", or_else modelNote (VStr "")) ]))))).

(** The condition of the guard on [content]. *)
Definition content_rejected (content : value number) : bool :=
  negb (truthy content) || negb (is_string content).

(** What follows the guard; the second component lists the prompts handed
    to [callLLM]. *)
Definition review (callLLM : string -> completion (value number))
    (businessType jurisdiction content options : value number)
  : response * list string :=
  match buildPrompt (or_else businessType (VStr "general"))
          (or_else jurisdiction (VStr "cn")) content
          (or_else options (VObj [])) with
  | Throw _ => (internal_error, [])
  | Return prompt =>
      match callLLM prompt with
      | Throw _ => (internal_error, [prompt])
      | Return raw =>
          match (match raw with
                 | VStr text => JSON.parse text    (* typeof raw === 'string' *)
                 | _ => Return raw
                 end) with
          | Throw _ => (parse_failure, [prompt])
          | Return parsed =>
              match normalize parsed with
              | Throw _ => (internal_error, [prompt])
              | Return reply => ({| status := 200; body := reply |}, [prompt])
              end
          end
      end
  end.

(** [app.post('/api/review', ...)] on the request body that
    [express.json()] left in [req.body] ([VUndefined] when there is none);
    [callLLM] gives what the awaited promise settles to. *)
Definition post_review (callLLM : string -> completion (value number))
    (req_body : value number) : response * list string :=
  let source := or_else req_body (VObj []) in
  match
    bind (Get source "businessType") (fun businessType =>
    bind (Get source "jurisdiction") (fun jurisdiction =>
    bind (Get source "content") (fun content =>
    bind (Get source "options") (fun options =>
    Return (businessType, jurisdiction, content, options)))))
  with
  | Throw _ => (internal_error, [])
  | Return (businessType, jurisdiction, content, options) =>
      if content_rejected content then (bad_request, [])
      else review callLLM businessType jurisdiction content options
  end.

(** The mock that stands in for the model. *)
Definition callLLM (prompt : string) : completion (value number) :=
  Return (VObj
    [ ("riskScore", VNum (number_of_literal "65"));
      ("summary", VStr "文本中包含可能限制交易对手独立自主的条款，存在排他性合作风险，需要调整不合理约束。");
      ("issues", VArr
        [ VObj
            [ ("title", VStr "排他性合作条款");
              ("level", VStr "高");
              ("description", VStr "要求合作方在合同期内不得与其他竞争者合作，属于限制交易相对人自由选择合作伙伴的行为。");
              ("suggestion", VStr "建议删除或修改排他性条款，允许合作方与其他主体合作，或采用非独家的合作方式。");
              ("lawReference", VStr "《反垄断法》第十五条有关垄断协议的禁止性规定。") ];
          VObj
            [ ("title", VStr "不合理的违约惩罚");
              ("level", VStr "中");
              ("description", VStr "使用提高佣金、降级流量等方式作为违约惩罚，可能被视为利用优势地位实施不公平条款。");
              ("suggestion", VStr "将违约责任改为以实际损失为基础的违约金或补偿，避免滥用平台优势。");
              ("lawReference", VStr "《反不正当竞争法》第五条有关利用优势地位排除、限制竞争的规定。") ] ]);
      ("modelNote", VStr "上述分析为模型基于公开法律文本和经验总结的结果，仅供参考，不构成法律意见。") ]).

(** *** Vocabulary of the specification *)

(** The field [k] of a payload: the own property, [VUndefined] when it is
    missing or the payload is not an object. *)
Definition field (payload : value number) (k : string) : value number :=
  match payload with
  | VObj props =>
      match lookup_property k props with Some x => x | None => VUndefined end
  | _ => VUndefined
  end.

(** The content of a request: missing, empty, or not text. *)
Definition content_missing_empty_or_not_text (content : value number) : Prop :=
  content = VUndefined \/ content = VStr "" \/ is_string content = false.

End Handler.

End Server.

(** ** script.js: the project store and its lifecycle *)

Module Client.
Import JS.

(** *** Records *)

Inductive Status : Type :=
| DRAFT | AI_REVIEWING | AI_COMPLETED | DEPT_REVIEWING | APPROVED.

Inductive RiskLevel : Type := High | Medium | Low.

Record Finding := {
  risk_id : string;
  category : string;
  suspectedText : string;
  analysis : string;
  riskLevel : RiskLevel;
  suggestedAdjustment : string;
  lawReference : string
}.

Record Disposition := { type : string; desc : string }.

Record AIReview := {
  overallRisk : RiskLevel;
  riskItems : list Finding;
  actions : list (string * Disposition)
}.

Record Project := {
  id : string;
  projectName : string;
  policyTitle : string;
  org : string;
  draftType : string;
  scope : string;
  releaseDate : string;
  isSecret : bool;
  applyException : bool;
  createdAt : string;
  updatedAt : string;
  status : Status;
  aiReview : option AIReview
}.

(** [project.status = s], [project.updatedAt = t], [project.aiReview = r] *)
Definition set_status (s : Status) (p : Project) : Project :=
  {| id := id p; projectName := projectName p; policyTitle := policyTitle p;
     org := org p; draftType := draftType p; scope := scope p;
     releaseDate := releaseDate p; isSecret := isSecret p;
     applyException := applyException p; createdAt := createdAt p;
     updatedAt := updatedAt p; status := s; aiReview := aiReview p |}.

Definition set_updatedAt (t : string) (p : Project) : Project :=
  {| id := id p; projectName := projectName p; policyTitle := policyTitle p;
     org := org p; draftType := draftType p; scope := scope p;
     releaseDate := releaseDate p; isSecret := isSecret p;
     applyException := applyException p; createdAt := createdAt p;
     updatedAt := t; status := status p; aiReview := aiReview p |}.

Definition set_aiReview (r : option AIReview) (p : Project) : Project :=
  {| id := id p; projectName := projectName p; policyTitle := policyTitle p;
     org := org p; draftType := draftType p; scope := scope p;
     releaseDate := releaseDate p; isSecret := isSecret p;
     applyException := applyException p; createdAt := createdAt p;
     updatedAt := updatedAt p; status := status p; aiReview := r |}.

(** [project.aiReview.actions = a] *)
Definition set_actions (a : list (string * Disposition)) (r : AIReview) : AIReview :=
  {| overallRisk := overallRisk r; riskItems := riskItems r; actions := a |}.

(** *** The records as JavaScript objects *)

Definition status_text (s : Status) : string :=
  match s with
  | DRAFT => "DRAFT"
  | AI_REVIEWING => "AI_REVIEWING"
  | AI_COMPLETED => "AI_COMPLETED"
  | DEPT_REVIEWING => "DEPT_REVIEWING"
  | APPROVED => "APPROVED"
  end.

Definition risk_text (l : RiskLevel) : string :=
  match l with High => "高" | Medium => "中" | Low => "低" end.

Section Objects.
Context {number : Type}.

Definition Finding_object (f : Finding) : value number :=
  VObj [ ("id", VStr (risk_id f));
         ("category", VStr (category f));
         ("suspectedText", VStr (suspectedText f));
         ("analysis", VStr (analysis f));
         ("riskLevel", VStr (risk_text (riskLevel f)));
         ("suggestedAdjustment", VStr (suggestedAdjustment f));
         ("lawReference", VStr (lawReference f)) ].

Definition Disposition_object (d : Disposition) : value number :=
  VObj [ ("type", VStr (type d)); ("desc", VStr (desc d)) ].

Definition AIReview_object (r : AIReview) : value number :=
  VObj [ ("overallRisk", VStr (risk_text (overallRisk r)));
         ("riskItems", VArr (map Finding_object (riskItems r)));
         ("actions",
          VObj (map (fun kd => (fst kd, Disposition_object (snd kd))) (actions r))) ].

Definition Project_object (p : Project) : value number :=
  VObj [ ("id", VStr (id p));
         ("projectName", VStr (projectName p));
         ("policyTitle", VStr (policyTitle p));
         ("org", VStr (org p));
         ("draftType", VStr (draftType p));
         ("scope", VStr (scope p));
         ("releaseDate", VStr (releaseDate p));
         ("isSecret", VBool (isSecret p));
         ("applyException", VBool (applyException p));
         ("createdAt", VStr (createdAt p));
         ("updatedAt", VStr (updatedAt p));
         ("status", VStr (status_text (status p)));
         ("aiReview",
          match aiReview p with
          | Some r => AIReview_object r
          | None => VNull
          end) ].

Definition Projects_array (projects : list Project) : value number :=
  VArr (map Project_object projects).

End Objects.

(** *** The platform *)

(** What the browser supplies and the code does not inspect. *)
Class Platform := {
  (** [String.prototype.trim] *)
  trim : string -> string;
  (** [Number.prototype.toString(36)] *)
  toString36 : Q -> string
}.

(** A value of [Math.random()]: at least 0, less than 1. *)
Record Random := {
  fraction : Q;
  fraction_range : Qle_bool 0 fraction && negb (Qle_bool 1 fraction) = true
}.

(** What one run of a handler draws: the successive values of
    [Math.random()] and of [Date.now()]. *)
Record Entropy := {
  Math_random : nat -> Random;
  Date_now : nat -> Z
}.

(** A [Date], through the getters [formatDate] reads. *)
Record Date := {
  getFullYear : Z;
  getMonth : nat;
  getDate : nat;
  getHours : nat;
  getMinutes : nat
}.

Definition String_of_nat (n : nat) : string :=
  NilZero.string_of_uint (Nat.to_uint n).
Definition String_of_Z (z : Z) : string :=
  NilZero.string_of_int (Z.to_int z).

Fixpoint repeat_char (c : ascii) (n : nat) : string :=
  match n with
  | O => ""
  | S n' => String c (repeat_char c n')
  end.

(** [s.padStart(targetLength, c)] for a one-character filler *)
Definition padStart (targetLength : nat) (c : ascii) (s : string) : string :=
  repeat_char c (targetLength - String.length s) +:+ s.

Definition formatDate (date : Date) : string :=
  let y := String_of_Z (getFullYear date) in
  let m := padStart 2 "0" (String_of_nat (getMonth date + 1)) in
  let d := padStart 2 "0" (String_of_nat (getDate date)) in
  let h := padStart 2 "0" (String_of_nat (getHours date)) in
  let min := padStart 2 "0" (String_of_nat (getMinutes date)) in
  y +:+ "-" +:+ m +:+ "-" +:+ d +:+ " " +:+ h +:+ ":" +:+ min.

Section Handlers.
Context `{Platform}.

(** [generateId(prefix)], on the values [Math.random()] and [Date.now()]
    return; [substring(2, 7)] keeps five characters from the third on. *)
Definition generateId (prefix : string) (r : Random) (now : Z) : string :=
  prefix +:+ substring 2 5 (toString36 (fraction r)) +:+ toString36 (inject_Z now).

(** *** The demonstration generator *)

Definition categories : list string :=
  ["市场准入"; "要素流动"; "经营成本"; "经营行为"].
Definition riskLevels : list RiskLevel := [High; Medium; Low].
Definition sampleTexts : list string :=
  ["第八条：本地区企业享有优先采购权";
   "第三条：对外地企业收取额外保证金";
   "第五条：设定限制性行业准入条件";
   "第二条：对特定行业实行产量配额"].
Definition analysisSamples : list string :=
  ["可能构成地方保护或排他性措施，限制市场准入";
   "可能影响要素自由流动，涉嫌差别待遇";
   "可能提高企业经营成本，造成不公平竞争";
   "可能限制经营者的正常经营行为"].
Definition adjustmentSamples : list string :=
  ["建议删除差别待遇条款，改为统一标准";
   "建议取消额外保证金要求，实行平等准入";
   "建议完善条款表述，避免限制性措施";
   "建议按照国家相关法规调整"].
Definition lawRefSamples : list string :=
  ["《反不正当竞争法》第八条";
   "《行政许可法》第十五条";
   "《公平竞争审查办法》第二条";
   "《市场主体登记管理条例》第十条"].

(** [Math.floor(Math.random() * n)].  The product is taken exactly; the
    rounding of the machine keeps it, for the two [n] used here, at least
    0 and below [n]. *)
Definition random_below (r : Random) (n : Z) : Z :=
  Qfloor (fraction r * inject_Z n).

(** [pool[i]]; the indices the generator forms lie within the pools. *)
Definition at_index {A} (pool : list A) (i : nat) (d : A) : A := nth i pool d.

(** The object pushed on the [i]-th pass of the loop. *)
Definition dummy_item (e : Entropy) (i : nat) : Finding :=
  let idx := Z.to_nat (random_below (Math_random e (1 + 2 * i)) (Z.of_nat (length categories))) in
  let id := generateId "R" (Math_random e (2 + 2 * i)) (Date_now e i) in
  {| risk_id := id;
     category := at_index categories idx "";
     suspectedText := at_index sampleTexts (i mod length sampleTexts) "";
     analysis := at_index analysisSamples idx "";
     riskLevel := at_index riskLevels (i mod length riskLevels) Low;
     suggestedAdjustment := at_index adjustmentSamples idx "";
     lawReference := at_index lawRefSamples idx "" |}.

(** [const order = { 高: 3, 中: 2, 低: 1 }] *)
Definition order (l : RiskLevel) : nat :=
  match l with High => 3 | Medium => 2 | Low => 1 end.

(** The [forEach] that searches the highest level. *)
Definition highest_risk (items : list Finding) : RiskLevel :=
  fold_left
    (fun highest item =>
       if order highest <? order (riskLevel item) then riskLevel item else highest)
    items Low.

Definition createDummyAIResults (e : Entropy) : AIReview :=
  let numItems := (random_below (Math_random e 0) 3 + 2)%Z in
  let items := map (dummy_item e) (seq 0 (Z.to_nat numItems)) in
  {| overallRisk := highest_risk items;
     riskItems := items;
     actions := [] |}.

(** *** The store *)

(** What the user sees happen. *)
Inductive effect : Type :=
| alert (message : string)
| navigate (href : string)
| reload
| show_detail (project : Project)
| uncaught (error : string).

(** The callback a [setTimeout] holds: the array [startAIReview] read and
    the place in it of the project under review. *)
Record Timeout := {
  held_projects : list Project;
  held_index : nat
}.

(** The collection under ['ai_projects'] (module [Storage] treats its text)
    and the callbacks that wait, in whatever page set them: the pages of
    one origin share the store, so the handlers may interleave in any
    order. *)
Record Browser := {
  localStorage : list Project;
  timers : list Timeout
}.

Definition getProjects (b : Browser) : list Project := localStorage b.

Definition saveProjects (projects : list Project) (b : Browser) : Browser :=
  {| localStorage := projects; timers := timers b |}.

Definition setTimeout (t : Timeout) (b : Browser) : Browser :=
  {| localStorage := localStorage b; timers := timers b ++ [t] |}.

(** [projects.find((p) => p.id === projectId)], with the position of the
    project found: what is assigned to it later lands there. *)
Fixpoint find (projectId : string) (projects : list Project) : option (nat * Project) :=
  match projects with
  | [] => None
  | p :: rest =>
      if (id p =? projectId)%string then Some (O, p)
      else
        match find projectId rest with
        | Some (i, q) => Some (S i, q)
        | None => None
        end
  end.

(** The controls of the creation form. *)
Record CreateForm := {
  form_projectName : string;
  form_policyTitle : string;
  form_org : string;
  form_draftType : string;
  form_scope : string;
  form_releaseDate : string;
  form_isSecret : bool;
  form_applyException : bool
}.

Definition handleCreateProject (form : CreateForm) (now : Date) (r : Random) (ms : Z)
    (b : Browser) : Browser * list effect :=
  let projectName := trim (form_projectName form) in
  let policyTitle := trim (form_policyTitle form) in
  let org := trim (form_org form) in
  let draftType := form_draftType form in
  let scope := trim (form_scope form) in
  let releaseDate := form_releaseDate form in
  if (projectName =? "")%string || (policyTitle =? "")%string then
    (b, [alert "请填写完整的项目名称和文件名称"])
  else
    let projects := getProjects b in
    let newProject :=
      {| id := generateId "P" r ms;
         projectName := projectName; policyTitle := policyTitle; org := org;
         draftType := draftType; scope := scope; releaseDate := releaseDate;
         isSecret := form_isSecret form;
         applyException := form_applyException form;
         createdAt := formatDate now; updatedAt := formatDate now;
         status := DRAFT; aiReview := None |} in
    (saveProjects (projects ++ [newProject]) b,
     [navigate ("project_detail.html?id=" +:+ id newProject)]).

(** [displayProjectDetail], up to the point where the page is filled;
    [query_id] is [params.get('id')]. *)
Definition displayProjectDetail (query_id : option string) (b : Browser) : list effect :=
  match query_id with
  | None => []
  | Some i =>
      if (i =? "")%string then []
      else
        match find i (getProjects b) with
        | None => [alert "未找到该项目"]
        | Some (_, project) => [show_detail project]
        end
  end.

(** [startAIReview]: the part that runs at once. *)
Definition startAIReview (projectId : string) (now : Date) (b : Browser)
  : Browser * list effect :=
  let projects := getProjects b in
  match find projectId projects with
  | None => (b, [])
  | Some (i, project) =>
      let project := set_updatedAt (formatDate now) (set_status AI_REVIEWING project) in
      let projects := <[i := project]> projects in
      (setTimeout {| held_projects := projects; held_index := i |}
         (saveProjects projects b), [])
  end.

(** The callback of [startAIReview], when the [k]-th waiting timer fires. *)
Definition review_timeout (k : nat) (e : Entropy) (now : Date) (b : Browser)
  : Browser * list effect :=
  match timers b !! k with
  | None => (b, [])
  | Some t =>
      let projects := held_projects t in
      match projects !! held_index t with
      | None => (b, [])
      | Some project =>
          let result := createDummyAIResults e in
          let project :=
            set_updatedAt (formatDate now)
              (set_status AI_COMPLETED (set_aiReview (Some result) project)) in
          let projects := <[held_index t := project]> projects in
          ({| localStorage := projects; timers := delete k (timers b) |}, [reload])
      end
  end.

(** What [saveRiskActions] reads of the page: the [select]s that carry
    [data-risk-id], with their values, in document order, and what
    [document.querySelector] answers for a selector: it throws when it
    refuses the selector, and returns [null] or an element, given here by
    its [value] (an element whose [value] is no text makes the [trim] that
    follows throw, and counts as a throw). *)
Record ActionForm := {
  selects : list (string * string);
  querySelector : string -> completion (option string)
}.

(** [`textarea[data-desc-id="${riskId}"]`] *)
Definition desc_selector (riskId : string) : string :=
  "textarea[data-desc-id=" +:+ String JSON.dquote "" +:+ riskId
  +:+ String JSON.dquote "" +:+ "]".

(** One pass of [selects.forEach]; an exception ends the loop. *)
Definition save_one (form : ActionForm)
    (actions : completion (list (string * Disposition))) (sel : string * string)
  : completion (list (string * Disposition)) :=
  bind actions (fun actions =>
  let riskId := fst sel in
  let type := snd sel in
  bind (querySelector form (desc_selector riskId)) (fun descEl =>
  let desc :=
    match descEl with
    | Some text => trim text
    | None => ""
    end in
  Return (if negb (type =? "")%string
          then assign_property riskId {| type := type; desc := desc |} actions
          else actions))).

Definition saveRiskActions (projectId : string) (form : ActionForm) (now : Date)
    (b : Browser) : Browser * list effect :=
  let projects := getProjects b in
  match find projectId projects with
  | None => (b, [])
  | Some (i, project) =>
      match aiReview project with
      | None => (b, [])
      | Some review =>
          match fold_left (save_one form) (selects form) (Return (actions review)) with
          | Throw error => (b, [uncaught error])
          | Return actions =>
              let project :=
                set_updatedAt (formatDate now)
                  (set_aiReview (Some (set_actions actions review)) project) in
              (saveProjects (<[i := project]> projects) b, [alert "已保存处理意见"])
          end
      end
  end.

Definition submitForDepartmentReview (projectId : string) (now : Date) (b : Browser)
  : Browser * list effect :=
  let projects := getProjects b in
  match find projectId projects with
  | None => (b, [])
  | Some (i, project) =>
      match aiReview project with
      | None => (b, [alert "请先完成 AI 审查"])
      | Some _ =>
          let project := set_updatedAt (formatDate now) (set_status DEPT_REVIEWING project) in
          (saveProjects (<[i := project]> projects) b,
           [alert "已提交至本单位审核人"; navigate "dashboard.html"])
      end
  end.

(** *** Runs *)

(** What may happen next: a handler is called, or a waiting callback
    fires.  Each event brings what the handler reads from the platform. *)
Inductive Event : Type :=
| Create (form : CreateForm) (now : Date) (r : Random) (ms : Z)
| StartReview (projectId : string) (now : Date)
| ReviewCompletes (k : nat) (e : Entropy) (now : Date)
| SaveDispositions (projectId : string) (form : ActionForm) (now : Date)
| SubmitForDepartmentReview (projectId : string) (now : Date).

Definition step (ev : Event) (b : Browser) : Browser * list effect :=
  match ev with
  | Create form now r ms => handleCreateProject form now r ms b
  | StartReview projectId now => startAIReview projectId now b
  | ReviewCompletes k e now => review_timeout k e now b
  | SaveDispositions projectId form now => saveRiskActions projectId form now b
  | SubmitForDepartmentReview projectId now => submitForDepartmentReview projectId now b
  end.

Definition run (evs : list Event) (b : Browser) : Browser :=
  fold_left (fun b ev => fst (step ev b)) evs b.

(** A browser that holds nothing yet. *)
Definition fresh : Browser := {| localStorage := []; timers := [] |}.

(** The detail page shows the start button only for a project without a
    review.  A run is [start_guarded] when every [StartReview] in it meets
    such a project (or none). *)
Fixpoint start_guarded (evs : list Event) (b : Browser) : bool :=
  match evs with
  | [] => true
  | ev :: rest =>
      match ev with
      | StartReview projectId _ =>
          match find projectId (getProjects b) with
          | Some (_, project) =>
              match aiReview project with Some _ => false | None => true end
          | None => true
          end
      | _ => true
      end && start_guarded rest (fst (step ev b))
  end.

(** *** Vocabulary of the specification *)

(** The order of the risk levels: 高 above 中 above 低. *)
Definition risk_le (a b : RiskLevel) : Prop :=
  match a, b with
  | Low, _ => True
  | Medium, Medium | Medium, High => True
  | High, High => True
  | _, _ => False
  end.

Definition risk_max (a b : RiskLevel) : RiskLevel :=
  match a, b with
  | High, _ | _, High => High
  | Medium, _ | _, Medium => Medium
  | Low, Low => Low
  end.

(** The maximum level of a list of levels, 低 when there is none. *)
Definition maximum_risk (levels : list RiskLevel) : RiskLevel :=
  fold_right risk_max Low levels.

(** The statuses from [AI_COMPLETED] on. *)
Definition review_done (s : Status) : Prop :=
  s = AI_COMPLETED \/ s = DEPT_REVIEWING \/ s = APPROVED.

(** The explanation the page holds for a finding: the trimmed text of the
    element its selector finds, empty when there is none. *)
Definition explanation (form : ActionForm) (riskId : string) : string :=
  match querySelector form (desc_selector riskId) with
  | Return (Some text) => trim text
  | _ => ""
  end.

(** The disposition the form gives for a finding: that of the last
    [select] of this finding whose value is not empty. *)
Definition disposition_of (form : ActionForm) (sel : string * string) : Disposition :=
  {| type := snd sel; desc := explanation form (fst sel) |}.

(** A form whose identifiers are of the kind [generateId] forms: the
    selector of each is answered, and none is [__proto__]. *)
Definition selectors_answer (form : ActionForm) : Prop :=
  Forall (fun sel => exists found,
            querySelector form (desc_selector (fst sel)) = Return found)
    (selects form).

Definition ordinary_identifiers (form : ActionForm) : Prop :=
  Forall (fun sel => fst sel <> "__proto__") (selects form).

Definition chosen_from (form : ActionForm) (sels : list (string * string))
    (riskId : string) (before : option Disposition) : option Disposition :=
  fold_left
    (fun acc sel =>
       if (fst sel =? riskId)%string && negb (snd sel =? "")%string
       then Some (disposition_of form sel) else acc)
    sels before.

Definition chosen (form : ActionForm) (riskId : string) : option Disposition :=
  chosen_from form (selects form) riskId None.

(** A review whose overall risk is the maximum of its findings. *)
Definition overall_is_maximum (r : AIReview) : Prop :=
  overallRisk r = maximum_risk (map riskLevel (riskItems r)).

(** *** Vocabulary of the proofs *)

(** One pass of the loop when the selector is answered and the identifier
    is ordinary. *)
Definition record_one (form : ActionForm) (actions : list (string * Disposition))
    (sel : string * string) : list (string * Disposition) :=
  if negb (snd sel =? "")%string
  then define_property (fst sel) (disposition_of form sel) actions
  else actions.

(** A property of projects that holds of the stored collection and of the
    arrays the waiting callbacks hold. *)
Definition everywhere (P : Project -> Prop) (b : Browser) : Prop :=
  Forall P (localStorage b)
  /\ Forall (fun t => Forall P (held_projects t)) (timers b).

(** What each handler does to the project it touches. *)
Record stable (P : Project -> Prop) (start_ok : Project -> Prop) : Prop := {
  stable_create : forall p, status p = DRAFT -> aiReview p = None -> P p;
  stable_start : forall p t, P p -> start_ok p ->
    P (set_updatedAt t (set_status AI_REVIEWING p));
  stable_complete : forall p t e, P p ->
    P (set_updatedAt t
         (set_status AI_COMPLETED (set_aiReview (Some (createDummyAIResults e)) p)));
  stable_save : forall p t r form saved, P p -> aiReview p = Some r ->
    fold_left (save_one form) (selects form) (Return (actions r)) = Return saved ->
    P (set_updatedAt t (set_aiReview (Some (set_actions saved r)) p));
  stable_submit : forall p t r, P p -> aiReview p = Some r ->
    P (set_updatedAt t (set_status DEPT_REVIEWING p))
}.

(** The [StartReview] of this event, if it is one, meets a project that
    satisfies [start_ok]. *)
Definition start_meets (start_ok : Project -> Prop) (ev : Event) (b : Browser) : Prop :=
  match ev with
  | StartReview projectId _ =>
      forall i p, find projectId (getProjects b) = Some (i, p) -> start_ok p
  | _ => True
  end.

(** The two halves of the invariant that no run breaks. *)
Definition review_matches_status (p : Project) : Prop :=
  (status p = DRAFT -> aiReview p = None)
  /\ (status p = AI_COMPLETED \/ status p = DEPT_REVIEWING -> aiReview p <> None)
  /\ status p <> APPROVED.

(** The invariant of the specification. *)
Definition review_iff_status (p : Project) : Prop :=
  (aiReview p <> None <-> review_done (status p))
  /\ (status p = DRAFT \/ status p = AI_REVIEWING -> aiReview p = None).

End Handlers.

End Client.

(** ** script.js: the text under ['ai_projects'] *)

Module Storage.
Import JS.

Section Storage.
Context {number : Type} `{JSNumber number}.

(** [getProjects()]; [item] is [localStorage.getItem('ai_projects')], [None]
    when the key is absent. *)
Definition getProjects (item : option string) : completion (value number) :=
  match item with
  | None => Return (VArr [])
  | Some raw =>
      if (raw =? "")%string then Return (VArr [])
      else
        match JSON.parse raw with
        | Return v => Return v
        | Throw _ => Return (VArr [])
        end
  end.

(** [saveProjects(projects)]: the item the key holds afterwards.
    [setItem] stores the text of its argument, [JSON.stringify] may return
    [undefined]. *)
Definition saveProjects (projects : value number) : option string :=
  Some (match JSON.stringify projects with
        | Some text => text
        | None => "undefined"
        end).

(** [projects.find((p) => p.id === projectId)] on what [getProjects]
    returned: only an array has [find] (the call throws a [TypeError] on
    anything else), and the callback reads [id] of each element in turn,
    which throws on [null]. *)
Definition find (projectId : string) (projects : value number)
  : completion (option (value number)) :=
  match projects with
  | VArr items =>
      (fix search (l : list (value number)) : completion (option (value number)) :=
         match l with
         | [] => Return None
         | p :: rest =>
             bind (Server.Get p "id") (fun i =>
             match i with
             | VStr s => if (s =? projectId)%string then Return (Some p) else search rest
             | _ => search rest
             end)
         end) items
  | _ => Throw TypeError
  end.

End Storage.

End Storage.

(** ** script.js: the pages that only read the store *)

Module Views.
Import JS Client.

(** *** The dashboard *)

(** The numbers [displayDashboard] writes to the three summary cards. *)
Record Summary := { total : nat; completed : nat; pending : nat }.

(** [p.status === 'AI_COMPLETED' || p.status === 'APPROVED'] *)
Definition counts_as_completed (p : Project) : bool :=
  match status p with
  | AI_COMPLETED | APPROVED => true
  | _ => false
  end.

(** [p.status === 'DRAFT'] *)
Definition counts_as_pending (p : Project) : bool :=
  match status p with
  | DRAFT => true
  | _ => false
  end.

(** [displayDashboard], the summary counts; the rows of the table are
    markup and stay outside the model. *)
Definition displayDashboard (b : Browser) : Summary :=
  let projects := getProjects b in
  {| total := length projects;
     completed := length (List.filter counts_as_completed projects);
     pending := length (List.filter counts_as_pending projects) |}.

(** *** The statistics page *)

(** [counts[k] = (counts[k] || 0) + 1], for a key that no built-in
    prototype defines (the statuses, the risk labels and the categories of
    the generator are of that kind); on a key that is there, [counts[k]++]
    does the same. *)
Definition increment (k : string) (counts : list (string * nat))
  : list (string * nat) :=
  define_property k
    (match lookup_property k counts with Some n => n | None => 0 end + 1) counts.

(** [Object.values(counts).reduce((a, b) => a + b, 0)] *)
Definition total_of (counts : list (string * nat)) : nat :=
  fold_left (fun a b => a + b) (map snd counts) 0.

(** The three tables [displayStats] builds, each in the order in which the
    page lists it. *)
Record Stats := {
  riskCounts : list (string * nat);
  statusCounts : list (string * nat);
  issues : list (string * nat)
}.

Definition unreviewed : string := "未审".

(** [displayStats], the counting; the widths of the bars are computed in
    floating point and stay outside the model, as does the markup. *)
Definition displayStats (b : Browser) : Stats :=
  let projects := getProjects b in
  {| riskCounts :=
       fold_left
         (fun counts p =>
            match aiReview p with
            | Some review => increment (risk_text (overallRisk review)) counts
            | None => increment unreviewed counts
            end)
         projects [("高", 0); ("中", 0); ("低", 0); (unreviewed, 0)];
     statusCounts :=
       fold_left (fun counts p => increment (status_text (status p)) counts)
         projects [];
     issues :=
       fold_left
         (fun counts p =>
            match aiReview p with
            | Some review =>
                fold_left (fun counts item => increment (category item) counts)
                  (riskItems review) counts
            | None => counts
            end)
         projects [] |}.

(** *** The report *)

Definition quotation : string := String JSON.dquote "".

Definition no_report : string := "<p>未找到审查报告。</p>".

(** The label of a decision; a type the page does not offer has none. *)
Definition actionLabel (type : string) : string :=
  if (type =? "adopt")%string then "采纳调整"
  else if (type =? "exception")%string then "适用例外"
  else if (type =? "reject")%string then "不采纳"
  else "".

(** One pass of [riskItems.forEach] in [displayReport]: the row appended to
    the markup.  The identifiers [generateId] forms begin with a capital
    letter, so [actions[item.id]] reads own properties only. *)
Definition report_row (review : AIReview) (item : Finding) : string :=
  let action := lookup_property (risk_id item) (actions review) in
  let actionDesc := match action with Some a => desc a | None => "" end in
  let label := match action with Some a => actionLabel (type a) | None => "" end in
  "<tr><td>" +:+ category item +:+ "</td><td>" +:+ analysis item +:+
  "</td><td>" +:+ risk_text (riskLevel item) +:+ "</td><td>" +:+
  suggestedAdjustment item +:+ "</td><td>" +:+ label +:+ "</td><td>" +:+
  actionDesc +:+ "</td></tr>".

(** The markup [displayReport] assigns to [report-content]; [query_id] is
    [params.get('id')], which no identifier equals when it is [null]. *)
Definition displayReport (query_id : option string) (b : Browser) : string :=
  let projects := getProjects b in
  match
    match query_id with
    | Some i => find i projects
    | None => None
    end
  with
  | None => no_report
  | Some (_, project) =>
      match aiReview project with
      | None => no_report
      | Some review =>
          let html := "" in
          let html := html +:+ "<h4>项目名称：" +:+ projectName project +:+ "</h4>" in
          let html := html +:+ "<p>起草单位：" +:+ org project +:+ "</p>" in
          let html := html +:+ "<p>审查时间：" +:+ updatedAt project +:+ "</p>" in
          let html := html +:+ "<p>总体风险等级：<strong>" +:+
                      risk_text (overallRisk review) +:+ "</strong></p>" in
          let html := html +:+ "<h5 class=" +:+ quotation +:+ "mt-4" +:+ quotation +:+
                      ">风险项及处理情况</h5>" in
          let html := html +:+ "<table class=" +:+ quotation +:+ "table table-bordered" +:+
                      quotation +:+
                      "><thead><tr><th>类别</th><th>问题摘要</th><th>风险等级</th><th>建议调整</th><th>处理决定</th><th>处理说明</th></tr></thead><tbody>" in
          let html :=
            fold_left (fun html item => html +:+ report_row review item)
              (riskItems review) html in
          html +:+ "</tbody></table>"
      end
  end.

(** *** Vocabulary of the properties *)

(** The number of projects in a status, of findings in a category. *)
Definition with_status (s : Status) (projects : list Project) : nat :=
  length (List.filter
            (fun p => (status_text (status p) =? status_text s)%string) projects).

Definition findings (projects : list Project) : list Finding :=
  flat_map (fun p => match aiReview p with
                     | Some review => riskItems review
                     | None => []
                     end) projects.

Definition in_category (c : string) (items : list Finding) : nat :=
  length (List.filter (fun item => (category item =? c)%string) items).

(** The labels of a list, each where it occurs first, those [seen]
    before left out. *)
Fixpoint first_seen (labels seen : list string) : list string :=
  match labels with
  | [] => []
  | l :: rest =>
      if existsb (fun l' => (l' =? l)%string) seen then first_seen rest seen
      else l :: first_seen rest (seen ++ [l])
  end.

(** The label under which the statistics page counts a project. *)
Definition risk_label (p : Project) : string :=
  match aiReview p with
  | Some review => risk_text (overallRisk review)
  | None => unreviewed
  end.

Definition with_label (l : string) (projects : list Project) : nat :=
  length (List.filter (fun p => (risk_label p =? l)%string) projects).

(** What a handler leaves alone in a project: everything but the status,
    the time of the last change and the recorded decisions. *)
Definition fixed_part (p : Project)
  : string * string * string * string * string * string * string * bool * bool
    * string * option (RiskLevel * list Finding) :=
  (id p, projectName p, policyTitle p, org p, draftType p, scope p,
   releaseDate p, isSecret p, applyException p, createdAt p,
   match aiReview p with
   | Some review => Some (overallRisk review, riskItems review)
   | None => None
   end).

(** A date whose fields lie where a calendar puts them, the year having
    four digits. *)
Definition calendar_date (d : Date) : bool :=
  (1000 <=? getFullYear d)%Z && (getFullYear d <=? 9999)%Z
  && (getMonth d <=? 11) && (1 <=? getDate d) && (getDate d <=? 31)
  && (getHours d <=? 23) && (getMinutes d <=? 59).

(** Reading a text of the form [YYYY-MM-DD HH:MM] back. *)
Definition read_field (start len : nat) (s : string) : option nat :=
  match digits_value (substring start len s) 0 with
  | Some n => Some (N.to_nat n)
  | None => None
  end.

Definition read_timestamp (s : string) : option Date :=
  match read_field 0 4 s, read_field 5 2 s, read_field 8 2 s,
        read_field 11 2 s, read_field 14 2 s with
  | Some y, Some (S m), Some d, Some h, Some min =>
      if (String.length s =? 16)
         && (substring 4 1 s =? "-")%string && (substring 7 1 s =? "-")%string
         && (substring 10 1 s =? " ")%string && (substring 13 1 s =? ":")%string
      then Some {| getFullYear := Z.of_nat y; getMonth := m; getDate := d;
                   getHours := h; getMinutes := min |}
      else None
  | _, _, _, _, _ => None
  end.

(** The beginning of an identifier. *)
Definition begins_with (prefix s : string) : bool := String.prefix prefix s.

(** A row of the report that shows a finding with a decision and its
    explanation. *)
Definition row_showing (item : Finding) (decision explanation : string) : string :=
  "<tr><td>" +:+ category item +:+ "</td><td>" +:+ analysis item +:+
  "</td><td>" +:+ risk_text (riskLevel item) +:+ "</td><td>" +:+
  suggestedAdjustment item +:+ "</td><td>" +:+ decision +:+ "</td><td>" +:+
  explanation +:+ "</td></tr>".

(** What every review the generator made has in common. *)
Definition generated_review (r : AIReview) : Prop :=
  overallRisk r = High
  /\ 2 <= length (riskItems r) <= 4
  /\ Forall (fun item => begins_with "R" (risk_id item) = true) (riskItems r).

Definition reviews_generated (p : Project) : Prop :=
  forall r, aiReview p = Some r -> generated_review r.

(** The events that write the store and set no callback. *)
Definition store_event (ev : Event) : Prop :=
  match ev with
  | Create _ _ _ _ | SaveDispositions _ _ _ | SubmitForDepartmentReview _ _ => True
  | StartReview _ _ | ReviewCompletes _ _ _ => False
  end.

Section Completion.
Context `{Platform}.

(** The project the callback of [startAIReview] writes back. *)
Definition reviewed_project (e : Entropy) (now : Date) (p : Project) : Project :=
  set_updatedAt (formatDate now)
    (set_status AI_COMPLETED (set_aiReview (Some (createDummyAIResults e)) p)).

End Completion.

End Views.

(** ** Sample data *)

(** Concrete inputs, for running the definitions. *)
Module Sample.
Import JS Client LiteralNumber.

Fixpoint trim_start (s : string) : string :=
  match s with
  | EmptyString => ""
  | String c r => if JSON.is_ws c then trim_start r else s
  end.

(** A platform in which [trim] removes blanks, tabs and line ends, and
    every number prints in base 36 as one of two fixed texts. *)
#[export] Instance platform : Platform := {
  trim := fun s => String.rev (trim_start (String.rev (trim_start s)));
  toString36 := fun q => if (Qden q =? 1)%positive then "lq8x2kd0" else "0.k3j9x7a2b1"
}.

Definition half : Random := {| fraction := 1 # 2; fraction_range := eq_refl |}.
Definition three_quarters : Random := {| fraction := 3 # 4; fraction_range := eq_refl |}.

Definition entropy : Entropy :=
  {| Math_random := fun _ => three_quarters; Date_now := fun _ => 1700000000000%Z |}.

Definition noon : Date :=
  {| getFullYear := 2024; getMonth := 0; getDate := 5; getHours := 12; getMinutes := 0 |}.
Definition later : Date :=
  {| getFullYear := 2024; getMonth := 0; getDate := 5; getHours := 12; getMinutes := 7 |}.

Definition form : CreateForm :=
  {| form_projectName := " 城市更新补贴办法 ";
     form_policyTitle := "关于支持本地企业的若干措施";
     form_org := "市发改委";
     form_draftType := "规范性文件";
     form_scope := "全市";
     form_releaseDate := "2024-03-01";
     form_isSecret := false;
     form_applyException := false |}.

(** The identifier [generateId('P')] forms on this platform. *)
Definition project_id : string := "Pk3j9xlq8x2kd0".
Definition finding_id : string := "Rk3j9xlq8x2kd0".

Definition created : list Event := [Create form noon half 1700000000000%Z].
Definition reviewed : list Event :=
  created ++ [StartReview project_id noon; ReviewCompletes 0 entropy noon].
Definition restarted : list Event := reviewed ++ [StartReview project_id later].

Definition decisions : ActionForm :=
  {| selects := [(finding_id, "adopt"); ("R-other", "")];
     querySelector := fun selector =>
       if (selector =? desc_selector finding_id)%string
       then Return (Some " 已按建议修改 ")
       else Return None |}.

(** A reply that lacks [riskScore] and whose [issues] is not an array. *)
Definition malformed_reply : value string :=
  VObj [("summary", VNull); ("issues", VStr "none")].

End Sample.

(** * Properties *)

(** ** The [/api/review] route *)

Section ServerFacts.
Import JS Server.
Context {number : Type} `{JSNumber number}.

Lemma Get_field (v : value number) (k : string) :
  v <> VNull -> v <> VUndefined -> Get v k = Return (field v k).
Proof. destruct v; simpl; congruence. Qed.

Lemma Get_nullish (v : value number) (k : string) :
  v = VNull \/ v = VUndefined -> Get v k = Throw TypeError.
Proof. intros [-> | ->]; reflexivity. Qed.

Lemma or_else_object (v : value number) :
  or_else v (VObj []) <> VNull /\ or_else v (VObj []) <> VUndefined.
Proof.
  unfold or_else. destruct (truthy v) eqn:E.
  - split; intros ->; discriminate.
  - split; discriminate.
Qed.

Lemma field_or_else_object (v : value number) (k : string) :
  field (or_else v (VObj [])) k = field v k.
Proof.
  unfold or_else. destruct (truthy v) eqn:E; [reflexivity|].
  destruct v; simpl in *; try reflexivity; discriminate.
Qed.

Lemma content_rejected_iff (content : value number) :
  content_rejected content = true <-> content_missing_empty_or_not_text content.
Proof.
  unfold content_rejected, content_missing_empty_or_not_text.
  destruct content; simpl; rewrite ?orb_true_r, ?orb_false_r;
    try (split; [intros _; auto | reflexivity]).
  rewrite negb_involutive.
  destruct (String.eqb_spec s ""); subst; split; auto; try discriminate.
  intros [?|[?|?]]; congruence.
Qed.

Lemma review_status callLLM businessType jurisdiction content options :
  status (fst (review callLLM businessType jurisdiction content options)) = 200
  \/ status (fst (review callLLM businessType jurisdiction content options)) = 500.
Proof.
  unfold review.
  repeat match goal with
         | |- context [match ?x with _ => _ end] => destruct x
         end; simpl; auto.
Qed.

Lemma post_review_unfold callLLM (req_body : value number) :
  post_review callLLM req_body =
  if content_rejected (field req_body "content") then (bad_request, [])
  else review callLLM (field req_body "businessType") (field req_body "jurisdiction")
         (field req_body "content") (field req_body "options").
Proof.
  unfold post_review.
  destruct (or_else_object req_body) as [Hn Hu].
  rewrite !(Get_field _ _ Hn Hu). simpl.
  rewrite !field_or_else_object. reflexivity.
Qed.

(** On a payload other than [null] and [undefined] the normalisation
    returns an object with exactly the four fields
    [riskScore], [summary], [issues], [modelNote]: [riskScore] is the
    payload's when that is a number and [null] otherwise; [summary] and
    [modelNote] are the empty text when missing (or otherwise falsy) and
    the payload's when truthy; [issues] is the payload's when that is an
    array and the empty array otherwise.  On [null] and [undefined] the
    first property read throws a [TypeError]. *)
Theorem normalize_by_cases (parsed : value number) :
  (parsed <> VNull -> parsed <> VUndefined ->
   exists riskScore summary issues modelNote,
     normalize parsed =
       Return (VObj [("riskScore", riskScore); ("summary", summary);
                     ("issues", issues); ("modelNote", modelNote)])
     /\ (is_number (field parsed "riskScore") = true ->
         riskScore = field parsed "riskScore")
     /\ (is_number (field parsed "riskScore") = false -> riskScore = VNull)
     /\ (field parsed "summary" = VUndefined -> summary = VStr "")
     /\ summary = (if truthy (field parsed "summary")
                   then field parsed "summary" else VStr "")
     /\ (isArray (field parsed "issues") = true -> issues = field parsed "issues")
     /\ (isArray (field parsed "issues") = false -> issues = VArr [])
     /\ (field parsed "modelNote" = VUndefined -> modelNote = VStr "")
     /\ modelNote = (if truthy (field parsed "modelNote")
                     then field parsed "modelNote" else VStr ""))
  /\ (parsed = VNull \/ parsed = VUndefined -> normalize parsed = Throw TypeError).
Proof.
  split.
  - intros Hn Hu. unfold normalize. rewrite !(Get_field _ _ Hn Hu). simpl.
    do 4 eexists. split; [reflexivity|].
    repeat split.
    + intros ->. reflexivity.
    + intros ->. reflexivity.
    + intros ->. reflexivity.
    + intros ->. reflexivity.
    + intros ->. reflexivity.
    + intros ->. reflexivity.
  - intros Hnull. unfold normalize. rewrite (Get_nullish _ _ Hnull). reflexivity.
Qed.

(** C4.  The route answers 400 with [{error: "content 不能为空"}] exactly
    when the content of the request is missing, empty or not text; then
    nothing was handed to the backend.  A request whose content is a
    non-empty text goes on to [review]. *)
Theorem post_review_validation (callLLM : string -> completion (value number))
    (req_body : value number) :
  (fst (post_review callLLM req_body) = bad_request
   <-> content_missing_empty_or_not_text (field req_body "content"))
  /\ (content_missing_empty_or_not_text (field req_body "content") ->
      post_review callLLM req_body = (bad_request, []))
  /\ (forall text, field req_body "content" = VStr text -> text <> "" ->
      post_review callLLM req_body =
        review callLLM (field req_body "businessType")
          (field req_body "jurisdiction") (VStr text) (field req_body "options")
      /\ status (fst (post_review callLLM req_body)) <> 400).
Proof.
  rewrite post_review_unfold.
  pose proof (content_rejected_iff (field req_body "content")) as Hiff.
  destruct (content_rejected (field req_body "content")) eqn:E.
  - split; [|split].
    + simpl. split; intros _; [apply Hiff|]; reflexivity.
    + reflexivity.
    + intros text Htext Hne. exfalso.
      destruct Hiff as [Hiff _]. specialize (Hiff eq_refl).
      rewrite Htext in Hiff. destruct Hiff as [?|[?|?]]; simpl in *; congruence.
  - assert (Hst := review_status callLLM (field req_body "businessType")
        (field req_body "jurisdiction") (field req_body "content")
        (field req_body "options")).
    split; [|split].
    + split.
      * intros Hbad. rewrite Hbad in Hst. simpl in Hst. destruct Hst; discriminate.
      * intros Hc. apply Hiff in Hc. discriminate.
    + intros Hc. apply Hiff in Hc. discriminate.
    + intros text Htext Hne. rewrite <- Htext. split; [reflexivity|].
      destruct Hst as [-> | ->]; discriminate.
Qed.

End ServerFacts.

(** ** The demonstration generator *)

Section GeneratorFacts.
Import JS Client.
Context `{Platform}.

Lemma fraction_bounds (r : Random) : (0 <= fraction r /\ fraction r < 1)%Q.
Proof.
  destruct r as [q Hq]; simpl.
  apply andb_true_iff in Hq as [H0 H1].
  split.
  - apply Qle_bool_iff, H0.
  - apply Qnot_le_lt. intros Hle. apply Qle_bool_iff in Hle.
    rewrite Hle in H1. discriminate.
Qed.

Lemma random_below_range (r : Random) (n : Z) :
  (0 < n)%Z -> (0 <= random_below r n < n)%Z.
Proof.
  intros Hn. unfold random_below.
  destruct (fraction_bounds r) as [H0 H1].
  assert (Hpos : (0 < inject_Z n)%Q).
  { change 0%Q with (inject_Z 0). rewrite <- Zlt_Qlt. exact Hn. }
  split.
  - rewrite <- (Qfloor_Z 0). apply Qfloor_resp_le.
    apply Qmult_le_0_compat; [exact H0 | apply Qlt_le_weak, Hpos].
  - rewrite Zlt_Qlt.
    eapply Qle_lt_trans; [apply Qfloor_le|].
    rewrite <- (Qmult_1_l (inject_Z n)) at 2.
    apply Qmult_lt_compat_r; assumption.
Qed.

Lemma dummy_count (e : Entropy) :
  2 <= length (riskItems (createDummyAIResults e)) <= 4.
Proof.
  unfold createDummyAIResults; simpl.
  rewrite length_map, length_seq.
  pose proof (random_below_range (Math_random e 0) 3 ltac:(lia)). lia.
Qed.

Lemma nth_lookup_lt {A} (l : list A) (i : nat) (d : A) :
  i < length l -> l !! i = Some (nth i l d).
Proof.
  intros Hi. destruct (nth_lookup_or_length l i d) as [Heq | Hge]; [exact Heq | lia].
Qed.

Lemma dummy_items_lookup (e : Entropy) (i : nat) (item : Finding) :
  riskItems (createDummyAIResults e) !! i = Some item ->
  item = dummy_item e i /\ i < 4.
Proof.
  unfold createDummyAIResults; simpl. intros Hi.
  pose proof (random_below_range (Math_random e 0) 3 ltac:(lia)) as Hr.
  rewrite list_lookup_fmap in Hi.
  destruct (seq 0 _ !! i) as [j|] eqn:Hj; [|discriminate].
  apply lookup_seq in Hj as [-> Hlt]. simpl in Hi. inversion Hi. split; [reflexivity | lia].
Qed.

(** The loop of [createDummyAIResults] finds the maximum. *)
Lemma highest_risk_from (items : list Finding) (start : RiskLevel) :
  fold_left
    (fun highest item =>
       if order highest <? order (riskLevel item) then riskLevel item else highest)
    items start
  = risk_max start (maximum_risk (map riskLevel items)).
Proof.
  revert start. induction items as [|x items IH]; intros start; simpl.
  - destruct start; reflexivity.
  - rewrite IH. destruct start, (riskLevel x), (maximum_risk (map riskLevel items)); reflexivity.
Qed.

Lemma highest_risk_maximum (items : list Finding) :
  highest_risk items = maximum_risk (map riskLevel items).
Proof.
  unfold highest_risk. rewrite highest_risk_from.
  destruct (maximum_risk (map riskLevel items)); reflexivity.
Qed.

Lemma maximum_risk_upper (levels : list RiskLevel) (l : RiskLevel) :
  l ∈ levels -> risk_le l (maximum_risk levels).
Proof.
  induction levels as [|x levels IH]; intros Hin.
  - inversion Hin.
  - apply elem_of_cons in Hin as [-> | Hin]; simpl.
    + destruct x, (maximum_risk levels); exact I.
    + specialize (IH Hin).
      destruct l, x, (maximum_risk levels); simpl in *; auto.
Qed.

Lemma maximum_risk_attained (levels : list RiskLevel) :
  levels <> [] -> maximum_risk levels ∈ levels.
Proof.
  induction levels as [|x levels IH]; intros Hne; [congruence|].
  destruct levels as [|y levels].
  - simpl. destruct x; apply list_elem_of_here.
  - specialize (IH ltac:(discriminate)).
    change (maximum_risk (x :: y :: levels))
      with (risk_max x (maximum_risk (y :: levels))).
    destruct x, (maximum_risk (y :: levels)) eqn:E; simpl;
      try apply list_elem_of_here; apply list_elem_of_further; exact IH.
Qed.

End GeneratorFacts.

(** ** The lifecycle of a project *)

Section LifecycleFacts.
Import JS Client.
Context `{Platform}.

Lemma find_Some (projectId : string) (projects : list Project) i p :
  find projectId projects = Some (i, p) ->
  projects !! i = Some p /\ id p = projectId.
Proof.
  revert i. induction projects as [|q projects IH]; intros i; simpl; [discriminate|].
  destruct (String.eqb_spec (id q) projectId) as [Heq | Hne].
  - intros [= <- <-]. split; [reflexivity | exact Heq].
  - destruct (find projectId projects) as [[j r]|]; [|discriminate].
    intros [= <- <-]. apply (IH j eq_refl).
Qed.

Lemma find_None (projectId : string) (projects : list Project) :
  find projectId projects = None <-> forall p, p ∈ projects -> id p <> projectId.
Proof.
  induction projects as [|q projects IH]; simpl.
  - split; [intros _ p Hp; inversion Hp | reflexivity].
  - destruct (String.eqb_spec (id q) projectId) as [Heq | Hne].
    + split; [discriminate|]. intros Hall. exfalso.
      apply (Hall q); [apply list_elem_of_here | exact Heq].
    + destruct (find projectId projects) as [[j r]|].
      * split; [discriminate|]. intros Hall. exfalso.
        destruct IH as [_ IH]. discriminate IH.
        intros p Hp. apply Hall. apply list_elem_of_further, Hp.
      * split; [|reflexivity]. intros _ p Hp.
        apply elem_of_cons in Hp as [-> | Hp]; [exact Hne|].
        destruct IH as [IH _]. apply (IH eq_refl p Hp).
Qed.

Lemma step_everywhere (P start_ok : Project -> Prop) (ev : Event) (b : Browser) :
  stable P start_ok -> everywhere P b -> start_meets start_ok ev b ->
  everywhere P (fst (step ev b)).
Proof.
  intros HP [Hs Ht] Hstart. destruct ev as [form now r ms | pid now | k e now | pid form now | pid now]; simpl.
  - unfold handleCreateProject.
    destruct (_ || _); simpl; [split; assumption|].
    split; [|exact Ht].
    apply Forall_app_2; [exact Hs|]. constructor; [|constructor].
    apply (stable_create P start_ok HP); reflexivity.
  - unfold startAIReview. unfold getProjects in *.
    destruct (find pid (localStorage b)) as [[i p]|] eqn:Hf; simpl; [|split; assumption].
    apply find_Some in Hf as Hfp. destruct Hfp as [Hi _].
    assert (Hnew : Forall P
      (<[i := set_updatedAt (formatDate now) (set_status AI_REVIEWING p)]> (localStorage b))).
    { apply Forall_insert; [exact Hs|].
      apply (stable_start P start_ok HP).
      - apply (Forall_lookup_1 _ _ _ _ Hs Hi).
      - apply (Hstart i p Hf). }
    split; [exact Hnew|].
    apply Forall_app_2; [exact Ht|]. constructor; [exact Hnew | constructor].
  - unfold review_timeout.
    destruct (timers b !! k) as [t|] eqn:Hk; simpl; [|split; assumption].
    destruct (held_projects t !! held_index t) as [p|] eqn:Hp; simpl; [|split; assumption].
    pose proof (Forall_lookup_1 _ _ _ _ Ht Hk) as Hheld. simpl in Hheld.
    split.
    + apply Forall_insert; [exact Hheld|].
      apply (stable_complete P start_ok HP).
      apply (Forall_lookup_1 _ _ _ _ Hheld Hp).
    + apply Forall_delete, Ht.
  - unfold saveRiskActions. unfold getProjects in *.
    destruct (find pid (localStorage b)) as [[i p]|] eqn:Hf; simpl; [|split; assumption].
    apply find_Some in Hf as [Hi _].
    destruct (aiReview p) as [r|] eqn:Hr; simpl; [|split; assumption].
    destruct (fold_left (save_one form) (selects form) (Return (actions r)))
      as [saved|error] eqn:Hsaved; simpl; [|split; assumption].
    split; [|exact Ht].
    apply Forall_insert; [exact Hs|].
    apply (stable_save P start_ok HP _ _ r form); [|exact Hr | exact Hsaved].
    apply (Forall_lookup_1 _ _ _ _ Hs Hi).
  - unfold submitForDepartmentReview. unfold getProjects in *.
    destruct (find pid (localStorage b)) as [[i p]|] eqn:Hf; simpl; [|split; assumption].
    apply find_Some in Hf as [Hi _].
    destruct (aiReview p) as [r|] eqn:Hr; simpl; [|split; assumption].
    split; [|exact Ht].
    apply Forall_insert; [exact Hs|].
    apply (stable_submit P start_ok HP _ _ r); [|exact Hr].
    apply (Forall_lookup_1 _ _ _ _ Hs Hi).
Qed.

Lemma run_cons (ev : Event) (evs : list Event) (b : Browser) :
  run (ev :: evs) b = run evs (fst (step ev b)).
Proof. reflexivity. Qed.

Lemma run_everywhere (P : Project -> Prop) (evs : list Event) (b : Browser) :
  stable P (fun _ => True) -> everywhere P b -> everywhere P (run evs b).
Proof.
  intros HP. revert b. induction evs as [|ev evs IH]; intros b Hb; [exact Hb|].
  rewrite run_cons. apply IH.
  apply (step_everywhere P (fun _ => True)); [exact HP | exact Hb |].
  destruct ev; simpl; auto.
Qed.

Lemma run_everywhere_guarded (P : Project -> Prop) (evs : list Event) (b : Browser) :
  stable P (fun p => aiReview p = None) -> everywhere P b ->
  start_guarded evs b = true -> everywhere P (run evs b).
Proof.
  intros HP. revert b. induction evs as [|ev evs IH]; intros b Hb Hg; [exact Hb|].
  rewrite run_cons. simpl in Hg. apply andb_true_iff in Hg as [Hev Hrest].
  apply IH; [|exact Hrest].
  apply (step_everywhere P (fun p => aiReview p = None)); [exact HP | exact Hb |].
  destruct ev; simpl; auto.
  intros i p Hf. rewrite Hf in Hev. destruct (aiReview p); [discriminate | reflexivity].
Qed.

Lemma everywhere_fresh (P : Project -> Prop) : everywhere P fresh.
Proof. split; constructor. Qed.

Lemma review_matches_status_stable : stable review_matches_status (fun _ => True).
Proof.
  split; unfold review_matches_status; simpl.
  - intros p Hs Hr. rewrite Hs, Hr. repeat split; try congruence. intros [?|?]; discriminate.
  - intros p t Hp Hok. repeat split; try discriminate. intros [?|?]; discriminate.
  - intros p t e Hp. repeat split; discriminate.
  - intros p t r form saved (Hd & Hc & Ha) Hr _. rewrite Hr in Hd.
    repeat split; try discriminate.
    + intros Hs. specialize (Hd Hs). discriminate.
    + exact Ha.
  - intros p t r (Hd & Hc & Ha) Hr. rewrite Hr. repeat split; discriminate.
Qed.

Lemma review_iff_status_stable : stable review_iff_status (fun p => aiReview p = None).
Proof.
  split; unfold review_iff_status, review_done; simpl.
  - intros p -> ->. split; [split|]; [congruence | | reflexivity].
    intros [?|[?|?]]; discriminate.
  - intros p t Hp ->. split; [split|]; [congruence | | reflexivity].
    intros [?|[?|?]]; discriminate.
  - intros p t e Hp. split; [split|]; [auto | discriminate |].
    intros [?|?]; discriminate.
  - intros p t r form saved [Hiff Hnone] Hr _. rewrite Hr in *. split; [split|].
    + intros _. apply Hiff. discriminate.
    + discriminate.
    + intros Hs. specialize (Hnone Hs). discriminate.
  - intros p t r [Hiff Hnone] Hr. rewrite Hr. split; [split|]; [auto | discriminate |].
    intros [?|?]; discriminate.
Qed.

(** C2 (amended).  Start from an empty store and run any sequence of
    Create, StartReview, review completion, SaveDispositions and
    SubmitForDepartmentReview.  Every stored project then has [aiReview]
    null when its status is [DRAFT] and non-null when its status is
    [AI_COMPLETED] or [DEPT_REVIEWING] (no project becomes [APPROVED]).
    If moreover every StartReview of the run met a project without review,
    as the detail page offers it, [aiReview] is non-null exactly when the
    status is [AI_COMPLETED], [DEPT_REVIEWING] or [APPROVED], and null in
    [DRAFT] and [AI_REVIEWING]. *)
Theorem review_presence_by_status (evs : list Event) (p : Project) :
  p ∈ localStorage (run evs fresh) ->
  (status p = DRAFT -> aiReview p = None)
  /\ (status p = AI_COMPLETED \/ status p = DEPT_REVIEWING -> aiReview p <> None)
  /\ status p <> APPROVED
  /\ (start_guarded evs fresh = true ->
      (aiReview p <> None <-> review_done (status p))
      /\ (status p = DRAFT \/ status p = AI_REVIEWING -> aiReview p = None)).
Proof.
  intros Hp.
  destruct (run_everywhere review_matches_status evs fresh
              review_matches_status_stable (everywhere_fresh _)) as [Hs _].
  rewrite Forall_forall in Hs. destruct (Hs p Hp) as (Hd & Hc & Ha).
  split; [exact Hd|]. split; [exact Hc|]. split; [exact Ha|].
  intros Hguard.
  destruct (run_everywhere_guarded review_iff_status evs fresh
              review_iff_status_stable (everywhere_fresh _) Hguard) as [Hg _].
  rewrite Forall_forall in Hg. apply (Hg p Hp).
Qed.

End LifecycleFacts.

(** ** Properties of objects *)

Section PropertyFacts.
Import JS.
Context {A : Type}.
Implicit Types (k : string) (v : A) (props : list (string * A)).

Lemma lookup_replace_property k' k v props :
  lookup_property k' (replace_property k v props) =
  if (k =? k')%string
  then (if has_property k props then Some v else None)
  else lookup_property k' props.
Proof.
  unfold has_property.
  destruct (String.eqb_spec k k') as [<- | Hkk].
  - induction props as [|[k0 v0] props IH]; simpl; [reflexivity|].
    destruct (String.eqb_spec k0 k) as [-> | Hne]; simpl.
    + rewrite String.eqb_refl. reflexivity.
    + destruct (String.eqb_spec k0 k); [congruence | exact IH].
  - induction props as [|[k0 v0] props IH]; simpl; [reflexivity|].
    destruct (String.eqb_spec k0 k) as [-> | Hne]; simpl.
    + destruct (String.eqb_spec k k'); [congruence | exact IH].
    + destruct (String.eqb_spec k0 k'); [reflexivity | exact IH].
Qed.

Lemma lookup_insert_index k' i k v props :
  has_property k props = false ->
  lookup_property k' (insert_index i k v props) =
  if (k =? k')%string then Some v else lookup_property k' props.
Proof.
  unfold has_property.
  induction props as [|[k0 v0] props IH]; simpl; intros Hno.
  - reflexivity.
  - destruct (String.eqb_spec k0 k) as [-> | Hne]; [discriminate|].
    destruct (array_index k0) as [j|]; [destruct (j <? i)%N|]; simpl.
    + destruct (String.eqb_spec k0 k') as [-> | Hne'].
      * destruct (String.eqb_spec k k'); [congruence | reflexivity].
      * apply IH, Hno.
    + reflexivity.
    + reflexivity.
Qed.

Lemma lookup_app_property k' k v props :
  has_property k props = false ->
  lookup_property k' (props ++ [(k, v)]) =
  if (k =? k')%string then Some v else lookup_property k' props.
Proof.
  unfold has_property.
  induction props as [|[k0 v0] props IH]; simpl; intros Hno.
  - reflexivity.
  - destruct (String.eqb_spec k0 k) as [-> | Hne]; [discriminate|].
    destruct (String.eqb_spec k0 k') as [-> | Hne'].
    + destruct (String.eqb_spec k k'); [congruence | reflexivity].
    + apply IH, Hno.
Qed.

(** Reading after writing. *)
Lemma lookup_define_property k' k v props :
  lookup_property k' (define_property k v props) =
  if (k =? k')%string then Some v else lookup_property k' props.
Proof.
  unfold define_property. destruct (has_property k props) eqn:Hhas.
  - rewrite lookup_replace_property, Hhas. reflexivity.
  - destruct (array_index k).
    + apply lookup_insert_index, Hhas.
    + apply lookup_app_property, Hhas.
Qed.

Lemma elem_of_insert_index kv i k v props :
  kv ∈ insert_index i k v props <-> kv = (k, v) \/ kv ∈ props.
Proof.
  induction props as [|[k0 v0] props IH]; simpl.
  - rewrite list_elem_of_singleton, elem_of_nil. tauto.
  - destruct (array_index k0) as [j|]; [destruct (j <? i)%N|].
    + rewrite !elem_of_cons, IH. tauto.
    + rewrite !elem_of_cons. tauto.
    + rewrite !elem_of_cons. tauto.
Qed.

(** What an object holds after a write: the value written under the key
    written, what it held under the other keys. *)
Lemma elem_of_define_property k' v' k v props :
  (k', v') ∈ define_property k v props ->
  (k' = k /\ v' = v) \/ (k' <> k /\ (k', v') ∈ props).
Proof.
  unfold define_property. destruct (has_property k props) eqn:Hhas.
  - unfold replace_property. rewrite list_elem_of_fmap.
    intros ([k0 v0] & Heq & Hin). simpl in Heq.
    destruct (String.eqb_spec k0 k) as [-> | Hne]; inversion Heq; subst; auto.
  - assert (Hfresh : forall x, (k, x) ∈ props -> False).
    { intros x Hx. unfold has_property in Hhas.
      induction props as [|[k0 v0] props IH]; [inversion Hx|].
      simpl in Hhas. destruct (String.eqb_spec k0 k) as [-> | Hne]; [discriminate|].
      apply elem_of_cons in Hx as [Hx | Hx]; [congruence | auto]. }
    intros Hin.
    assert (Hor : (k', v') = (k, v) \/ (k', v') ∈ props).
    { destruct (array_index k).
      - apply elem_of_insert_index in Hin. exact Hin.
      - apply elem_of_app in Hin as [Hin | Hin]; [auto|].
        apply list_elem_of_singleton in Hin. auto. }
    destruct Hor as [[= -> ->] | Hold]; [auto|].
    right. split; [|exact Hold]. intros ->. apply (Hfresh v' Hold).
Qed.

End PropertyFacts.

(** *** Property order *)

Section OrderFacts.
Import JS.
Context {A : Type}.
Implicit Types (k : string) (v : A) (props : list (string * A)).

Lemma array_index_decimal k n : array_index k = Some n -> k = decimal n.
Proof.
  unfold array_index. destruct (digits_value k 0) as [m|]; [|discriminate].
  destruct (m <=? 4294967294)%N; [|discriminate]. simpl.
  destruct (String.eqb_spec k (decimal m)); [|discriminate].
  intros [= <-]. assumption.
Qed.

Lemma array_index_inj k1 k2 n :
  array_index k1 = Some n -> array_index k2 = Some n -> k1 = k2.
Proof.
  intros H1 H2. apply array_index_decimal in H1, H2. congruence.
Qed.

Lemma key_before_irrefl k : ~ key_before k k.
Proof.
  unfold key_before. destruct (array_index k); [lia | congruence].
Qed.

Lemma has_property_false k props :
  has_property k props = false <-> Forall (fun kv => fst kv <> k) props.
Proof.
  unfold has_property.
  induction props as [|[k0 v0] props IH]; simpl.
  - split; [constructor | reflexivity].
  - destruct (String.eqb_spec k0 k) as [-> | Hne].
    + split; [discriminate|]. intros Hall. inversion Hall; subst. simpl in *. congruence.
    + rewrite IH. split.
      * intros Hall. constructor; [exact Hne | exact Hall].
      * intros Hall. inversion Hall; assumption.
Qed.

(** A key that comes after all the keys of an object is added at the end. *)
Lemma define_property_last k v props :
  Forall (fun kv => key_before (fst kv) k) props ->
  define_property k v props = props ++ [(k, v)].
Proof.
  intros Hall. unfold define_property.
  assert (Hfresh : has_property k props = false).
  { apply has_property_false. eapply Forall_impl; [exact Hall|].
    intros [k0 v0] Hb Heq. simpl in *. subst. apply (key_before_irrefl _ Hb). }
  rewrite Hfresh. destruct (array_index k) as [i|] eqn:Hk; [|reflexivity].
  induction props as [|[k0 v0] props IH]; [reflexivity|].
  inversion Hall as [|? ? Hb Hrest]; subst. simpl in Hb.
  unfold key_before in Hb. rewrite Hk in Hb. simpl.
  destruct (array_index k0) as [j|]; [|contradiction].
  apply N.ltb_lt in Hb. rewrite Hb. rewrite IH; [reflexivity | exact Hrest |].
  apply has_property_false in Hfresh. inversion Hfresh; subst.
  apply has_property_false. assumption.
Qed.

Lemma keys_in_order_app_cons (xs : list string) (y : string) (ys : list string) :
  keys_in_order (xs ++ y :: ys) -> Forall (fun x => key_before x y) xs.
Proof.
  induction xs as [|x xs IH]; simpl; [constructor|].
  intros [Hx Hrest]. constructor; [|apply IH, Hrest].
  rewrite Forall_app in Hx. destruct Hx as [_ Hx]. inversion Hx; assumption.
Qed.

Lemma fold_define_in_order props acc :
  keys_in_order (map fst (acc ++ props)) ->
  fold_left (fun a kv => define_property (fst kv) (snd kv) a) props acc = acc ++ props.
Proof.
  revert acc. induction props as [|[k v] props IH]; intros acc Hord; simpl.
  - rewrite app_nil_r. reflexivity.
  - rewrite define_property_last.
    + rewrite IH; rewrite <- app_assoc; [reflexivity | exact Hord].
    + rewrite map_app in Hord. simpl in Hord.
      apply keys_in_order_app_cons in Hord.
      rewrite Forall_forall in Hord. apply Forall_forall.
      intros kv Hin. apply Hord.
      apply list_elem_of_fmap. exists kv. auto.
Qed.

(** An object in property order is what defining its properties one after
    the other gives. *)
Lemma object_of_in_order props : in_property_order props -> object_of props = props.
Proof. intros Hord. apply (fold_define_in_order props []). exact Hord. Qed.

Lemma keys_replace_property k v props :
  map fst (replace_property k v props) = map fst props.
Proof.
  unfold replace_property. rewrite map_map. apply map_ext.
  intros [k0 v0]. simpl. destruct (k0 =? k)%string; reflexivity.
Qed.

Lemma keys_in_order_snoc (xs : list string) (y : string) :
  keys_in_order xs -> Forall (fun x => key_before x y) xs -> keys_in_order (xs ++ [y]).
Proof.
  induction xs as [|x xs IH]; simpl; intros Hord Hall.
  - split; [constructor | exact I].
  - destruct Hord as [Hx Hrest]. inversion Hall; subst. split.
    + apply Forall_app. split; [exact Hx | constructor; [assumption | constructor]].
    + apply IH; assumption.
Qed.

Lemma keys_in_order_insert_index i k v props :
  array_index k = Some i -> has_property k props = false ->
  in_property_order props -> in_property_order (insert_index i k v props).
Proof.
  unfold in_property_order. intros Hk Hfresh.
  induction props as [|[k0 v0] props IH]; simpl; intros Hord.
  - split; [constructor | exact I].
  - destruct Hord as [H0 Hrest].
    apply has_property_false in Hfresh. inversion Hfresh as [|? ? Hne Hfresh']; subst.
    simpl in Hne. apply has_property_false in Hfresh'.
    destruct (array_index k0) as [j|] eqn:Hk0.
    + destruct (j <? i)%N eqn:Hlt; simpl.
      * split; [|apply IH; assumption].
        assert (Hkeys : forall x, x ∈ map fst (insert_index i k v props) ->
                          x = k \/ x ∈ map fst props).
        { intros x Hx. apply list_elem_of_fmap in Hx as ([k1 v1] & -> & Hin).
          apply elem_of_insert_index in Hin as [[= -> ->] | Hin]; [auto|].
          right. apply list_elem_of_fmap. exists (k1, v1). auto. }
        rewrite Forall_forall in H0. apply Forall_forall. intros x Hx.
        destruct (Hkeys x Hx) as [-> | Hold]; [|auto].
        unfold key_before. rewrite Hk0, Hk. apply N.ltb_lt, Hlt.
      * assert (Hij : (i < j)%N).
        { apply N.ltb_ge in Hlt. destruct (N.eq_dec i j) as [<- | Hneq]; [|lia].
          exfalso. apply Hne. apply (array_index_inj _ _ _ Hk0 Hk). }
        split; [|split; assumption].
        constructor.
        { unfold key_before. rewrite Hk, Hk0. exact Hij. }
        eapply Forall_impl; [exact H0|]. intros x Hx.
        unfold key_before in *. rewrite Hk0 in Hx. rewrite Hk.
        destruct (array_index x); [lia | exact I].
    + simpl. split; [|split; assumption].
      constructor.
      { unfold key_before. rewrite Hk, Hk0. exact I. }
      eapply Forall_impl; [exact H0|]. intros x Hx.
      unfold key_before in *. rewrite Hk0 in Hx. rewrite Hk.
      destruct (array_index x); [contradiction | exact I].
Qed.

(** Writing a property keeps an object in property order. *)
Lemma define_property_in_order k v props :
  in_property_order props -> in_property_order (define_property k v props).
Proof.
  intros Hord. unfold define_property.
  destruct (has_property k props) eqn:Hhas.
  - unfold in_property_order. rewrite keys_replace_property. exact Hord.
  - destruct (array_index k) as [i|] eqn:Hk.
    + apply keys_in_order_insert_index; assumption.
    + unfold in_property_order. rewrite map_app. simpl.
      apply keys_in_order_snoc; [exact Hord|].
      apply has_property_false in Hhas.
      rewrite Forall_forall in Hhas. apply Forall_forall. intros x Hx.
      apply list_elem_of_fmap in Hx as ([k1 v1] & -> & Hin).
      specialize (Hhas _ Hin). simpl in *.
      unfold key_before. rewrite Hk.
      destruct (array_index k1); [exact I | exact Hhas].
Qed.

End OrderFacts.


(** ** Saving dispositions *)

Section DispositionFacts.
Import JS Client.
Context `{Platform}.
#[local] Arguments chosen_from : simpl never.

Lemma record_one_lookup form actions sel k :
  lookup_property k (record_one form actions sel) =
  if (fst sel =? k)%string && negb (snd sel =? "")%string
  then Some (disposition_of form sel) else lookup_property k actions.
Proof.
  unfold record_one. destruct (negb (snd sel =? "")%string).
  - rewrite lookup_define_property, andb_true_r. reflexivity.
  - rewrite andb_false_r. reflexivity.
Qed.

Lemma fold_save_lookup form sels actions k :
  lookup_property k (fold_left (record_one form) sels actions) =
  chosen_from form sels k (lookup_property k actions).
Proof.
  revert actions. induction sels as [|sel sels IH]; intros actions; simpl; [reflexivity|].
  rewrite IH, record_one_lookup. reflexivity.
Qed.

Lemma chosen_from_cons form sel sels k before :
  chosen_from form (sel :: sels) k before =
  chosen_from form sels k
    (if (fst sel =? k)%string && negb (snd sel =? "")%string
     then Some (disposition_of form sel) else before).
Proof. reflexivity. Qed.

Lemma chosen_from_start form sels k before :
  chosen_from form sels k before =
  match chosen_from form sels k None with
  | Some d => Some d
  | None => before
  end.
Proof.
  revert before. induction sels as [|sel sels IH]; intros before; [reflexivity|].
  rewrite !chosen_from_cons.
  destruct (_ && _).
  - rewrite (IH (Some _)).
    destruct (chosen_from form sels k None); reflexivity.
  - apply IH.
Qed.

Lemma chosen_from_is_Some form sels sel before :
  sel ∈ sels -> snd sel <> "" ->
  is_Some (chosen_from form sels (fst sel) before).
Proof.
  intros Hin Hty. revert before.
  induction sels as [|s0 sels IH]; intros before; [inversion Hin|].
  rewrite chosen_from_cons.
  apply elem_of_cons in Hin as [<- | Hin].
  - rewrite String.eqb_refl.
    destruct (String.eqb_spec (snd sel) ""); [contradiction|]. simpl.
    rewrite chosen_from_start. destruct (chosen_from form sels (fst sel) None); eauto.
  - apply IH, Hin.
Qed.

Lemma elem_of_fold_save form sels actions k d :
  (k, d) ∈ fold_left (record_one form) sels actions ->
  match chosen_from form sels k None with
  | Some d' => d = d'
  | None => (k, d) ∈ actions
  end.
Proof.
  revert actions. induction sels as [|sel sels IH]; intros actions Hin; [exact Hin|].
  change (fold_left (record_one form) (sel :: sels) actions)
    with (fold_left (record_one form) sels (record_one form actions sel)) in Hin.
  specialize (IH _ Hin).
  rewrite chosen_from_cons, chosen_from_start.
  destruct (chosen_from form sels k None) as [d'|]; [exact IH|].
  unfold record_one in IH.
  destruct (String.eqb_spec (snd sel) "") as [Hempty | Hty]; simpl in *.
  - rewrite andb_false_r. exact IH.
  - rewrite andb_true_r.
    apply elem_of_define_property in IH as [[-> ->] | [Hne Hold]].
    + rewrite String.eqb_refl. reflexivity.
    + destruct (String.eqb_spec (fst sel) k); [congruence | exact Hold].
Qed.

Lemma has_property_replace (k' k : string) (d : Disposition) actions :
  has_property k' (replace_property k d actions) = has_property k' actions.
Proof.
  unfold has_property at 1. rewrite lookup_replace_property.
  destruct (String.eqb_spec k k') as [-> | Hne]; [|reflexivity].
  unfold has_property. destruct (lookup_property k' actions); reflexivity.
Qed.

(** Once every finding the form decides has an entry, saving rewrites the
    entries where they are. *)
Lemma fold_save_in_place form sels actions :
  (forall sel, sel ∈ sels -> snd sel <> "" -> has_property (fst sel) actions = true) ->
  fold_left (record_one form) sels actions =
  map (fun kd =>
         (fst kd, match chosen_from form sels (fst kd) None with
                  | Some d => d
                  | None => snd kd
                  end)) actions.
Proof.
  revert actions. induction sels as [|sel sels IH]; intros actions Hall.
  - simpl. symmetry. erewrite map_ext; [apply map_id|]. intros [k d]; reflexivity.
  - change (fold_left (record_one form) (sel :: sels) actions)
      with (fold_left (record_one form) sels (record_one form actions sel)).
    unfold record_one.
    destruct (String.eqb_spec (snd sel) "") as [Hempty | Hty]; simpl negb; cbv iota.
    + rewrite IH.
      * apply map_ext. intros [k d]. simpl.
        rewrite chosen_from_cons.
        destruct (String.eqb_spec (snd sel) ""); [|contradiction].
        rewrite andb_false_r. reflexivity.
      * intros s0 Hs0. apply Hall. apply list_elem_of_further, Hs0.
    + unfold define_property.
      rewrite (Hall sel (list_elem_of_here _ _) Hty).
      rewrite IH.
      * unfold replace_property. rewrite map_map. apply map_ext.
        intros [k d]. simpl.
        rewrite chosen_from_cons.
        match goal with
        | |- context [chosen_from form sels k (if ?c then ?a else ?b)] =>
            rewrite (chosen_from_start form sels k (if c then a else b))
        end.
        rewrite (String.eqb_sym (fst sel) k).
        destruct (String.eqb_spec (snd sel) ""); [contradiction|].
        rewrite andb_true_r. unfold disposition_of.
        destruct (String.eqb_spec k (fst sel)); simpl;
          destruct (chosen_from form sels k None); reflexivity.
      * intros s0 Hs0 Hty0. rewrite has_property_replace.
        apply Hall; [apply list_elem_of_further, Hs0 | exact Hty0].
Qed.

(** Saving the same form a second time changes nothing. *)
Lemma fold_save_idempotent form actions :
  fold_left (record_one form) (selects form)
    (fold_left (record_one form) (selects form) actions)
  = fold_left (record_one form) (selects form) actions.
Proof.
  set (saved := fold_left (record_one form) (selects form) actions).
  rewrite fold_save_in_place.
  - erewrite map_ext_in; [apply map_id|].
    intros [k d] Hin. simpl. apply list_elem_of_In in Hin.
    apply elem_of_fold_save in Hin.
    destruct (chosen_from form (selects form) k None); congruence.
  - intros sel Hin Hty. unfold has_property, saved.
    rewrite fold_save_lookup.
    destruct (chosen_from_is_Some form (selects form) sel
                (lookup_property (fst sel) actions) Hin Hty) as [d ->].
    reflexivity.
Qed.

Lemma find_insert (projectId : string) (projects : list Project) i p p' :
  find projectId projects = Some (i, p) -> id p' = projectId ->
  find projectId (<[i := p']> projects) = Some (i, p').
Proof.
  revert i. induction projects as [|q projects IH]; intros i; simpl; [discriminate|].
  destruct (String.eqb_spec (id q) projectId) as [Heq | Hne].
  - intros [= <- <-] Hid. simpl. rewrite Hid, String.eqb_refl. reflexivity.
  - destruct (find projectId projects) as [[j r]|] eqn:Hf; [|discriminate].
    intros [= <- <-] Hid. simpl.
    destruct (String.eqb_spec (id q) projectId); [contradiction|].
    rewrite (IH j eq_refl Hid). reflexivity.
Qed.

Lemma lookup_assign_property {A} k' k (v : A) props :
  k <> "__proto__" ->
  lookup_property k' (assign_property k v props) =
  if (k =? k')%string then Some v else lookup_property k' props.
Proof.
  intros Hk. unfold assign_property. apply String.eqb_neq in Hk. rewrite Hk.
  apply lookup_define_property.
Qed.

Lemma assign_property_in_order {A} k (v : A) props :
  in_property_order props -> in_property_order (assign_property k v props).
Proof.
  intros Hord. unfold assign_property.
  destruct (_ && _); [exact Hord | apply define_property_in_order, Hord].
Qed.

(** Once an exception is thrown the loop does nothing more. *)
Lemma fold_save_Throw form sels error :
  fold_left (save_one form) sels (Throw error) = Throw error.
Proof. induction sels as [|sel sels IH]; [reflexivity | exact IH]. Qed.

(** A pass of the loop that ends normally leaves the actions or assigns
    one of them. *)
Lemma save_one_Return form actions sel saved :
  save_one form (Return actions) sel = Return saved ->
  exists found,
    querySelector form (desc_selector (fst sel)) = Return found
    /\ saved = (if negb (snd sel =? "")%string
                then assign_property (fst sel) (disposition_of form sel) actions
                else actions).
Proof.
  unfold save_one, disposition_of, explanation. simpl.
  destruct (querySelector form (desc_selector (fst sel))) as [found|];
    [|discriminate].
  simpl. intros [= <-]. exists found. split; [reflexivity|].
  destruct found; reflexivity.
Qed.

Lemma fold_save_cons form sel sels actions :
  fold_left (save_one form) (sel :: sels) actions
  = fold_left (save_one form) sels (save_one form actions sel).
Proof. reflexivity. Qed.

(** What the loop keeps: any property of the actions that assignments
    keep. *)
Lemma fold_save_keeps (Q : list (string * Disposition) -> Prop) form sels actions saved :
  (forall k d acts, Q acts -> Q (assign_property k d acts)) ->
  Q actions ->
  fold_left (save_one form) sels (Return actions) = Return saved -> Q saved.
Proof.
  intros Hkeep. revert actions. induction sels as [|sel sels IH]; intros actions HQ Hsaved.
  - injection Hsaved as <-. exact HQ.
  - rewrite fold_save_cons in Hsaved.
    destruct (save_one form (Return actions) sel) as [next|] eqn:Hnext;
      [|rewrite fold_save_Throw in Hsaved; discriminate].
    apply save_one_Return in Hnext as (found & _ & Hnext). subst next.
    eapply IH; [|exact Hsaved]. destruct (negb _); auto.
Qed.

(** On a form whose selectors are answered and whose identifiers are
    ordinary, the loop ends normally, having recorded each choice. *)
Lemma fold_save_recorded form sels actions :
  Forall (fun sel => exists found,
            querySelector form (desc_selector (fst sel)) = Return found) sels ->
  Forall (fun sel => fst sel <> "__proto__") sels ->
  fold_left (save_one form) sels (Return actions)
  = Return (fold_left (record_one form) sels actions).
Proof.
  intros Hanswer. revert actions.
  induction Hanswer as [|sel sels (found & Hfound) _ IH]; intros actions Hids;
    [reflexivity|].
  apply Forall_cons in Hids as [Hid Hids].
  rewrite fold_save_cons. cbn [fold_left].
  assert (Hone : save_one form (Return actions) sel
                 = Return (record_one form actions sel)).
  { unfold save_one, record_one, disposition_of, explanation, assign_property. simpl.
    rewrite Hfound. simpl. apply String.eqb_neq in Hid. rewrite Hid.
    destruct found; reflexivity. }
  rewrite Hone. apply IH, Hids.
Qed.

End DispositionFacts.

(** ** The handlers, claim by claim *)

Section HandlerFacts.
Import JS Client.
Context `{Platform}.

Lemma overall_is_maximum_stable :
  stable (fun p => forall r, aiReview p = Some r -> overall_is_maximum r)
         (fun _ => True).
Proof.
  split; simpl.
  - intros p _ Hnone r Hr. congruence.
  - intros p t Hp _ r Hr. apply Hp, Hr.
  - intros p t e Hp r [= <-]. apply highest_risk_maximum.
  - intros p t r form saved Hp Hr _ r' [= <-]. apply (Hp r Hr).
  - intros p t r Hp Hr r' Hr'. apply Hp, Hr'.
Qed.

(** C3.  For every list of findings, the loop of [createDummyAIResults]
    returns the maximum of their risk levels in the order 高 > 中 > 低: no
    finding is above it, one finding has it when there is one, and it is
    低 when there is none.  The generator returns as [overallRisk] what
    the loop gives on the findings it made, and so has every review a run
    leaves in the store. *)
Theorem overallRisk_is_maximum :
  (forall items,
     highest_risk items = maximum_risk (map riskLevel items)
     /\ (forall item, item ∈ items ->
           risk_le (riskLevel item) (highest_risk items))
     /\ (items = [] -> highest_risk items = Low)
     /\ (items <> [] ->
           exists item, item ∈ items /\ riskLevel item = highest_risk items))
  /\ (forall e,
        overallRisk (createDummyAIResults e)
        = highest_risk (riskItems (createDummyAIResults e)))
  /\ (forall evs p r,
        p ∈ localStorage (run evs fresh) -> aiReview p = Some r ->
        overallRisk r = highest_risk (riskItems r)
        /\ overall_is_maximum r
        /\ (forall item, item ∈ riskItems r ->
              risk_le (riskLevel item) (overallRisk r))
        /\ (riskItems r <> [] ->
              exists item, item ∈ riskItems r /\ riskLevel item = overallRisk r)).
Proof.
  assert (Hloop : forall items,
    highest_risk items = maximum_risk (map riskLevel items)
    /\ (forall item, item ∈ items ->
          risk_le (riskLevel item) (highest_risk items))
    /\ (items = [] -> highest_risk items = Low)
    /\ (items <> [] ->
          exists item, item ∈ items /\ riskLevel item = highest_risk items)).
  { intros items. rewrite highest_risk_maximum. split; [reflexivity|]. repeat split.
    - intros item Hin. apply maximum_risk_upper.
      apply list_elem_of_fmap. exists item. auto.
    - intros ->. reflexivity.
    - intros Hne.
      assert (Hne' : map riskLevel items <> []).
      { destruct items; [congruence | discriminate]. }
      apply maximum_risk_attained in Hne'.
      apply list_elem_of_fmap in Hne' as (item & Heq & Hin).
      exists item. auto. }
  split; [exact Hloop|]. split; [reflexivity|].
  intros evs p r Hp Hr.
  destruct (run_everywhere _ evs fresh overall_is_maximum_stable
              (everywhere_fresh _)) as [Hs _].
  rewrite Forall_forall in Hs. pose proof (Hs p Hp r Hr) as Hmax.
  unfold overall_is_maximum in Hmax.
  destruct (Hloop (riskItems r)) as (Heq & Hupper & _ & Hattained).
  assert (Hover : overallRisk r = highest_risk (riskItems r)) by congruence.
  split; [exact Hover|]. split; [exact Hmax|]. rewrite Hover.
  split; [exact Hupper | exact Hattained].
Qed.

Lemma pool_lookup (pool : list string) (i : nat) :
  length pool = 4 -> i < 4 -> pool !! i = Some (at_index pool i "").
Proof. intros Hlen Hi. apply nth_lookup_lt. lia. Qed.

(** C7 (amended).  The generator returns between two and four findings
    and an empty [actions] map.  Each finding takes its category,
    analysis, suggested adjustment and law reference from the four pools
    at one common index; its excerpt comes from the pool of texts at the
    position of the finding (modulo four), whatever that index; its risk
    level is the one at its position, modulo three, in 高, 中, 低. *)
Theorem createDummyAIResults_shape (e : Entropy) :
  2 <= length (riskItems (createDummyAIResults e)) <= 4
  /\ actions (createDummyAIResults e) = []
  /\ forall i item, riskItems (createDummyAIResults e) !! i = Some item ->
       (exists idx,
          categories !! idx = Some (category item)
          /\ analysisSamples !! idx = Some (analysis item)
          /\ adjustmentSamples !! idx = Some (suggestedAdjustment item)
          /\ lawRefSamples !! idx = Some (lawReference item))
       /\ sampleTexts !! (i mod 4) = Some (suspectedText item)
       /\ [High; Medium; Low] !! (i mod 3) = Some (riskLevel item).
Proof.
  split; [apply dummy_count|]. split; [reflexivity|].
  intros i item Hi. apply dummy_items_lookup in Hi as [-> Hlt].
  split; [|split].
  - pose proof (random_below_range (Math_random e (1 + 2 * i)) 4 ltac:(lia)) as Hr.
    exists (Z.to_nat (random_below (Math_random e (1 + 2 * i)) 4)).
    assert (Hidx : Z.to_nat (random_below (Math_random e (1 + 2 * i)) 4) < 4) by lia.
    unfold dummy_item.
    cbn [category analysis suggestedAdjustment lawReference].
    change (Z.of_nat (length categories)) with 4%Z.
    repeat split; apply pool_lookup; auto.
  - unfold dummy_item. cbn [suspectedText]. change (length sampleTexts) with 4.
    apply pool_lookup; [reflexivity|]. apply Nat.mod_upper_bound. lia.
  - unfold dummy_item. cbn [riskLevel]. change (length riskLevels) with 3.
    unfold at_index, riskLevels.
    apply nth_lookup_lt. change (length [High; Medium; Low]) with 3.
    apply Nat.mod_upper_bound. lia.
Qed.

(** C5.  On a project that is found, [submitForDepartmentReview] without
    a review leaves the browser as it is and alerts; with a review it
    replaces the project, in its place, by one whose status is
    [DEPT_REVIEWING] and whose [updatedAt] is the present time, every other
    field being the same. *)
Theorem submitForDepartmentReview_by_review (projectId : string) (now : Date)
    (b : Browser) (i : nat) (p : Project) :
  find projectId (getProjects b) = Some (i, p) ->
  (aiReview p = None ->
   submitForDepartmentReview projectId now b = (b, [alert "请先完成 AI 审查"]))
  /\ (aiReview p <> None ->
      exists p',
        submitForDepartmentReview projectId now b =
          ({| localStorage := <[i := p']> (localStorage b); timers := timers b |},
           [alert "已提交至本单位审核人"; navigate "dashboard.html"])
        /\ status p' = DEPT_REVIEWING
        /\ updatedAt p' = formatDate now
        /\ id p' = id p /\ projectName p' = projectName p
        /\ policyTitle p' = policyTitle p /\ org p' = org p
        /\ draftType p' = draftType p /\ scope p' = scope p
        /\ releaseDate p' = releaseDate p /\ isSecret p' = isSecret p
        /\ applyException p' = applyException p /\ createdAt p' = createdAt p
        /\ aiReview p' = aiReview p).
Proof.
  intros Hf. unfold submitForDepartmentReview. rewrite Hf. split.
  - intros ->. reflexivity.
  - intros Hr. destruct (aiReview p) as [r|] eqn:Hrev; [|congruence].
    eexists. split; [reflexivity|]. simpl. rewrite Hrev. repeat split.
Qed.

(** C6.  On a project that has a review, with a form whose identifiers
    are those of findings (the page answers the selector of each, and none
    is [__proto__]), [saveRiskActions] merges key by key: a finding for
    which the form chooses a type maps to the disposition chosen, any
    other key keeps the entry it had, or none.  Saving the same form again
    leaves the same [actions] map. *)
Theorem saveRiskActions_merge (projectId : string) (form : ActionForm)
    (now now' : Date) (b : Browser) (i : nat) (p : Project) (r : AIReview) :
  find projectId (getProjects b) = Some (i, p) -> aiReview p = Some r ->
  selectors_answer form -> ordinary_identifiers form ->
  exists p1 r1 p2 r2,
    saveRiskActions projectId form now b
      = (saveProjects (<[i := p1]> (getProjects b)) b, [alert "已保存处理意见"])
    /\ aiReview p1 = Some r1
    /\ (forall k, lookup_property k (actions r1) =
          match chosen form k with
          | Some d => Some d
          | None => lookup_property k (actions r)
          end)
    /\ fst (saveRiskActions projectId form now'
              (fst (saveRiskActions projectId form now b)))
         = saveProjects (<[i := p2]> (getProjects b)) b
    /\ aiReview p2 = Some r2
    /\ actions r2 = actions r1.
Proof.
  intros Hf Hr Hanswer Hids.
  set (saved := fold_left (record_one form) (selects form) (actions r)).
  set (p1 := set_updatedAt (formatDate now)
               (set_aiReview (Some (set_actions saved r)) p)).
  assert (Hfirst : saveRiskActions projectId form now b =
            (saveProjects (<[i := p1]> (getProjects b)) b, [alert "已保存处理意见"])).
  { unfold saveRiskActions. rewrite Hf, Hr.
    rewrite (fold_save_recorded form _ _ Hanswer Hids). reflexivity. }
  assert (Hid : id p1 = projectId) by (apply find_Some in Hf as [_ Hid]; exact Hid).
  pose proof (find_insert _ _ _ _ p1 Hf Hid) as Hf1.
  exists p1, (set_actions saved r).
  exists (set_updatedAt (formatDate now')
            (set_aiReview (Some (set_actions saved (set_actions saved r))) p1)),
         (set_actions saved (set_actions saved r)).
  rewrite Hfirst. simpl fst.
  split; [reflexivity|]. split; [reflexivity|]. split.
  - intros k. simpl. unfold saved. rewrite fold_save_lookup.
    unfold chosen. apply chosen_from_start.
  - split; [|split; reflexivity].
    unfold saveRiskActions.
    change (getProjects (saveProjects (<[i:=p1]> (getProjects b)) b))
      with (<[i:=p1]> (getProjects b)).
    rewrite Hf1. simpl aiReview. cbv iota.
    change (actions (set_actions saved r)) with saved.
    rewrite (fold_save_recorded form _ _ Hanswer Hids).
    unfold saved at 1. rewrite fold_save_idempotent. fold saved.
    unfold saveProjects. simpl.
    rewrite list_insert_insert_eq. reflexivity.
Qed.

(** A selector the page refuses ends [saveRiskActions] before it writes:
    the store is as it was and nothing is shown. *)
Lemma saveRiskActions_refused (projectId : string) (form : ActionForm)
    (now : Date) (b : Browser) i p r sel rest error :
  find projectId (getProjects b) = Some (i, p) -> aiReview p = Some r ->
  selects form = sel :: rest ->
  querySelector form (desc_selector (fst sel)) = Throw error ->
  saveRiskActions projectId form now b = (b, [uncaught error]).
Proof.
  intros Hf Hr Hsel Hthrow. unfold saveRiskActions. rewrite Hf, Hr, Hsel.
  rewrite fold_save_cons. unfold save_one at 2. cbn [bind].
  rewrite Hthrow. cbn [bind]. rewrite fold_save_Throw. reflexivity.
Qed.

(** A choice made under the identifier [__proto__] is not recorded, unless
    the actions already had that key. *)
Lemma assign_property_proto (d : Disposition) actions :
  has_property "__proto__" actions = false ->
  assign_property "__proto__" d actions = actions.
Proof. intros Hnone. unfold assign_property. rewrite Hnone. reflexivity. Qed.


End HandlerFacts.

(** ** JSON text *)

Section ParserFacts.
Import JS JSON.
Context {number : Type} `{JSNumber number}.

Lemma skip_ws_length (s : string) : String.length (skip_ws s) <= String.length s.
Proof.
  induction s as [|c s IH]; simpl; [lia|].
  destruct (is_ws c); simpl; lia.
Qed.

Lemma skip_ws_cons (s : string) c r :
  skip_ws s = String c r -> String.length r < String.length s.
Proof.
  intros Heq. pose proof (skip_ws_length s) as Hlen.
  rewrite Heq in Hlen. simpl in Hlen. lia.
Qed.

Lemma parse_chars_length_upto (n : nat) (s : string) us rest :
  String.length s <= n ->
  parse_chars s = Some (us, rest) -> String.length rest < String.length s.
Proof.
  revert s us rest. induction n as [|n IH]; intros s us rest Hn.
  { destruct s; simpl in *; [discriminate | lia]. }
  destruct s as [|c r]; simpl; [discriminate|]. simpl in Hn.
  destruct (code c =? 34)%N.
  { intros [= <- <-]. lia. }
  destruct (code c =? 92)%N.
  { destruct r as [|e r1]; [discriminate|]. simpl in Hn.
    destruct (simple_escape e).
    - destruct (parse_chars r1) as [[us' rest']|] eqn:Hr1; [|discriminate].
      intros [= <- <-]. apply IH in Hr1; simpl; lia.
    - destruct (code e =? 117)%N; [|discriminate].
      destruct r1 as [|h1 [|h2 [|h3 [|h4 r2]]]]; try discriminate.
      destruct (hex4 h1 h2 h3 h4); [|discriminate].
      destruct (parse_chars r2) as [[us' rest']|] eqn:Hr2; [|discriminate].
      simpl in Hn. intros [= <- <-]. apply IH in Hr2; simpl; lia. }
  destruct (code c <? 32)%N; [discriminate|].
  destruct (parse_chars r) as [[us' rest']|] eqn:Hr; [|discriminate].
  intros [= <- <-]. apply IH in Hr; simpl; lia.
Qed.

Lemma parse_chars_length (s : string) us rest :
  parse_chars s = Some (us, rest) -> String.length rest < String.length s.
Proof. apply (parse_chars_length_upto (String.length s)). lia. Qed.

Lemma parse_string_length (s : string) str rest :
  parse_string s = Some (str, rest) -> String.length rest < String.length s.
Proof.
  unfold parse_string. destruct (parse_chars s) as [[us r]|] eqn:Hp; [|discriminate].
  intros [= <- <-]. eapply parse_chars_length, Hp.
Qed.

Lemma take_digits_length (s : string) :
  String.length (snd (take_digits s)) <= String.length s.
Proof.
  induction s as [|c s IH]; simpl; [lia|].
  destruct (is_digit c); simpl; [|lia].
  destruct (take_digits s); simpl in *. lia.
Qed.

Lemma lex_number_length (s : string) lit rest :
  lex_number s = Some (lit, rest) -> String.length rest < String.length s.
Proof.
  unfold lex_number.
  destruct (lex_sign s) as [sg s1] eqn:Hsg.
  assert (H1 : String.length s1 <= String.length s).
  { unfold lex_sign in Hsg. destruct s as [|c r]; [inversion Hsg; simpl; lia|].
    destruct (code c =? 45)%N; inversion Hsg; simpl; lia. }
  destruct (lex_int s1) as [[i s2]|] eqn:Hint; [|discriminate].
  assert (H2 : String.length s2 < String.length s1).
  { unfold lex_int in Hint. destruct s1 as [|c r]; [discriminate|].
    destruct (code c =? 48)%N; [inversion Hint; simpl; lia|].
    destruct (is_digit c) eqn:Hd; [|discriminate].
    inversion Hint as [Htd]. simpl in Htd. rewrite Hd in Htd.
    pose proof (take_digits_length r) as Hlen.
    destruct (take_digits r); inversion Htd; subst; simpl in *. lia. }
  destruct (lex_frac s2) as [[f s3]|] eqn:Hfrac; [|discriminate].
  assert (H3 : String.length s3 <= String.length s2).
  { unfold lex_frac in Hfrac. destruct s2 as [|c r]; [inversion Hfrac; simpl; lia|].
    destruct (code c =? 46)%N; [|inversion Hfrac; simpl; lia].
    pose proof (take_digits_length r) as Hlen.
    destruct (take_digits r) as [[|d0 d] rest']; [discriminate|].
    inversion Hfrac; subst; simpl in *. lia. }
  destruct (lex_exp s3) as [[e s4]|] eqn:Hexp; [|discriminate].
  assert (H4 : String.length s4 <= String.length s3).
  { unfold lex_exp in Hexp. destruct s3 as [|c r]; [inversion Hexp; simpl; lia|].
    destruct (_ || _); [|inversion Hexp; simpl; lia].
    destruct r as [|p r'].
    - simpl in Hexp. discriminate.
    - destruct ((code p =? 43)%N || (code p =? 45)%N).
      + pose proof (take_digits_length r') as Hlen.
        destruct (take_digits r') as [[|d0 d] rest']; [discriminate|].
        inversion Hexp; subst; simpl in *. lia.
      + pose proof (take_digits_length (String p r')) as Hlen.
        destruct (take_digits (String p r')) as [[|d0 d] rest']; [discriminate|].
        inversion Hexp; subst; simpl in *. lia. }
  intros [= <- <-]. lia.
Qed.

Lemma strip_prefix_length (p s rest : string) :
  strip_prefix p s = Some rest -> String.length rest + String.length p = String.length s.
Proof.
  revert s. induction p as [|a p IH]; intros s; simpl.
  - intros [= ->]. lia.
  - destruct s as [|b s]; [discriminate|].
    destruct (a =? b)%char; [|discriminate].
    intros Hs. apply IH in Hs. simpl. lia.
Qed.

End ParserFacts.

(** Case analysis along the branches of the parser. *)
Ltac branch_lex :=
  match goal with
  | |- context [match JSON.skip_ws ?s with _ => _ end] =>
      let E := fresh "Ews" in destruct (JSON.skip_ws s) eqn:E
  | |- context [if (?a =? ?b)%N then _ else _] =>
      let E := fresh "Ec" in destruct (a =? b)%N eqn:E
  | |- context [match JSON.parse_string ?s with _ => _ end] =>
      let E := fresh "Estr" in destruct (JSON.parse_string s) as [[? ?]|] eqn:E
  | |- context [match JSON.lex_number ?s with _ => _ end] =>
      let E := fresh "Enum" in destruct (JSON.lex_number s) as [[? ?]|] eqn:E
  end.

Ltac branch :=
  first
  [ branch_lex
  | match goal with
    | |- context [match JSON.parse_value ?n ?s with _ => _ end] =>
        let E := fresh "Eval" in destruct (JSON.parse_value n s) as [[? ?]| |] eqn:E
    | |- context [match JSON.parse_elements ?n ?s with _ => _ end] =>
        let E := fresh "Eelt" in destruct (JSON.parse_elements n s) as [[? ?]| |] eqn:E
    | |- context [match JSON.parse_members ?n ?s with _ => _ end] =>
        let E := fresh "Emem" in destruct (JSON.parse_members n s) as [[? ?]| |] eqn:E
    end ].

Section ParserFuel.
Import JS JSON.
Context {number : Type} `{JSNumber number}.
#[local] Arguments literal : simpl never.

Lemma literal_inv (p : string) (v : value number) (s : string) v' r :
  literal p v s = Parsed (v', r) -> v' = v /\ strip_prefix p s = Some r.
Proof.
  unfold literal. destruct (strip_prefix p s); [|discriminate].
  intros [= <- <-]. auto.
Qed.

Lemma literal_fuel (p : string) (v : value number) (s : string) :
  literal p v s <> OutOfFuel.
Proof. unfold literal. destruct (strip_prefix p s); discriminate. Qed.

Ltac shorter IHv IHe IHm :=
  repeat match goal with
  | E : skip_ws _ = String _ _ |- _ => apply skip_ws_cons in E
  | E : parse_string _ = Some _ |- _ => apply parse_string_length in E
  | E : lex_number _ = Some _ |- _ => apply lex_number_length in E
  | E : literal _ _ _ = Parsed _ |- _ =>
      apply literal_inv in E; destruct E as [_ E]; apply strip_prefix_length in E
  | E : parse_value _ _ = Parsed _ |- _ => apply IHv in E
  | E : parse_elements _ _ = Parsed _ |- _ => apply IHe in E
  | E : parse_members _ _ = Parsed _ |- _ => apply IHm in E
  end.

Lemma parse_shorter (n : nat) :
  (forall s v r, parse_value n s = Parsed (v, r) -> String.length r < String.length s)
  /\ (forall s vs r, parse_elements n s = Parsed (vs, r) -> String.length r < String.length s)
  /\ (forall s ms r, parse_members n s = Parsed (ms, r) -> String.length r < String.length s).
Proof.
  induction n as [|n (IHv & IHe & IHm)]; [repeat split; intros; discriminate|].
  split; [|split].
  - intros s v r. simpl. repeat branch; try discriminate;
      try (intros [= <- <-]); try (intros Elit);
      shorter IHv IHe IHm; simpl in *; lia.
  - intros s vs r. simpl. repeat branch; try discriminate;
      intros [= <- <-]; shorter IHv IHe IHm; simpl in *; lia.
  - intros s ms r. simpl. repeat branch; try discriminate;
      intros [= <- <-]; shorter IHv IHe IHm; simpl in *; lia.
Qed.

Lemma parse_value_shorter n s (v : value number) r :
  parse_value n s = Parsed (v, r) -> String.length r < String.length s.
Proof. apply parse_shorter. Qed.

(** The fuel [fuel_for] provides is never used up. *)
Lemma parse_fuel (n : nat) :
  (forall s, 2 * String.length s + 1 <= n -> parse_value (number:=number) n s <> OutOfFuel)
  /\ (forall s, 2 * String.length s + 2 <= n ->
        parse_elements (number:=number) n s <> OutOfFuel)
  /\ (forall s, 2 * String.length s + 2 <= n ->
        parse_members (number:=number) n s <> OutOfFuel).
Proof.
  induction n as [|n (IHv & IHe & IHm)]; [repeat split; intros; lia|].
  destruct (parse_shorter n) as (Sv & Se & Sm).
  split; [|split].
  - intros s Hn. simpl. repeat branch; try discriminate; try apply literal_fuel.
    + exfalso. eapply IHm; [|eassumption]. shorter Sv Se Sm. simpl in *. lia.
    + exfalso. eapply IHe; [|eassumption]. shorter Sv Se Sm. simpl in *. lia.
  - intros s Hn. simpl. repeat branch; try discriminate.
    + exfalso. eapply IHe; [|eassumption]. shorter Sv Se Sm. simpl in *. lia.
    + exfalso. eapply IHv; [|eassumption]. lia.
  - intros s Hn. simpl. repeat branch; try discriminate.
    + exfalso. eapply IHm; [|eassumption]. shorter Sv Se Sm. simpl in *. lia.
    + exfalso. eapply IHv; [|eassumption]. shorter Sv Se Sm. simpl in *. lia.
Qed.

Lemma parse_value_fuel (text : string) :
  parse_value (number:=number) (fuel_for text) text <> OutOfFuel.
Proof. apply parse_fuel. unfold fuel_for. lia. Qed.

(** More fuel does not change a result. *)
Lemma parse_stable (n : nat) :
  forall m, n <= m ->
  (forall s, parse_value (number:=number) n s <> OutOfFuel ->
             parse_value m s = parse_value n s)
  /\ (forall s, parse_elements (number:=number) n s <> OutOfFuel ->
                parse_elements m s = parse_elements n s)
  /\ (forall s, parse_members (number:=number) n s <> OutOfFuel ->
                parse_members m s = parse_members n s).
Proof.
  induction n as [|n IH]; intros m Hm.
  { repeat split; intros s Hs; exfalso; apply Hs; reflexivity. }
  destruct m as [|m]; [lia|].
  destruct (IH m ltac:(lia)) as (IHv & IHe & IHm).
  assert (Tv : forall s, parse_value (number:=number) n s = OutOfFuel \/
                 parse_value m s = parse_value n s).
  { intros s. destruct (parse_value n s) eqn:E; auto; right; rewrite <- E;
      apply IHv; rewrite E; discriminate. }
  assert (Te : forall s, parse_elements (number:=number) n s = OutOfFuel \/
                 parse_elements m s = parse_elements n s).
  { intros s. destruct (parse_elements n s) eqn:E; auto; right; rewrite <- E;
      apply IHe; rewrite E; discriminate. }
  assert (Tm : forall s, parse_members (number:=number) n s = OutOfFuel \/
                 parse_members m s = parse_members n s).
  { intros s. destruct (parse_members n s) eqn:E; auto; right; rewrite <- E;
      apply IHm; rewrite E; discriminate. }
  split; [|split]; intros s; simpl;
    repeat first
      [ branch_lex
      | match goal with
        | |- context [parse_value n ?t] =>
            destruct (Tv t) as [-> | ->];
            [ | destruct (parse_value n t) as [[? ?]| |] ]
        | |- context [parse_elements n ?t] =>
            destruct (Te t) as [-> | ->];
            [ | destruct (parse_elements n t) as [[? ?]| |] ]
        | |- context [parse_members n ?t] =>
            destruct (Tm t) as [-> | ->];
            [ | destruct (parse_members n t) as [[? ?]| |] ]
        end ];
    try reflexivity; intros Hne; exfalso; apply Hne; reflexivity.
Qed.

Lemma parse_value_more_fuel (n m : nat) (s : string) (res : value number * string) :
  parse_value n s = Parsed res -> n <= m -> parse_value m s = Parsed res.
Proof.
  intros Hn Hm. destruct (parse_stable n m Hm) as [Hv _].
  rewrite Hv; [exact Hn | rewrite Hn; discriminate].
Qed.

End ParserFuel.

Section RoundTrip.
Import JS JSON.
Context {number : Type} `{JSNumber number}.
#[local] Arguments String.append !s1 s2 : simpl nomatch.

Lemma value_induction (P : value number -> Prop) :
  P VUndefined -> P VNull -> (forall b, P (VBool b)) -> (forall n, P (VNum n)) ->
  (forall s, P (VStr s)) ->
  (forall items, Forall P items -> P (VArr items)) ->
  (forall props, Forall (fun kx => P (snd kx)) props -> P (VObj props)) ->
  forall v, P v.
Proof.
  intros Hu Hn Hb Hnum Hs Ha Ho. fix IH 1. intros [| |b|n|s|items|props].
  - exact Hu.
  - exact Hn.
  - apply Hb.
  - apply Hnum.
  - apply Hs.
  - apply Ha. induction items as [|x items IHitems]; constructor; [apply IH | exact IHitems].
  - apply Ho. induction props as [|kx props IHprops]; constructor; [apply IH | exact IHprops].
Qed.

Lemma append_assoc (a b c : string) : (a +:+ b) +:+ c = a +:+ (b +:+ c).
Proof. induction a as [|x a IH]; simpl; [reflexivity | rewrite IH; reflexivity]. Qed.

Lemma append_empty (a : string) : a +:+ "" = a.
Proof. induction a as [|x a IH]; simpl; [reflexivity | rewrite IH; reflexivity]. Qed.

Lemma stringify_VArr (items : list (value number)) :
  stringify (VArr items) =
  Some ("[" +:+ String.concat "," (map element_text items) +:+ "]").
Proof. reflexivity. Qed.

Lemma stringify_VObj (props : list (string * value number)) :
  stringify (VObj props) =
  Some ("{" +:+ String.concat "," (member_texts props) +:+ "}").
Proof.
  cbn [stringify].
  match goal with
  | |- Some (_ +:+ String.concat _ ?l +:+ _) = _ =>
      assert (Hl : l = member_texts props)
  end.
  { induction props as [|[k x] props IH]; [reflexivity|].
    cbn [member_texts fst snd]. rewrite <- IH. reflexivity. }
  rewrite Hl. reflexivity.
Qed.

(** One character, quoted and read back. *)
Lemma quote_char_parse (c : ascii) :
  exists u,
    (forall tail,
       parse_chars (quote_char c +:+ tail) =
       match parse_chars tail with
       | Some (us, r) => Some (u :: us, r)
       | None => None
       end)
    /\ (forall us, decode_units (u :: us) = String c (decode_units us)).
Proof.
  destruct c as [[] [] [] [] [] [] [] []];
    first
      [ eexists (Raw _); split; [intros tail; reflexivity | intros us; reflexivity]
      | eexists (Esc _); split;
        [ intros tail; reflexivity
        | intros us; destruct us as [|[] us]; reflexivity ] ].
Qed.

Lemma parse_string_quote (s rest : string) :
  parse_string (quote_chars s +:+ String dquote rest) = Some (s, rest).
Proof.
  unfold parse_string.
  assert (Hus : exists us,
            parse_chars (quote_chars s +:+ String dquote rest) = Some (us, rest)
            /\ decode_units us = s).
  { induction s as [|c s (us & Hp & Hd)].
    - exists []. split; reflexivity.
    - destruct (quote_char_parse c) as (u & Hu & Hdec).
      exists (u :: us). simpl quote_chars. rewrite append_assoc, Hu, Hp.
      split; [reflexivity|]. rewrite Hdec, Hd. reflexivity. }
  destruct Hus as (us & -> & ->). reflexivity.
Qed.


Lemma parse_elements_more_fuel (n m : nat) (s : string) res :
  parse_elements (number:=number) n s = Parsed res -> n <= m ->
  parse_elements m s = Parsed res.
Proof.
  intros Hn Hm. destruct (parse_stable n m Hm) as (_ & He & _).
  rewrite He; [exact Hn | rewrite Hn; discriminate].
Qed.

Lemma parse_members_more_fuel (n m : nat) (s : string) res :
  parse_members (number:=number) n s = Parsed res -> n <= m ->
  parse_members m s = Parsed res.
Proof.
  intros Hn Hm. destruct (parse_stable n m Hm) as (_ & _ & Hmem).
  rewrite Hmem; [exact Hn | rewrite Hn; discriminate].
Qed.

Lemma skip_ws_start (c : ascii) (t : string) :
  is_ws c = false -> skip_ws (String c t) = String c t.
Proof. intros Hc. simpl. rewrite Hc. reflexivity. Qed.

Lemma parse_elements_comma (n : nat) (s : string) (v : value number) r' :
  parse_value n s = Parsed (v, String "," r') ->
  parse_elements (S n) s =
  match parse_elements n r' with
  | Parsed (vs, rest) => Parsed (v :: vs, rest)
  | Malformed => Malformed
  | OutOfFuel => OutOfFuel
  end.
Proof. intros Hv. simpl. rewrite Hv. reflexivity. Qed.

Lemma parse_elements_close (n : nat) (s : string) (v : value number) r' :
  parse_value n s = Parsed (v, String "]" r') ->
  parse_elements (S n) s = Parsed ([v], r').
Proof. intros Hv. simpl. rewrite Hv. reflexivity. Qed.

Lemma elements_read_back (items : list (value number)) :
  Forall reads_back items -> items <> [] ->
  forall rest, exists n,
    parse_elements n (String.concat "," (map element_text items) +:+ String "]" rest)
    = Parsed (items, rest).
Proof.
  induction items as [|x items IH]; [congruence|].
  intros Hall _ rest. inversion Hall as [|? ? Hx Hitems]; subst.
  destruct Hx as (t & Ht & _ & Hparse).
  assert (Hel : element_text x = t) by (unfold element_text; rewrite Ht; reflexivity).
  destruct items as [|y items].
  - cbn [map String.concat]. rewrite Hel.
    destruct (Hparse (String "]" rest)) as [n Hn].
    exists (S n). apply parse_elements_close, Hn.
  - destruct (IH Hitems ltac:(discriminate) rest) as [n2 Hn2].
    change (String.concat "," (map element_text (x :: y :: items)))
      with (element_text x +:+ "," +:+ String.concat "," (map element_text (y :: items))).
    rewrite Hel, !append_assoc.
    change ("," +:+ ?a) with (String "," a).
    destruct (Hparse (String ","
      (String.concat "," (map element_text (y :: items)) +:+ String "]" rest)))
      as [n1 Hn1].
    exists (S (Nat.max n1 n2)).
    rewrite (parse_elements_comma _ _ _ _
               (parse_value_more_fuel _ _ _ _ Hn1 (Nat.le_max_l n1 n2))).
    rewrite (parse_elements_more_fuel _ _ _ _ Hn2 (Nat.le_max_r n1 n2)).
    reflexivity.
Qed.

Lemma parse_members_comma (n : nat) (k r2 : string) (v : value number) r4 :
  parse_value n r2 = Parsed (v, String "," r4) ->
  parse_members (S n) (String dquote (quote_chars k +:+ String dquote (String ":" r2))) =
  match parse_members n r4 with
  | Parsed (ms, rest) => Parsed ((k, v) :: ms, rest)
  | Malformed => Malformed
  | OutOfFuel => OutOfFuel
  end.
Proof.
  intros Hv. simpl. rewrite parse_string_quote. simpl. rewrite Hv. reflexivity.
Qed.

Lemma parse_members_close (n : nat) (k r2 : string) (v : value number) r4 :
  parse_value n r2 = Parsed (v, String "}" r4) ->
  parse_members (S n) (String dquote (quote_chars k +:+ String dquote (String ":" r2))) =
  Parsed ([(k, v)], r4).
Proof.
  intros Hv. simpl. rewrite parse_string_quote. simpl. rewrite Hv. reflexivity.
Qed.

Lemma member_text_append (k t rest : string) :
  (quote k +:+ ":" +:+ t) +:+ rest =
  String dquote (quote_chars k +:+ String dquote (String ":" (t +:+ rest))).
Proof.
  unfold quote. cbn [String.append]. rewrite !append_assoc. reflexivity.
Qed.

Lemma members_read_back (props : list (string * value number)) :
  Forall (fun kx => reads_back (snd kx)) props -> props <> [] ->
  forall rest, exists n,
    parse_members n (String.concat "," (member_texts props) +:+ String "}" rest)
    = Parsed (props, rest).
Proof.
  induction props as [|[k x] props IH]; [congruence|].
  intros Hall _ rest. inversion Hall as [|? ? Hx Hprops]; subst.
  destruct Hx as (t & Ht & _ & Hparse). simpl in Ht.
  assert (Hm : member_texts ((k, x) :: props) =
               (quote k +:+ ":" +:+ t) :: member_texts props).
  { cbn [member_texts fst snd]. rewrite Ht. reflexivity. }
  rewrite Hm.
  destruct props as [|ky props].
  - cbn [member_texts String.concat]. rewrite member_text_append.
    destruct (Hparse (String "}" rest)) as [n Hn].
    exists (S n). apply parse_members_close, Hn.
  - destruct (IH Hprops ltac:(discriminate) rest) as [n2 Hn2].
    assert (Hne : exists m ms, member_texts (ky :: props) = m :: ms).
    { inversion Hprops as [|? ? (ty & Hty & _) _]; subst.
      cbn [member_texts]. rewrite Hty. eauto. }
    destruct Hne as (m & ms & Hms). rewrite Hms in *.
    change (String.concat "," ((quote k +:+ ":" +:+ t) :: m :: ms))
      with ((quote k +:+ ":" +:+ t) +:+ "," +:+ String.concat "," (m :: ms)).
    rewrite (append_assoc (quote k +:+ ":" +:+ t)), member_text_append.
    rewrite (append_assoc ",").
    change ("," +:+ ?a) with (String "," a).
    destruct (Hparse (String "," (String.concat "," (m :: ms) +:+ String "}" rest)))
      as [n1 Hn1].
    exists (S (Nat.max n1 n2)).
    rewrite (parse_members_comma _ _ _ _ _
               (parse_value_more_fuel _ _ _ _ Hn1 (Nat.le_max_l n1 n2))).
    rewrite (parse_members_more_fuel _ _ _ _ Hn2 (Nat.le_max_r n1 n2)).
    reflexivity.
Qed.

Lemma parse_value_array (n : nat) (c : ascii) (r' : string) :
  is_ws c = false -> (code c =? 93)%N = false ->
  parse_value (number:=number) (S n) (String "[" (String c r')) =
  match parse_elements n (String c r') with
  | Parsed (vs, rest) => Parsed (VArr vs, rest)
  | Malformed => Malformed
  | OutOfFuel => OutOfFuel
  end.
Proof. intros Hws Hc. simpl. rewrite Hws, Hc. reflexivity. Qed.

Lemma parse_value_object (n : nat) (c : ascii) (r' : string) :
  is_ws c = false -> (code c =? 125)%N = false ->
  parse_value (number:=number) (S n) (String "{" (String c r')) =
  match parse_members n (String c r') with
  | Parsed (ms, rest) => Parsed (VObj (object_of ms), rest)
  | Malformed => Malformed
  | OutOfFuel => OutOfFuel
  end.
Proof. intros Hws Hc. simpl. rewrite Hws, Hc. reflexivity. Qed.

Lemma plain_VArr (items : list (value number)) :
  plain (VArr items) <-> Forall plain items.
Proof.
  simpl. induction items as [|x items IH]; [split; auto|].
  rewrite Forall_cons, IH. reflexivity.
Qed.

Lemma plain_VObj (props : list (string * value number)) :
  plain (VObj props) <->
  in_property_order props /\ Forall (fun kx => plain (snd kx)) props.
Proof.
  simpl. apply and_iff_compat_l.
  induction props as [|kx props IH]; [split; auto|].
  rewrite Forall_cons, IH. reflexivity.
Qed.

Lemma plain_reads_back (v : value number) : plain v -> reads_back v.
Proof.
  induction v as [| |b|n|s|items IH|props IH] using value_induction; intros Hplain.
  - destruct Hplain.
  - exists "null". split; [reflexivity|]. split.
    + exists "n"%char, "ull". repeat split.
    + intros rest. exists 1. reflexivity.
  - destruct b.
    + exists "true". split; [reflexivity|]. split.
      * exists "t"%char, "rue". repeat split.
      * intros rest. exists 1. reflexivity.
    + exists "false". split; [reflexivity|]. split.
      * exists "f"%char, "alse". repeat split.
      * intros rest. exists 1. reflexivity.
  - destruct Hplain.
  - exists (quote s). split; [reflexivity|]. split.
    + exists dquote, (quote_chars s +:+ String dquote ""). repeat split.
    + intros rest. exists 1. unfold quote. cbn [String.append].
      rewrite append_assoc. cbn [String.append].
      simpl. rewrite parse_string_quote. reflexivity.
  - apply plain_VArr in Hplain.
    assert (Hall : Forall reads_back items).
    { rewrite Forall_forall in *. auto. }
    exists ("[" +:+ String.concat "," (map element_text items) +:+ "]").
    split; [apply stringify_VArr|]. split.
    + eexists "["%char, _. repeat split.
    + intros rest. destruct items as [|x items].
      * exists 1. reflexivity.
      * destruct (elements_read_back (x :: items) Hall ltac:(discriminate) rest)
          as [n Hn].
        exists (S n). cbn [String.append]. rewrite append_assoc.
        cbn [String.append].
        inversion Hall as [|? ? (t & Ht & (c & t' & -> & Hws & Hc & _) & _) _]; subst.
        assert (Hstart : exists tail,
          String.concat "," (map element_text (x :: items)) +:+ String "]" rest
          = String c tail).
        { cbn [map]. unfold element_text at 1. rewrite Ht.
          destruct (map element_text items); cbn [String.concat String.append]; eauto. }
        destruct Hstart as [tail Htail]. rewrite Htail in *.
        rewrite (parse_value_array _ _ _ Hws Hc), Hn. reflexivity.
  - apply plain_VObj in Hplain as [Horder Hplain].
    assert (Hall : Forall (fun kx => reads_back (snd kx)) props).
    { rewrite Forall_forall in *. auto. }
    exists ("{" +:+ String.concat "," (member_texts props) +:+ "}").
    split; [apply stringify_VObj|]. split.
    + eexists "{"%char, _. repeat split.
    + intros rest. destruct props as [|[k x] props].
      * exists 1. reflexivity.
      * destruct (members_read_back ((k, x) :: props) Hall ltac:(discriminate) rest)
          as [n Hn].
        exists (S n). cbn [String.append]. rewrite append_assoc.
        cbn [String.append].
        inversion Hall as [|? ? (t & Ht & _) _]; subst. simpl in Ht.
        assert (Hstart : exists tail,
          String.concat "," (member_texts ((k, x) :: props)) +:+ String "}" rest
          = String dquote tail).
        { cbn [member_texts fst snd]. rewrite Ht. unfold quote.
          destruct (member_texts props); cbn [String.concat String.append]; eauto. }
        destruct Hstart as [tail Htail]. rewrite Htail in *.
        rewrite (parse_value_object _ dquote _ eq_refl eq_refl), Hn.
        rewrite (object_of_in_order _ Horder). reflexivity.
Qed.

(** A plain value, written and read. *)
Lemma parse_stringify (v : value number) :
  plain v -> exists t, stringify v = Some t /\ parse t = Return v.
Proof.
  intros Hplain. destruct (plain_reads_back v Hplain) as (t & Ht & _ & Hparse).
  exists t. split; [exact Ht|].
  destruct (Hparse "") as [n Hn]. rewrite append_empty in Hn.
  unfold parse.
  assert (Hfuel : parse_value (fuel_for t) t = Parsed (v, "")).
  { destruct (Nat.le_ge_cases n (fuel_for t)) as [Hle | Hge].
    - apply (parse_value_more_fuel _ _ _ _ Hn Hle).
    - destruct (parse_stable (fuel_for t) n Hge) as [Hv _].
      rewrite <- Hv; [exact Hn | apply parse_value_fuel]. }
  rewrite Hfuel. reflexivity.
Qed.
End RoundTrip.

(** ** The stored text *)

Section StorageFacts.
Import JS Client.
Context {number : Type} `{JSNumber number}.
Context `{Platform}.

(** Keys that are words, in the order of an object literal. *)
Ltac literal_keys :=
  unfold in_property_order; cbn [map fst keys_in_order];
  repeat split; repeat constructor; vm_compute; intros Heq; discriminate Heq.

Lemma Finding_object_plain (f : Finding) : plain (Finding_object (number:=number) f).
Proof. unfold Finding_object. cbn [plain snd]. split; [literal_keys | repeat split]. Qed.

Lemma Disposition_object_plain (d : Disposition) :
  plain (Disposition_object (number:=number) d).
Proof. unfold Disposition_object. cbn [plain snd]. split; [literal_keys | repeat split]. Qed.

Lemma AIReview_object_plain (r : AIReview) :
  in_property_order (actions r) -> plain (AIReview_object (number:=number) r).
Proof.
  intros Hord. unfold AIReview_object. cbn [plain snd].
  split; [literal_keys|]. split; [exact I|]. split; [|split; [|exact I]].
  - fold (plain (VArr (map (Finding_object (number:=number)) (riskItems r)))).
    apply plain_VArr. apply Forall_forall. intros x Hx.
    apply list_elem_of_fmap in Hx as (f & -> & _). apply Finding_object_plain.
  - fold (plain (VObj (map (fun kd => (fst kd, Disposition_object (number:=number) (snd kd)))
                         (actions r)))).
    apply plain_VObj. split.
    + unfold in_property_order in *. rewrite map_map. simpl.
      erewrite map_ext; [exact Hord|]. reflexivity.
    + apply Forall_forall. intros x Hx.
      apply list_elem_of_fmap in Hx as (kd & -> & _). apply Disposition_object_plain.
Qed.

Lemma Project_object_plain (p : Project) :
  (forall r, aiReview p = Some r -> in_property_order (actions r)) ->
  plain (Project_object (number:=number) p).
Proof.
  intros Hord. unfold Project_object. cbn [plain snd].
  split; [literal_keys|]. repeat (split; [exact I|]). split; [|exact I].
  destruct (aiReview p) as [r|]; [|exact I].
  apply AIReview_object_plain, Hord. reflexivity.
Qed.

Lemma Projects_array_plain (projects : list Project) :
  (forall p r, p ∈ projects -> aiReview p = Some r -> in_property_order (actions r)) ->
  plain (Projects_array (number:=number) projects).
Proof.
  intros Hord. unfold Projects_array. apply plain_VArr, Forall_forall.
  intros x Hx. apply list_elem_of_fmap in Hx as (p & -> & Hp).
  apply Project_object_plain. intros r. apply (Hord p r Hp).
Qed.

Lemma saved_then_loaded (v : value number) :
  plain v -> Storage.getProjects (Storage.saveProjects v) = Return v.
Proof.
  intros Hplain.
  destruct (plain_reads_back v Hplain) as (t & Ht & (c & t' & -> & _) & _).
  destruct (parse_stringify v Hplain) as (t2 & Ht2 & Hparse).
  rewrite Ht in Ht2. inversion Ht2; subst t2.
  unfold Storage.saveProjects, Storage.getProjects. rewrite Ht.
  cbn [String.eqb]. rewrite Hparse. reflexivity.
Qed.

Lemma fold_save_in_order form sels (acts saved : list (string * Disposition)) :
  in_property_order acts ->
  fold_left (save_one form) sels (Return acts) = Return saved ->
  in_property_order saved.
Proof.
  apply (fold_save_keeps in_property_order).
  intros k d props. apply assign_property_in_order.
Qed.

Lemma actions_in_order_stable :
  stable (fun p => forall r, aiReview p = Some r -> in_property_order (actions r))
         (fun _ => True).
Proof.
  split; simpl.
  - intros p _ Hnone r Hr. congruence.
  - intros p t Hp _ r Hr. apply Hp, Hr.
  - intros p t e Hp r [= <-]. exact I.
  - intros p t r form saved Hp Hr Hsaved r' [= <-]. simpl.
    apply (fold_save_in_order form (selects form) (actions r)); [apply (Hp r Hr) | exact Hsaved].
  - intros p t r Hp Hr r' Hr'. apply Hp, Hr'.
Qed.

(** C8.  A collection of projects whose [actions] objects are in property
    order (as every object is), saved with [saveProjects] and loaded with
    [getProjects], comes back as it was; so does, in particular, the
    collection any run leaves in the store. *)
Theorem saveProjects_getProjects :
  (forall projects : list Project,
     (forall p r, p ∈ projects -> aiReview p = Some r -> in_property_order (actions r)) ->
     Storage.getProjects (Storage.saveProjects (Projects_array (number:=number) projects))
     = Return (Projects_array projects))
  /\ (forall evs : list Event,
        Storage.getProjects
          (Storage.saveProjects
             (Projects_array (number:=number) (localStorage (run evs fresh))))
        = Return (Projects_array (localStorage (run evs fresh)))).
Proof.
  split.
  - intros projects Hord. apply saved_then_loaded, Projects_array_plain, Hord.
  - intros evs. apply saved_then_loaded, Projects_array_plain.
    destruct (run_everywhere _ evs fresh actions_in_order_stable
                (everywhere_fresh _)) as [Hs _].
    rewrite Forall_forall in Hs. intros p r Hp. apply (Hs p Hp).
Qed.

(** The search of the stored array agrees with the search of the
    projects. *)
Lemma find_Projects_array (projectId : string) (projects : list Project) :
  Storage.find projectId (Projects_array (number:=number) projects)
  = Return (match find projectId projects with
            | Some (_, p) => Some (Project_object p)
            | None => None
            end).
Proof.
  unfold Projects_array, Storage.find.
  induction projects as [|p projects IH]; [reflexivity|].
  cbn [map find]. cbn [Server.Get Project_object lookup_property String.eqb Ascii.eqb Bool.eqb bind].
  destruct (id p =? projectId)%string; [reflexivity|].
  rewrite IH. destruct (find projectId projects) as [[j q]|]; reflexivity.
Qed.

(** C9 (amended).  The store holds an array of projects, as the prototype
    writes it, and none has the identifier.  Then reading the store and
    searching it throws nothing and finds nothing; [saveRiskActions] and
    [submitForDepartmentReview] return at once: the browser is unchanged
    and nothing is shown.  The detail view, asked for such an identifier
    (not empty), alerts "未找到该项目". *)
Theorem unknown_project (projectId : string) (form : ActionForm) (now : Date)
    (b : Browser) :
  find projectId (getProjects b) = None ->
  (forall p r, p ∈ getProjects b -> aiReview p = Some r ->
               in_property_order (actions r)) ->
  bind (Storage.getProjects
          (Storage.saveProjects (Projects_array (number:=number) (getProjects b))))
       (Storage.find projectId) = Return None
  /\ saveRiskActions projectId form now b = (b, [])
  /\ submitForDepartmentReview projectId now b = (b, [])
  /\ (projectId <> "" ->
      displayProjectDetail (Some projectId) b = [alert "未找到该项目"]).
Proof.
  intros Hf Hord. split.
  - rewrite (saved_then_loaded _ (Projects_array_plain _ Hord)). cbn [bind].
    rewrite find_Projects_array, Hf. reflexivity.
  - unfold saveRiskActions, submitForDepartmentReview, displayProjectDetail.
    rewrite Hf. repeat split.
    intros Hne. destruct (String.eqb_spec projectId ""); [contradiction | reflexivity].
Qed.

(** C10 (amended).  [getProjects] never throws (and the parser of the
    model never stops for want of fuel).  It returns the empty list when
    the key is absent, when the text is empty and when the text is not
    valid JSON; on any other text it returns the value the text denotes,
    whatever that value is. *)
Theorem getProjects_total (item : option string) :
  (exists v : value number, Storage.getProjects item = Return v)
  /\ (forall raw, JSON.parse_value (number:=number) (JSON.fuel_for raw) raw
                  <> JSON.OutOfFuel)
  /\ (item = None \/ item = Some "" -> Storage.getProjects item = Return (VArr []))
  /\ (forall raw e, item = Some raw -> JSON.parse (number:=number) raw = Throw e ->
        Storage.getProjects item = Return (VArr []))
  /\ (forall raw v, item = Some raw -> raw <> "" -> JSON.parse raw = Return v ->
        Storage.getProjects item = Return v).
Proof.
  unfold Storage.getProjects. repeat split.
  - destruct item as [raw|]; [|eauto].
    destruct (raw =? "")%string; [eauto|].
    destruct (JSON.parse raw); eauto.
  - apply parse_value_fuel.
  - intros [-> | ->]; reflexivity.
  - intros raw e -> Hthrow. rewrite Hthrow. destruct (raw =? "")%string; reflexivity.
  - intros raw v -> Hne Hparse. rewrite Hparse.
    destruct (String.eqb_spec raw ""); [contradiction | reflexivity].
Qed.

End StorageFacts.

(** ** The claims on sample data *)

Section Samples.
Import JS Client LiteralNumber Sample.

(** The scenarios of the specification. *)
Example sample_store :
  map (fun p => (id p, status p, aiReview p)) (localStorage (run created fresh))
  = [(project_id, DRAFT, None)].
Proof. vm_compute. reflexivity. Qed.

Example sample_review :
  map (fun p => (status p, updatedAt p,
                 option_map (fun r => (overallRisk r, length (riskItems r), actions r))
                   (aiReview p)))
      (localStorage (run reviewed fresh))
  = [(AI_COMPLETED, "2024-01-05 12:00", Some (High, 4, []))].
Proof. vm_compute. reflexivity. Qed.

Example sample_request :
  let reply := Server.post_review Server.callLLM
                 (VObj [("content", VStr "禁止向外地企业供货")]) in
  Server.status (fst reply) = 200
  /\ (exists first second,
        Server.field (Server.body (fst reply)) "issues" = VArr [first; second]
        /\ map fst (match first with VObj props => props | _ => [] end)
           = ["title"; "level"; "description"; "suggestion"; "lawReference"])
  /\ length (snd reply) = 1.
Proof. vm_compute. split; [reflexivity|]. split; [|reflexivity]. do 2 eexists. split; reflexivity. Qed.

Example sample_texts :
  JSON.parse "[1, 2.5e3, true, null]"
    = Return (VArr [VNum "1"; VNum "2.5e3"; VBool true; VNull])
  /\ JSON.parse (number:=string) "[1e]" = Throw SyntaxError
  /\ JSON.parse (number:=string) "" = Throw SyntaxError
  /\ JSON.stringify (VArr [VBool true; VUndefined; VNum "7"; VNull])
       = Some "[true,null,7,null]"
  /\ JSON.stringify (VObj [("skipped", VUndefined)]) = Some "{}"
  /\ JSON.stringify (number:=string) VUndefined = None.
Proof. vm_compute. repeat split. Qed.

(** The normalisation of a malformed reply. *)
Lemma normalize_by_cases_witness :
  Server.normalize malformed_reply =
  Return (VObj [("riskScore", VNull); ("summary", VStr "");
                ("issues", VArr []); ("modelNote", VStr "")]).
Proof.
  destruct (normalize_by_cases malformed_reply) as [Hobject _].
  destruct (Hobject ltac:(discriminate) ltac:(discriminate))
    as (riskScore & summary & issues & modelNote & -> & _ & Hrisk & _ & -> & _ & Hissues & _ & ->).
  rewrite (Hrisk eq_refl), (Hissues eq_refl). reflexivity.
Defined.

(** C1.  The normalisation is not total: on [null] it throws a
    [TypeError], and to a request with acceptable content the route
    answers 500 [服务器内部错误] when the text of the backend is [null],
    where four fields with their defaults were to be returned. *)
Lemma normalize_throws_on_null :
  ~ (forall parsed : value string, exists reply, Server.normalize parsed = Return reply)
  /\ Server.normalize (number:=string) VNull = Throw TypeError
  /\ fst (Server.post_review (fun _ => Return (VStr "null"))
            (VObj [("content", VStr "禁止向外地企业供货")]))
     = Server.internal_error.
Proof.
  split; [|split; reflexivity].
  intros Hall. destruct (Hall VNull) as [reply Hreply]. discriminate Hreply.
Qed.

(** C4, on an empty content. *)
Lemma post_review_validation_witness :
  Server.post_review Server.callLLM (VObj [("content", VStr "")])
  = (Server.bad_request (number:=string), []).
Proof.
  apply (proj1 (proj2 (post_review_validation Server.callLLM
                         (VObj [("content", VStr "")])))).
  right. left. reflexivity.
Defined.

(** C2, on a project that was reviewed once. *)
Lemma review_presence_by_status_witness :
  exists p, p ∈ localStorage (run reviewed fresh)
    /\ status p = AI_COMPLETED
    /\ (aiReview p <> None <-> review_done (status p)).
Proof.
  assert (Hin : exists p, p ∈ localStorage (run reviewed fresh)
                  /\ status p = AI_COMPLETED).
  { eexists. split; [vm_compute; apply list_elem_of_here | reflexivity]. }
  destruct Hin as (p & Hin & Hst). exists p. split; [exact Hin|]. split; [exact Hst|].
  apply (review_presence_by_status reviewed p Hin). reflexivity.
Defined.

(** C2 as stated fails: [startAIReview] on a reviewed project leaves it
    with a review and the status [AI_REVIEWING]. *)
Lemma review_kept_while_reviewing :
  exists p, p ∈ localStorage (run restarted fresh)
    /\ status p = AI_REVIEWING /\ aiReview p <> None.
Proof.
  eexists. split; [vm_compute; apply list_elem_of_here|].
  split; [reflexivity | discriminate].
Qed.


(** C3, on the review of the sample run. *)
Lemma overallRisk_is_maximum_witness :
  exists p r, p ∈ localStorage (run reviewed fresh) /\ aiReview p = Some r
    /\ overallRisk r = High
    /\ forall item, item ∈ riskItems r -> risk_le (riskLevel item) (overallRisk r).
Proof.
  assert (Hin : exists p r, p ∈ localStorage (run reviewed fresh)
                  /\ aiReview p = Some r /\ overallRisk r = High).
  { do 2 eexists. split; [vm_compute; apply list_elem_of_here|].
    split; reflexivity. }
  destruct Hin as (p & r & Hin & Hr & Hhigh). exists p, r.
  split; [exact Hin|]. split; [exact Hr|]. split; [exact Hhigh|].
  apply (proj2 (proj2 overallRisk_is_maximum) reviewed p r Hin Hr).
Defined.

(** C7 as stated fails: with the category index 3 the first finding has
    the fourth category and the first excerpt. *)
Lemma excerpt_not_from_the_category :
  exists item, riskItems (createDummyAIResults entropy) !! 0 = Some item
    /\ category item = "经营行为"
    /\ suspectedText item = "第八条：本地区企业享有优先采购权"
    /\ ~ (exists idx, categories !! idx = Some (category item)
                      /\ sampleTexts !! idx = Some (suspectedText item)).
Proof.
  eexists. split; [vm_compute; reflexivity|]. split; [reflexivity|]. split; [reflexivity|].
  intros (idx & Hcat & Htext).
  destruct idx as [|[|[|[|idx]]]]; vm_compute in Hcat, Htext; discriminate.
Qed.

(** C7, on the sample entropy. *)
Lemma createDummyAIResults_shape_witness :
  length (riskItems (createDummyAIResults entropy)) = 4
  /\ 2 <= length (riskItems (createDummyAIResults entropy)) <= 4
  /\ actions (createDummyAIResults entropy) = [].
Proof.
  split; [reflexivity|].
  split; [apply (proj1 (createDummyAIResults_shape entropy))|].
  apply (proj1 (proj2 (createDummyAIResults_shape entropy))).
Defined.

(** C5, without review and with one. *)
Lemma submitForDepartmentReview_by_review_witness :
  submitForDepartmentReview project_id later (run created fresh)
    = (run created fresh, [alert "请先完成 AI 审查"])
  /\ exists p, localStorage (fst (submitForDepartmentReview project_id later
                                    (run reviewed fresh))) = [p]
       /\ status p = DEPT_REVIEWING /\ updatedAt p = "2024-01-05 12:07"
       /\ createdAt p = "2024-01-05 12:00".
Proof.
  split.
  - assert (Hf : exists p, find project_id (getProjects (run created fresh)) = Some (0, p)
                    /\ aiReview p = None).
    { eexists. split; [vm_compute; reflexivity | reflexivity]. }
    destruct Hf as (p & Hf & Hr).
    apply (proj1 (submitForDepartmentReview_by_review project_id later
                    (run created fresh) 0 p Hf) Hr).
  - assert (Hf : exists p, find project_id (getProjects (run reviewed fresh)) = Some (0, p)
                    /\ aiReview p <> None /\ createdAt p = "2024-01-05 12:00").
    { eexists. split; [vm_compute; reflexivity|]. split; [discriminate | reflexivity]. }
    destruct Hf as (p & Hf & Hr & Hc).
    destruct (proj2 (submitForDepartmentReview_by_review project_id later
                       (run reviewed fresh) 0 p Hf) Hr)
      as (p' & -> & Hst & Hup & _ & _ & _ & _ & _ & _ & _ & _ & _ & Hcr & _).
    exists p'. split; [vm_compute; reflexivity|].
    split; [exact Hst|]. split; [rewrite Hup; reflexivity|].
    rewrite Hcr. exact Hc.
Defined.


(** C6, on the sample decisions. *)
Lemma saveRiskActions_merge_witness :
  exists p1 r1,
    localStorage (fst (saveRiskActions project_id decisions later (run reviewed fresh)))
      = [p1]
    /\ aiReview p1 = Some r1
    /\ lookup_property finding_id (actions r1)
         = Some {| type := "adopt"; desc := "已按建议修改" |}
    /\ lookup_property "R-other" (actions r1) = None
    /\ exists p2 r2,
         localStorage
           (fst (saveRiskActions project_id decisions later
                   (fst (saveRiskActions project_id decisions later (run reviewed fresh)))))
           = [p2]
         /\ aiReview p2 = Some r2 /\ actions r2 = actions r1.
Proof.
  assert (Hf : exists p r, find project_id (getProjects (run reviewed fresh)) = Some (0, p)
                  /\ aiReview p = Some r /\ actions r = []).
  { do 2 eexists. split; [vm_compute; reflexivity|]. split; reflexivity. }
  destruct Hf as (p & r & Hf & Hr & Hempty).
  assert (Hanswer : selectors_answer decisions).
  { repeat constructor; eexists; vm_compute; reflexivity. }
  assert (Hids : ordinary_identifiers decisions).
  { repeat constructor; discriminate. }
  destruct (saveRiskActions_merge project_id decisions later later
              (run reviewed fresh) 0 p r Hf Hr Hanswer Hids)
    as (p1 & r1 & p2 & r2 & -> & Hr1 & Hmerge & -> & Hr2 & Hsame).
  exists p1, r1. split; [vm_compute; reflexivity|]. split; [exact Hr1|].
  split; [rewrite Hmerge; vm_compute; reflexivity|].
  split; [rewrite Hmerge, Hempty; vm_compute; reflexivity|].
  exists p2, r2. split; [vm_compute; reflexivity|]. split; assumption.
Defined.

(** C9, on an identifier that no project has. *)
Lemma unknown_project_witness :
  bind (Storage.getProjects
          (Storage.saveProjects
             (Projects_array (number:=string) (getProjects (run reviewed fresh)))))
       (Storage.find "Pnone") = Return None
  /\ saveRiskActions "Pnone" decisions later (run reviewed fresh) = (run reviewed fresh, [])
  /\ submitForDepartmentReview "Pnone" later (run reviewed fresh) = (run reviewed fresh, [])
  /\ displayProjectDetail (Some "Pnone") (run reviewed fresh) = [alert "未找到该项目"].
Proof.
  assert (Hall : Forall (fun p => forall r, aiReview p = Some r -> actions r = [])
                   (localStorage (run reviewed fresh))).
  { vm_compute. constructor; [|constructor]. intros r0 [= <-]. reflexivity. }
  rewrite Forall_forall in Hall.
  destruct (unknown_project (number:=string) "Pnone" decisions later (run reviewed fresh))
    as (Hread & Hsave & Hsubmit & Hdetail).
  - vm_compute. reflexivity.
  - intros p r Hp Hr. rewrite (Hall p Hp r Hr). exact I.
  - split; [exact Hread|]. split; [exact Hsave|]. split; [exact Hsubmit|].
    apply Hdetail. discriminate.
Defined.

(** C9 as stated fails: for an identifier that no project has,
    [submitForDepartmentReview] and [saveRiskActions] show no message; and
    when the stored text is [null], which holds no project at all, the
    search throws. *)
Lemma unknown_project_is_silent :
  ~ (exists message,
       alert message ∈ snd (submitForDepartmentReview "Pnone" later (run reviewed fresh)))
  /\ ~ (exists message,
          alert message ∈ snd (saveRiskActions "Pnone" decisions later (run reviewed fresh)))
  /\ bind (Storage.getProjects (number:=string) (Some "null")) (Storage.find "Pnone")
     = Throw TypeError.
Proof.
  split; [|split].
  - intros (message & Hin); vm_compute in Hin; inversion Hin.
  - intros (message & Hin); vm_compute in Hin; inversion Hin.
  - vm_compute. reflexivity.
Qed.

(** C8, on the store of the sample run. *)
Lemma saveProjects_getProjects_witness :
  Storage.getProjects
    (Storage.saveProjects
       (Projects_array (number:=string) (localStorage (run reviewed fresh))))
  = Return (Projects_array (localStorage (run reviewed fresh))).
Proof.
  apply (proj1 (saveProjects_getProjects (number:=string))).
  intros p r Hp Hr.
  assert (Hall : Forall (fun p => forall r, aiReview p = Some r -> actions r = [])
                   (localStorage (run reviewed fresh))).
  { vm_compute. constructor; [|constructor]. intros r0 [= <-]. reflexivity. }
  rewrite Forall_forall in Hall. rewrite (Hall p Hp r Hr). exact I.
Defined.

(** C10 as stated fails: a stored text that is valid JSON but no array
    comes back as it is. *)
Lemma getProjects_not_a_list :
  Storage.getProjects (number:=string) (Some "{}") = Return (VObj [])
  /\ Storage.getProjects (number:=string) (Some "null") = Return VNull
  /\ ~ (forall item, exists l,
          Storage.getProjects (number:=string) item = Return (VArr l)).
Proof.
  split; [vm_compute; reflexivity|]. split; [vm_compute; reflexivity|].
  intros Hall. destruct (Hall (Some "null")) as [l Hl].
  vm_compute in Hl. discriminate Hl.
Qed.

(** C10, on texts that do not parse and on one that does. *)
Lemma getProjects_total_witness :
  Storage.getProjects (number:=string) None = Return (VArr [])
  /\ Storage.getProjects (number:=string) (Some "[{") = Return (VArr [])
  /\ Storage.getProjects (number:=string) (Some "[true]") = Return (VArr [VBool true]).
Proof.
  split; [|split].
  - apply (getProjects_total (number:=string) None). left. reflexivity.
  - apply (proj1 (proj2 (proj2 (proj2 (getProjects_total (number:=string) (Some "[{")))))
             "[{" SyntaxError eq_refl).
    vm_compute. reflexivity.
  - apply (proj2 (proj2 (proj2 (proj2 (getProjects_total (number:=string) (Some "[true]")))))
             "[true]" (VArr [VBool true]) eq_refl); [discriminate|].
    vm_compute. reflexivity.
Defined.

End Samples.

(** * Further properties *)

(** ** The replies of the route *)

Section ReplyFacts.
Import JS Server.
Context {number : Type} `{JSNumber number}.

Lemma normalize_shape (parsed reply : value number) :
  normalize parsed = Return reply ->
  exists riskScore summary issues modelNote,
    reply = VObj [("riskScore", riskScore); ("summary", summary);
                  ("issues", issues); ("modelNote", modelNote)]
    /\ (is_number riskScore = true \/ riskScore = VNull)
    /\ (truthy summary = true \/ summary = VStr "")
    /\ isArray issues = true
    /\ (truthy modelNote = true \/ modelNote = VStr "").
Proof.
  unfold normalize. intros Hn.
  destruct (Get parsed "riskScore") as [rs|] eqn:E1; [|discriminate].
  destruct (Get parsed "summary") as [s|] eqn:E2; [|discriminate].
  destruct (Get parsed "issues") as [i|] eqn:E3; [|discriminate].
  destruct (Get parsed "modelNote") as [m|] eqn:E4; [|discriminate].
  simpl in Hn. injection Hn as <-.
  do 4 eexists. split; [reflexivity|].
  repeat split.
  - destruct (is_number rs) eqn:E; auto.
  - unfold or_else. destruct (truthy s) eqn:E; auto.
  - destruct (isArray i) eqn:E; auto.
  - unfold or_else. destruct (truthy m) eqn:E; auto.
Qed.

(** X1.  Shaping a reply twice is shaping it once: a reply the route has
    shaped is a fixed point of the normalisation. *)
Theorem normalize_idempotent (parsed reply : value number) :
  normalize parsed = Return reply -> normalize reply = Return reply.
Proof.
  intros Hn. destruct (normalize_shape _ _ Hn)
    as (rs & s & i & m & -> & Hrs & Hs & Hi & Hm).
  unfold normalize. simpl. rewrite Hi.
  f_equal. f_equal.
  assert (Hrs' : (if is_number rs then rs else VNull) = rs).
  { destruct Hrs as [-> | ->]; reflexivity. }
  assert (Hor : forall v : value number,
             truthy v = true \/ v = VStr "" -> or_else v (VStr "") = v).
  { intros v [Hv | ->]; unfold or_else; [rewrite Hv|]; reflexivity. }
  rewrite Hrs', (Hor s Hs), (Hor m Hm). reflexivity.
Qed.

(** X2.  Whatever the request and whatever the backend does, the route
    ends in one of four ways: 400 with no call of the backend; 500
    [服务器内部错误] after at most one call; 500 [解析大模型结果失败]
    after one call that returned a text [JSON.parse] rejects; or 200 after
    one call, with a body of exactly the four fields in which [riskScore]
    is a number or [null], [issues] is an array, and [summary] and
    [modelNote] are truthy or the empty text. *)
Theorem post_review_outcomes (callLLM : string -> completion (value number))
    (req_body : value number) :
  (post_review callLLM req_body = (bad_request, []))
  \/ (fst (post_review callLLM req_body) = internal_error
      /\ (snd (post_review callLLM req_body) = []
          \/ exists prompt, snd (post_review callLLM req_body) = [prompt]))
  \/ (exists prompt text error,
        post_review callLLM req_body = (parse_failure, [prompt])
        /\ callLLM prompt = Return (VStr text)
        /\ JSON.parse (number := number) text = Throw error)
  \/ (exists prompt raw riskScore summary issues modelNote,
        post_review callLLM req_body =
          ({| status := 200;
              body := VObj [("riskScore", riskScore); ("summary", summary);
                            ("issues", issues); ("modelNote", modelNote)] |},
           [prompt])
        /\ callLLM prompt = Return raw
        /\ (is_number riskScore = true \/ riskScore = VNull)
        /\ (truthy summary = true \/ summary = VStr "")
        /\ isArray issues = true
        /\ (truthy modelNote = true \/ modelNote = VStr "")).
Proof.
  rewrite post_review_unfold.
  destruct (content_rejected (field req_body "content")); [left; reflexivity|].
  right. unfold review.
  destruct (buildPrompt _ _ _ _) as [prompt|]; [|left; simpl; auto].
  destruct (callLLM prompt) as [raw|] eqn:Ecall; [|left; simpl; eauto].
  assert (Hshaped : forall parsed,
    (fst (match normalize parsed with
          | Return reply => ({| status := 200; body := reply |}, [prompt])
          | Throw _ => (internal_error, [prompt])
          end) = internal_error
     /\ (snd (match normalize parsed with
              | Return reply => ({| status := 200; body := reply |}, [prompt])
              | Throw _ => (internal_error, [prompt])
              end) = []
         \/ exists p, snd (match normalize parsed with
              | Return reply => ({| status := 200; body := reply |}, [prompt])
              | Throw _ => (internal_error, [prompt])
              end) = [p]))
    \/ (exists riskScore summary issues modelNote,
         match normalize parsed with
         | Return reply => ({| status := 200; body := reply |}, [prompt])
         | Throw _ => (internal_error, [prompt])
         end =
           ({| status := 200;
               body := VObj [("riskScore", riskScore); ("summary", summary);
                             ("issues", issues); ("modelNote", modelNote)] |},
            [prompt])
         /\ (is_number riskScore = true \/ riskScore = VNull)
         /\ (truthy summary = true \/ summary = VStr "")
         /\ isArray issues = true
         /\ (truthy modelNote = true \/ modelNote = VStr ""))).
  { intros parsed. destruct (normalize parsed) as [reply|] eqn:En.
    - right. destruct (normalize_shape _ _ En)
        as (rs & s & i & m & -> & Hrs & Hs & Hi & Hm).
      exists rs, s, i, m. auto.
    - left. simpl. eauto. }
  destruct (match raw with VStr text => JSON.parse text | _ => Return raw end)
    as [parsed|error] eqn:Eraw.
  - destruct (Hshaped parsed) as [Hi | (rs & s & i & m & Heq & Hrest)].
    + left. exact Hi.
    + right; right. exists prompt, raw, rs, s, i, m. auto.
  - right; left. destruct raw; try discriminate.
    exists prompt, s, error. auto.
Qed.

(** X3.  A request whose [businessType] and [jurisdiction] are missing (or
    otherwise falsy) is answered exactly like one that gives [general] and
    [cn]; the [options] of the two requests play no part. *)
Theorem review_defaults (callLLM : string -> completion (value number))
    (request explicit : value number) :
  truthy (field request "businessType") = false ->
  truthy (field request "jurisdiction") = false ->
  field explicit "businessType" = VStr "general" ->
  field explicit "jurisdiction" = VStr "cn" ->
  field explicit "content" = field request "content" ->
  post_review callLLM request = post_review callLLM explicit.
Proof.
  intros Hb Hj Eb Ej Ec. rewrite !post_review_unfold, Eb, Ej, Ec.
  destruct (content_rejected (field request "content")); [reflexivity|].
  unfold review, or_else. rewrite Hb, Hj. reflexivity.
Qed.

(** X4.  A request with acceptable content whose [businessType] or
    [jurisdiction] is an object that has a [toString] property of its own
    cannot be put into the prompt: the route answers 500
    [服务器内部错误] and the backend is not called. *)
Theorem unprintable_request (callLLM : string -> completion (value number))
    (req_body : value number) (props : list (string * value number)) :
  content_rejected (field req_body "content") = false ->
  field req_body "businessType" = VObj props
  \/ field req_body "jurisdiction" = VObj props ->
  has_property "toString" props = true ->
  post_review callLLM req_body = (internal_error, []).
Proof.
  intros Hc Hfield Hown. rewrite post_review_unfold, Hc.
  unfold review, buildPrompt.
  destruct Hfield as [-> | ->].
  - simpl. rewrite Hown. reflexivity.
  - unfold or_else at 2. simpl truthy. cbv iota.
    destruct (ToString _) as [t|]; [|reflexivity].
    simpl. rewrite Hown. reflexivity.
Qed.

(** X5.  With the mock backend of the repository, a request with
    acceptable content whose [businessType] and [jurisdiction] can be
    printed is answered 200 with the mock's object as it is (the
    normalisation changes nothing in it), after one call whose prompt is
    built from the printed texts. *)
Theorem callLLM_review (req_body : value number) (businessType jurisdiction : string) :
  content_rejected (field req_body "content") = false ->
  ToString (or_else (field req_body "businessType") (VStr "general"))
    = Return businessType ->
  ToString (or_else (field req_body "jurisdiction") (VStr "cn"))
    = Return jurisdiction ->
  exists prompt reply,
    post_review callLLM req_body = ({| status := 200; body := reply |}, [prompt])
    /\ callLLM prompt = Return reply
    /\ buildPrompt (VStr businessType) (VStr jurisdiction)
         (field req_body "content") VUndefined = Return prompt.
Proof.
  intros Hc Hb Hj. rewrite post_review_unfold, Hc.
  unfold content_rejected in Hc. apply orb_false_elim in Hc as [_ Hs].
  destruct (field req_body "content") as [| | | |text| |] eqn:Ec; try discriminate.
  unfold review, buildPrompt. rewrite Hb, Hj. simpl.
  do 2 eexists. split; [reflexivity|]. split; reflexivity.
Qed.

End ReplyFacts.

(** ** Timestamps *)

Section DateFacts.
Import JS Client Views.

Lemma two_digits_checked :
  forallb
    (fun n =>
       match padStart 2 "0" (String_of_nat n) with
       | String a (String b EmptyString) =>
           match digits_value (String a (String b "")) 0 with
           | Some v => (v =? N.of_nat n)%N
           | None => false
           end
       | _ => false
       end) (seq 0 100) = true.
Proof. vm_compute. reflexivity. Qed.

Lemma four_digits_checked :
  forallb
    (fun n =>
       match String_of_Z (Z.of_nat n) with
       | String a (String b (String c (String d EmptyString))) =>
           match digits_value (String a (String b (String c (String d "")))) 0 with
           | Some v => (v =? N.of_nat n)%N
           | None => false
           end
       | _ => false
       end) (seq 1000 (90 * 100)) = true.
Proof. vm_compute. reflexivity. Qed.

Lemma two_digits (n : nat) :
  n < 100 ->
  exists a b,
    padStart 2 "0" (String_of_nat n) = String a (String b "")
    /\ digits_value (String a (String b "")) 0 = Some (N.of_nat n).
Proof.
  intros Hn. pose proof two_digits_checked as Hall.
  rewrite forallb_forall in Hall. specialize (Hall n).
  destruct (padStart 2 "0" (String_of_nat n)) as [|a [|b [|]]];
    try (discriminate Hall; apply in_seq; lia).
  exists a, b. split; [reflexivity|].
  destruct (digits_value _ 0) as [v|]; try (discriminate Hall; apply in_seq; lia).
  f_equal. apply N.eqb_eq, Hall, in_seq. lia.
Qed.

Lemma four_digits (y : Z) :
  (1000 <= y <= 9999)%Z ->
  exists a b c d,
    String_of_Z y = String a (String b (String c (String d "")))
    /\ digits_value (String a (String b (String c (String d "")))) 0
       = Some (Z.to_N y).
Proof.
  intros Hy. pose proof four_digits_checked as Hall.
  rewrite forallb_forall in Hall. specialize (Hall (Z.to_nat y)).
  assert (Hin : In (Z.to_nat y) (seq 1000 (90 * 100))) by (apply in_seq; lia).
  rewrite Z2Nat.id in Hall by lia.
  destruct (String_of_Z y) as [|a [|b [|c [|d [|]]]]];
    try (discriminate Hall; exact Hin).
  exists a, b, c, d. split; [reflexivity|].
  destruct (digits_value _ 0) as [v|]; try (discriminate Hall; exact Hin).
  f_equal. apply N.eqb_eq in Hall; [|exact Hin]. lia.
Qed.

Lemma formatDate_read (date : Date) :
  calendar_date date = true ->
  String.length (formatDate date) = 16
  /\ read_timestamp (formatDate date) = Some date.
Proof.
  destruct date as [y m d h min]. unfold calendar_date. simpl.
  rewrite !andb_true_iff, !Z.leb_le, !Nat.leb_le.
  intros [[[[[[Hy1 Hy2] Hm] Hd1] Hd2] Hh] Hmin].
  destruct (four_digits y) as (y1 & y2 & y3 & y4 & Ey & Vy); [lia|].
  destruct (two_digits (m + 1)) as (m1 & m2 & Em & Vm); [lia|].
  destruct (two_digits d) as (d1 & d2 & Ed & Vd); [lia|].
  destruct (two_digits h) as (h1 & h2 & Eh & Vh); [lia|].
  destruct (two_digits min) as (n1 & n2 & En & Vn); [lia|].
  unfold formatDate. simpl getFullYear. simpl getMonth. simpl getDate.
  simpl getHours. simpl getMinutes.
  rewrite Ey, Em, Ed, Eh, En.
  cbv [String.append].
  split; [reflexivity|].
  cbv [read_timestamp read_field substring].
  rewrite Vy, Vm, Vd, Vh, Vn.
  rewrite !Nat2N.id. rewrite Nat.add_1_r.
  simpl. f_equal. f_equal. lia.
Qed.

(** X6.  For a date of the calendar with a four-digit year, [formatDate]
    gives sixteen characters of the form [YYYY-MM-DD HH:MM] from which the
    year, the month (printed one higher than [getMonth]), the day, the
    hours and the minutes are read back; so two such dates with the same
    text agree in all five. *)
Theorem formatDate_read_back (date : Date) :
  calendar_date date = true ->
  String.length (formatDate date) = 16
  /\ read_timestamp (formatDate date) = Some date
  /\ forall other, calendar_date other = true ->
       formatDate other = formatDate date -> other = date.
Proof.
  intros Hdate. destruct (formatDate_read date Hdate) as [Hlen Hread].
  split; [exact Hlen|]. split; [exact Hread|].
  intros other Hother Heq.
  destruct (formatDate_read other Hother) as [_ Hread'].
  rewrite Heq, Hread in Hread'. congruence.
Qed.

End DateFacts.

(** ** What the generator always returns *)

Section GeneratedFacts.
Import JS Client Views.
Context `{Platform}.

Lemma begins_with_append (prefix rest : string) :
  begins_with prefix (prefix +:+ rest) = true.
Proof.
  unfold begins_with. induction prefix as [|c prefix IH]; simpl.
  - destruct rest; reflexivity.
  - destruct (ascii_dec c c); [exact IH | congruence].
Qed.

Lemma generateId_begins (prefix : string) (r : Random) (now : Z) :
  begins_with prefix (generateId prefix r now) = true.
Proof. apply begins_with_append. Qed.

Lemma begins_with_letter_no_index (k : string) :
  begins_with "R" k = true \/ begins_with "P" k = true -> array_index k = None.
Proof.
  unfold begins_with. destruct k as [|c k]; [intros [?|?]; discriminate|].
  change (String.prefix "R" (String c k))
    with (if ascii_dec "R" c then String.prefix "" k else false).
  change (String.prefix "P" (String c k))
    with (if ascii_dec "P" c then String.prefix "" k else false).
  intros [Hc | Hc].
  - destruct (ascii_dec "R" c) as [<-|]; [reflexivity | discriminate Hc].
  - destruct (ascii_dec "P" c) as [<-|]; [reflexivity | discriminate Hc].
Qed.

Lemma createDummyAIResults_first (e : Entropy) :
  overallRisk (createDummyAIResults e) = High
  /\ (forall item, item ∈ riskItems (createDummyAIResults e) ->
      begins_with "R" (risk_id item) = true)
  /\ exists first rest,
       riskItems (createDummyAIResults e) = first :: rest /\ riskLevel first = High.
Proof.
  pose proof (random_below_range (Math_random e 0) 3 ltac:(lia)) as Hr.
  unfold createDummyAIResults. cbn [overallRisk riskItems].
  destruct (Z.to_nat (random_below (Math_random e 0) 3 + 2)) as [|n] eqn:En; [lia|].
  cbn [seq map]. split; [|split].
  - rewrite highest_risk_maximum. reflexivity.
  - intros item Hin.
    apply elem_of_cons in Hin as [-> | Hin]; [apply generateId_begins|].
    apply list_elem_of_fmap in Hin as (i & -> & _). apply generateId_begins.
  - eauto.
Qed.

(** X7.  Whatever the random numbers, the generator's first finding is at
    level 高, so the overall risk of every generated review is 高; and every
    finding's identifier begins with [R], so none is an array index (the
    decisions keyed by them are enumerated in the order in which they were
    first recorded). *)
Theorem createDummyAIResults_high (e : Entropy) :
  overallRisk (createDummyAIResults e) = High
  /\ (exists first rest,
        riskItems (createDummyAIResults e) = first :: rest /\ riskLevel first = High)
  /\ Forall (fun item => begins_with "R" (risk_id item) = true
                         /\ array_index (risk_id item) = None)
       (riskItems (createDummyAIResults e)).
Proof.
  destruct (createDummyAIResults_first e) as (Hhigh & Hids & Hfirst).
  split; [exact Hhigh|]. split; [exact Hfirst|].
  apply Forall_forall. intros item Hin.
  split; [apply Hids, Hin | apply begins_with_letter_no_index; left; apply Hids, Hin].
Qed.

Lemma createDummyAIResults_generated (e : Entropy) :
  generated_review (createDummyAIResults e).
Proof.
  destruct (createDummyAIResults_first e) as (Hhigh & Hids & _).
  split; [exact Hhigh|]. split; [apply dummy_count|].
  apply Forall_forall. intros item Hin. apply Hids, Hin.
Qed.

Lemma reviews_generated_stable : stable reviews_generated (fun _ => True).
Proof.
  split; unfold reviews_generated; simpl.
  - intros p _ Hr r. rewrite Hr. discriminate.
  - intros p t Hp _. exact Hp.
  - intros p t e _ r [= <-]. apply createDummyAIResults_generated.
  - intros p t r form saved Hp Hr _ r' [= <-]. apply (Hp r Hr).
  - intros p t r Hp _. exact Hp.
Qed.

Lemma run_reviews_generated (evs : list Event) :
  Forall reviews_generated (localStorage (run evs fresh)).
Proof.
  apply (run_everywhere reviews_generated evs fresh
           reviews_generated_stable (everywhere_fresh _)).
Qed.

(** X8.  From an empty store, after any sequence of events, every review
    in the store has overall risk 高, between two and four findings, and
    findings whose identifiers begin with [R]: saving decisions, submitting
    and restarting never alter what the generator produced. *)
Theorem stored_reviews_generated (evs : list Event) (p : Project) (r : AIReview) :
  p ∈ localStorage (run evs fresh) -> aiReview p = Some r ->
  overallRisk r = High
  /\ 2 <= length (riskItems r) <= 4
  /\ Forall (fun item => begins_with "R" (risk_id item) = true) (riskItems r).
Proof.
  intros Hp Hr. pose proof (run_reviews_generated evs) as Hs.
  rewrite Forall_forall in Hs. exact (Hs p Hp r Hr).
Qed.

End GeneratedFacts.

(** ** Reviews that overlap other writes *)

Section CompositionFacts.
Import JS Client Views.
Context `{Platform}.

Lemma startAIReview_found (projectId : string) (now : Date) (b : Browser) i p :
  find projectId (getProjects b) = Some (i, p) ->
  startAIReview projectId now b =
    (let projects :=
       <[i := set_updatedAt (formatDate now) (set_status AI_REVIEWING p)]>
         (localStorage b) in
     {| localStorage := projects;
        timers := timers b ++ [{| held_projects := projects; held_index := i |}] |},
     []).
Proof. intros Hf. unfold startAIReview. rewrite Hf. reflexivity. Qed.

Lemma review_timeout_middle (e : Entropy) (now : Date) store ts more held i p :
  held !! i = Some p ->
  review_timeout (length ts) e now
    {| localStorage := store;
       timers := ts ++ {| held_projects := held; held_index := i |} :: more |} =
    ({| localStorage := <[i := reviewed_project e now p]> held;
        timers := ts ++ more |}, [reload]).
Proof.
  intros Hp. unfold review_timeout. cbn [timers].
  rewrite (list_lookup_middle ts more _ (length ts) eq_refl).
  cbn [held_projects held_index]. rewrite Hp, delete_middle. reflexivity.
Qed.

Lemma store_event_timers (ev : Event) (b : Browser) :
  store_event ev -> timers (fst (step ev b)) = timers b.
Proof.
  destruct ev as [form now r ms | pid now | k e now | pid form now | pid now];
    simpl; intros Hev; try contradiction.
  - unfold handleCreateProject. destruct (_ || _); reflexivity.
  - unfold saveRiskActions.
    destruct (find pid (getProjects b)) as [[i p]|]; [|reflexivity].
    destruct (aiReview p) as [r|]; [|reflexivity].
    destruct (fold_left _ _ _); reflexivity.
  - unfold submitForDepartmentReview.
    destruct (find pid (getProjects b)) as [[i p]|]; [|reflexivity].
    destruct (aiReview p); reflexivity.
Qed.

Lemma store_events_timers (evs : list Event) (b : Browser) :
  Forall store_event evs -> timers (run evs b) = timers b.
Proof.
  intros Hevs. revert b. induction Hevs as [|ev evs Hev _ IH]; intros b; [reflexivity|].
  rewrite run_cons, IH. apply store_event_timers, Hev.
Qed.

Lemma run_app (evs evs' : list Event) (b : Browser) :
  run (evs ++ evs') b = run evs' (run evs b).
Proof. apply fold_left_app. Qed.

(** X9.  A review is started on a stored project and its callback fires
    after any number of creations, saved decisions and submissions (of
    this or of other projects, in this page or in another).  The callback
    writes back the collection the start had read: the store ends as it
    was when the review started, except that the reviewed project is
    [AI_COMPLETED] with a fresh review and no decisions.  Everything
    written in between is lost. *)
Theorem writes_during_review_are_lost (projectId : string) (started finished : Date)
    (e : Entropy) (between : list Event) (b : Browser) i p :
  find projectId (getProjects b) = Some (i, p) ->
  Forall store_event between ->
  run (StartReview projectId started :: between
       ++ [ReviewCompletes (length (timers b)) e finished]) b
  = {| localStorage := <[i := reviewed_project e finished p]> (localStorage b);
       timers := timers b |}.
Proof.
  intros Hf Hbetween. apply find_Some in Hf as Hfp. destruct Hfp as [Hi _].
  rewrite run_cons, run_app.
  pose proof (store_events_timers between
                (fst (step (StartReview projectId started) b)) Hbetween) as Ht.
  simpl step in *. rewrite (startAIReview_found _ _ _ _ _ Hf) in *.
  cbn [fst timers] in *.
  destruct (run between _) as [store ts]. cbn [timers] in Ht. subst ts.
  unfold run. simpl fold_left.
  rewrite review_timeout_middle
    with (p := set_updatedAt (formatDate started) (set_status AI_REVIEWING p)).
  - cbn [fst]. rewrite list_insert_insert_eq, app_nil_r. reflexivity.
  - apply list_lookup_insert_eq. eapply lookup_lt_Some, Hi.
Qed.

(** X10.  When a review of the same project is started twice before either
    callback fires, both callbacks run, and the review that remains is the
    one of the callback that fires last, whichever start it belongs to. *)
Theorem last_completion_decides (projectId : string) (n1 n2 n3 n4 : Date)
    (e1 e2 : Entropy) (b : Browser) i p :
  find projectId (getProjects b) = Some (i, p) ->
  run [StartReview projectId n1; StartReview projectId n2;
       ReviewCompletes (length (timers b)) e1 n3;
       ReviewCompletes (length (timers b)) e2 n4] b
  = {| localStorage := <[i := reviewed_project e2 n4 p]> (localStorage b);
       timers := timers b |}
  /\ run [StartReview projectId n1; StartReview projectId n2;
          ReviewCompletes (S (length (timers b))) e2 n3;
          ReviewCompletes (length (timers b)) e1 n4] b
     = {| localStorage := <[i := reviewed_project e1 n4 p]> (localStorage b);
          timers := timers b |}.
Proof.
  intros Hf. apply find_Some in Hf as Hfp. destruct Hfp as [Hi Hid].
  pose proof (lookup_lt_Some _ _ _ Hi) as Hlt. unfold getProjects in Hlt.
  set (p1 := set_updatedAt (formatDate n1) (set_status AI_REVIEWING p)).
  set (p2 := set_updatedAt (formatDate n2) (set_status AI_REVIEWING p1)).
  assert (Hf1 : find projectId (<[i := p1]> (localStorage b)) = Some (i, p1)).
  { apply (find_insert _ _ _ p); [exact Hf | exact Hid]. }
  assert (Hstart : fst (step (StartReview projectId n2)
                          (fst (step (StartReview projectId n1) b)))
    = {| localStorage := <[i := p2]> (localStorage b);
         timers := timers b ++
           {| held_projects := <[i := p1]> (localStorage b); held_index := i |}
           :: [{| held_projects := <[i := p2]> (localStorage b); held_index := i |}] |}).
  { simpl step. rewrite (startAIReview_found _ _ _ _ _ Hf). cbn [fst].
    rewrite (startAIReview_found projectId n2
               {| localStorage := <[i := p1]> (localStorage b); timers := _ |}
               i p1 Hf1).
    cbn [fst localStorage timers]. rewrite list_insert_insert_eq, <- app_assoc.
    reflexivity. }
  split.
  - rewrite !run_cons, Hstart. unfold run. simpl fold_left.
    rewrite review_timeout_middle with (p := p1)
      by (apply list_lookup_insert_eq; exact Hlt).
    cbn [fst].
    rewrite review_timeout_middle with (p := p2)
      by (apply list_lookup_insert_eq; exact Hlt).
    cbn [fst]. rewrite list_insert_insert_eq, app_nil_r. reflexivity.
  - rewrite !run_cons, Hstart. unfold run. simpl fold_left.
    replace (S (length (timers b)))
      with (length (timers b ++
              [{| held_projects := <[i := p1]> (localStorage b); held_index := i |}]))
      by (rewrite length_app; simpl; lia).
    change (timers b ++
           {| held_projects := <[i := p1]> (localStorage b); held_index := i |}
           :: [{| held_projects := <[i := p2]> (localStorage b); held_index := i |}])
      with (timers b ++
           [{| held_projects := <[i := p1]> (localStorage b); held_index := i |}]
           ++ [{| held_projects := <[i := p2]> (localStorage b); held_index := i |}]).
    rewrite app_assoc.
    rewrite review_timeout_middle with (p := p2)
      by (apply list_lookup_insert_eq; exact Hlt).
    cbn [fst]. rewrite app_nil_r.
    rewrite review_timeout_middle with (p := p1)
      by (apply list_lookup_insert_eq; exact Hlt).
    cbn [fst]. rewrite list_insert_insert_eq, app_nil_r. reflexivity.
Qed.

Lemma fmap_insert_same {A B} (f : A -> B) (l : list A) (i : nat) (x y : A) :
  l !! i = Some x -> f y = f x -> map f (<[i := y]> l) = map f l.
Proof.
  intros Hi Hf. change (map f) with (fmap (M := list) f).
  rewrite list_fmap_insert, Hf. apply list_insert_id.
  rewrite list_lookup_fmap, Hi. reflexivity.
Qed.

(** X11.  Starting a review, saving decisions and submitting never add,
    remove or reorder projects, and leave in every project the
    identifier, the descriptive fields, the creation time, the overall
    risk and the findings as they were: only the status, the time of the
    last change and the decisions move.  Saving and submitting set no
    callback. *)
Theorem handlers_keep_the_projects (projectId : string) (form : ActionForm)
    (now : Date) (b : Browser) :
  map fixed_part (getProjects (fst (startAIReview projectId now b)))
    = map fixed_part (getProjects b)
  /\ map fixed_part (getProjects (fst (saveRiskActions projectId form now b)))
     = map fixed_part (getProjects b)
  /\ map fixed_part (getProjects (fst (submitForDepartmentReview projectId now b)))
     = map fixed_part (getProjects b)
  /\ timers (fst (saveRiskActions projectId form now b)) = timers b
  /\ timers (fst (submitForDepartmentReview projectId now b)) = timers b.
Proof.
  split; [|split; [|split; [|split]]].
  - unfold startAIReview.
    destruct (find projectId (getProjects b)) as [[i p]|] eqn:Hf; [|reflexivity].
    apply find_Some in Hf as [Hi _]. simpl.
    apply (fmap_insert_same _ _ _ p); [exact Hi | reflexivity].
  - unfold saveRiskActions.
    destruct (find projectId (getProjects b)) as [[i p]|] eqn:Hf; [|reflexivity].
    apply find_Some in Hf as [Hi _].
    destruct (aiReview p) as [r|] eqn:Hr; [|reflexivity].
    destruct (fold_left _ _ _) as [saved|error]; [|reflexivity]. simpl.
    apply (fmap_insert_same _ _ _ p); [exact Hi|].
    unfold fixed_part. simpl. rewrite Hr. reflexivity.
  - unfold submitForDepartmentReview.
    destruct (find projectId (getProjects b)) as [[i p]|] eqn:Hf; [|reflexivity].
    apply find_Some in Hf as [Hi _].
    destruct (aiReview p) as [r|] eqn:Hr; [|reflexivity]. simpl.
    apply (fmap_insert_same _ _ _ p); [exact Hi | reflexivity].
  - apply (store_event_timers (SaveDispositions projectId form now) b I).
  - apply (store_event_timers (SubmitForDepartmentReview projectId now) b I).
Qed.

End CompositionFacts.

(** ** The dashboard and the creation of projects *)

Section DashboardFacts.
Import JS Client Views.
Context `{Platform}.

Lemma filter_length_insert {A} (f : A -> bool) (l : list A) (i : nat) (x y : A) :
  l !! i = Some x ->
  length (List.filter f (<[i := y]> l)) + (if f x then 1 else 0)
  = length (List.filter f l) + (if f y then 1 else 0).
Proof.
  revert i. induction l as [|a l IH]; intros i Hi; [discriminate|].
  destruct i as [|i]; simpl in *.
  - injection Hi as ->. destruct (f x), (f y); simpl; lia.
  - specialize (IH i Hi). destruct (f a); simpl; lia.
Qed.

Lemma status_counts (projects : list Project) :
  Forall (fun p => status p <> APPROVED) projects ->
  length (List.filter counts_as_completed projects) = with_status AI_COMPLETED projects
  /\ length (List.filter counts_as_pending projects) = with_status DRAFT projects
  /\ length projects
     = with_status DRAFT projects + with_status AI_REVIEWING projects
       + with_status AI_COMPLETED projects + with_status DEPT_REVIEWING projects.
Proof.
  unfold with_status, counts_as_completed, counts_as_pending.
  induction 1 as [|p projects Hp _ (IH1 & IH2 & IH3)]; [repeat split|].
  cbn [List.filter length].
  destruct (status p); try congruence; cbn in *; lia.
Qed.

(** X12.  On any store the two partial counts of the dashboard never
    exceed the total.  On a store the prototype has filled from empty, the
    card of completed reviews counts exactly the projects in
    [AI_COMPLETED], the card of pending ones those in [DRAFT], and the
    projects shown in neither are those in [AI_REVIEWING] and
    [DEPT_REVIEWING]. *)
Theorem dashboard_counts (evs : list Event) (b : Browser) :
  completed (displayDashboard b) + pending (displayDashboard b)
    <= total (displayDashboard b)
  /\ (let projects := getProjects (run evs fresh) in
      let summary := displayDashboard (run evs fresh) in
      completed summary = with_status AI_COMPLETED projects
      /\ pending summary = with_status DRAFT projects
      /\ total summary
         = completed summary + pending summary
           + with_status AI_REVIEWING projects + with_status DEPT_REVIEWING projects).
Proof.
  split.
  - unfold displayDashboard, getProjects. cbn [total completed pending].
    induction (localStorage b) as [|p projects IH]; [reflexivity|].
    unfold counts_as_completed, counts_as_pending in *. cbn [List.filter length].
    destruct (status p); cbn; lia.
  - destruct (run_everywhere review_matches_status evs fresh
                review_matches_status_stable (everywhere_fresh _)) as [Hs _].
    assert (Hno : Forall (fun p => status p <> APPROVED) (localStorage (run evs fresh))).
    { eapply Forall_impl; [exact Hs|]. intros p (_ & _ & Ha). exact Ha. }
    destruct (status_counts _ Hno) as (Hc & Hp & Ht).
    unfold displayDashboard, getProjects. cbn [total completed pending].
    rewrite Hc, Hp. split; [reflexivity|]. split; [reflexivity|]. lia.
Qed.

(** X13.  Submitting a project whose review is completed takes it out of
    the dashboard's count of completed reviews: that count drops by one,
    the total and the count of pending projects stay. *)
Theorem submitted_is_not_completed (projectId : string) (now : Date) (b : Browser)
    i p r :
  find projectId (getProjects b) = Some (i, p) ->
  aiReview p = Some r -> status p = AI_COMPLETED ->
  displayDashboard b =
    {| total := total (displayDashboard (fst (submitForDepartmentReview projectId now b)));
       completed :=
         S (completed (displayDashboard (fst (submitForDepartmentReview projectId now b))));
       pending := pending (displayDashboard (fst (submitForDepartmentReview projectId now b))) |}.
Proof.
  intros Hf Hr Hst. unfold submitForDepartmentReview. rewrite Hf, Hr.
  apply find_Some in Hf as [Hi _]. unfold getProjects in *.
  unfold displayDashboard, getProjects, saveProjects.
  cbn [fst localStorage total completed pending].
  set (q := set_updatedAt (formatDate now) (set_status DEPT_REVIEWING p)).
  pose proof (filter_length_insert counts_as_completed _ i p q Hi) as Hc.
  pose proof (filter_length_insert counts_as_pending _ i p q Hi) as Hp.
  assert (Ecp : counts_as_completed p = true)
    by (unfold counts_as_completed; rewrite Hst; reflexivity).
  assert (Epp : counts_as_pending p = false)
    by (unfold counts_as_pending; rewrite Hst; reflexivity).
  rewrite Ecp in Hc. rewrite Epp in Hp.
  change (counts_as_completed q) with false in Hc.
  change (counts_as_pending q) with false in Hp.
  cbv iota in Hc, Hp. rewrite length_insert. f_equal; lia.
Qed.

(** X14.  [handleCreateProject] rejects a form whose trimmed project name
    or file name is empty: it alerts and leaves the store as it is.
    Otherwise it appends one project, in [DRAFT], without review, created
    and updated at the same time, under an identifier that begins with
    [P], and sends the browser to the detail page of that identifier; the
    projects stored before stay in place, and the dashboard counts one
    project and one pending project more. *)
Theorem handleCreateProject_appends (form : CreateForm) (now : Date) (r : Random)
    (ms : Z) (b : Browser) :
  (trim (form_projectName form) = "" \/ trim (form_policyTitle form) = "" ->
   handleCreateProject form now r ms b = (b, [alert "请填写完整的项目名称和文件名称"]))
  /\ (trim (form_projectName form) <> "" -> trim (form_policyTitle form) <> "" ->
      exists p,
        handleCreateProject form now r ms b
          = ({| localStorage := localStorage b ++ [p]; timers := timers b |},
             [navigate ("project_detail.html?id=" +:+ id p)])
        /\ status p = DRAFT /\ aiReview p = None
        /\ createdAt p = formatDate now /\ updatedAt p = formatDate now
        /\ begins_with "P" (id p) = true
        /\ projectName p = trim (form_projectName form)
        /\ policyTitle p = trim (form_policyTitle form)
        /\ displayDashboard (fst (handleCreateProject form now r ms b))
           = {| total := S (total (displayDashboard b));
                completed := completed (displayDashboard b);
                pending := S (pending (displayDashboard b)) |}).
Proof.
  unfold handleCreateProject. split.
  - intros [-> | ->]; [reflexivity|]. rewrite orb_true_r. reflexivity.
  - intros Hn Ht.
    apply String.eqb_neq in Hn, Ht. rewrite Hn, Ht. cbn [orb].
    eexists. split; [reflexivity|].
    cbn [status aiReview createdAt updatedAt id projectName policyTitle].
    repeat split; [apply generateId_begins|].
    unfold displayDashboard, getProjects, saveProjects.
    cbn [fst localStorage total completed pending].
    rewrite !List.filter_app, !length_app. cbn. f_equal; lia.
Qed.

Lemma find_app_new (projectId : string) (projects : list Project) (p : Project) :
  find projectId projects = None -> id p = projectId ->
  find projectId (projects ++ [p]) = Some (length projects, p).
Proof.
  intros Hnone Hid. induction projects as [|q projects IH]; simpl in *.
  - rewrite Hid, String.eqb_refl. reflexivity.
  - destruct (id q =? projectId)%string; [discriminate|].
    destruct (find projectId projects) as [[j x]|]; [discriminate|].
    rewrite (IH eq_refl). reflexivity.
Qed.

Lemma find_app_old (projectId : string) (projects more : list Project) i p :
  find projectId projects = Some (i, p) ->
  find projectId (projects ++ more) = Some (i, p).
Proof.
  revert i. induction projects as [|q projects IH]; intros i; simpl; [discriminate|].
  destruct (id q =? projectId)%string; [auto|].
  destruct (find projectId projects) as [[j x]|]; [|discriminate].
  intros [= <- <-]. rewrite (IH j eq_refl). reflexivity.
Qed.

(** X15.  After a creation that was accepted, the detail page opened for
    the new identifier shows the new project when no stored project had
    that identifier, and otherwise the older project that has it: the
    lookup takes the first match. *)
Theorem created_project_is_shown (form : CreateForm) (now : Date) (r : Random)
    (ms : Z) (b : Browser) :
  trim (form_projectName form) <> "" -> trim (form_policyTitle form) <> "" ->
  let b' := fst (handleCreateProject form now r ms b) in
  let projectId := generateId "P" r ms in
  match find projectId (getProjects b) with
  | None =>
      exists p, displayProjectDetail (Some projectId) b' = [show_detail p]
        /\ getProjects b' = getProjects b ++ [p]
  | Some (_, old) =>
      displayProjectDetail (Some projectId) b' = [show_detail old]
  end.
Proof.
  intros Hn Ht b' projectId. subst b'.
  unfold handleCreateProject.
  apply String.eqb_neq in Hn, Ht. rewrite Hn, Ht. cbn [orb fst].
  assert (Hne : (projectId =? "")%string = false).
  { apply String.eqb_neq. intros Hempty.
    pose proof (generateId_begins "P" r ms) as Hb. fold projectId in Hb.
    rewrite Hempty in Hb. discriminate. }
  unfold displayProjectDetail. rewrite Hne.
  unfold getProjects, saveProjects. cbn [localStorage].
  destruct (find projectId (localStorage b)) as [[i old]|] eqn:Hf.
  - rewrite (find_app_old _ _ _ _ _ Hf). reflexivity.
  - eexists. rewrite (find_app_new _ _ _ Hf); [|reflexivity].
    split; reflexivity.
Qed.

End DashboardFacts.

(** ** The statistics page *)

Section StatsFacts.
Import JS Client Views.
Context `{Platform}.

Lemma fold_add (l : list nat) (a : nat) :
  fold_left (fun a b => a + b) l a = a + fold_left (fun a b => a + b) l 0.
Proof.
  revert a. induction l as [|x l IH]; intros a; simpl; [lia|].
  rewrite (IH (a + x)), (IH x). lia.
Qed.

Lemma total_of_cons k v (counts : list (string * nat)) :
  total_of ((k, v) :: counts) = v + total_of counts.
Proof. unfold total_of. simpl. apply fold_add. Qed.

Lemma total_of_app (counts more : list (string * nat)) :
  total_of (counts ++ more) = total_of counts + total_of more.
Proof.
  induction counts as [|[k v] counts IH]; [reflexivity|].
  simpl. rewrite !total_of_cons, IH. lia.
Qed.

Lemma replace_property_absent k v (counts : list (string * nat)) :
  has_property k counts = false -> replace_property k v counts = counts.
Proof.
  intros Hk. apply has_property_false in Hk.
  induction Hk as [|[k' v'] counts Hne _ IH]; [reflexivity|].
  simpl in *. rewrite IH. apply String.eqb_neq in Hne. rewrite Hne. reflexivity.
Qed.

Lemma in_order_head_absent k v (counts : list (string * nat)) :
  in_property_order ((k, v) :: counts) -> has_property k counts = false.
Proof.
  intros [Hk _]. apply has_property_false.
  simpl in Hk. change (map fst counts) with (fst <$> counts) in Hk.
  rewrite Forall_fmap in Hk. eapply Forall_impl; [exact Hk|].
  intros [k' v'] Hb Heq. simpl in *. subst k'. exact (key_before_irrefl k Hb).
Qed.

Lemma total_of_replace k v n (counts : list (string * nat)) :
  in_property_order counts -> lookup_property k counts = Some n ->
  total_of (replace_property k v counts) + n = total_of counts + v.
Proof.
  induction counts as [|[k0 v0] counts IH]; intros Hord Hk; [discriminate|].
  pose proof (in_order_head_absent _ _ _ Hord) as Habs.
  destruct Hord as [_ Hord].
  simpl in Hk. change (replace_property k v ((k0, v0) :: counts))
    with ((if (k0 =? k)%string then (k0, v) else (k0, v0))
          :: replace_property k v counts).
  destruct (String.eqb_spec k0 k) as [-> | Hne].
  - injection Hk as ->. rewrite (replace_property_absent _ _ _ Habs).
    rewrite !total_of_cons. lia.
  - rewrite !total_of_cons. specialize (IH Hord Hk). lia.
Qed.

Lemma total_of_insert_index i k v (counts : list (string * nat)) :
  total_of (insert_index i k v counts) = total_of counts + v.
Proof.
  induction counts as [|[k0 v0] counts IH]; simpl.
  - rewrite total_of_cons. unfold total_of. simpl. lia.
  - destruct (array_index k0) as [j|].
    + destruct (j <? i)%N; rewrite !total_of_cons; [rewrite IH|]; lia.
    + rewrite !total_of_cons. lia.
Qed.

Lemma total_of_increment k (counts : list (string * nat)) :
  in_property_order counts -> total_of (increment k counts) = S (total_of counts).
Proof.
  intros Hord. unfold increment, define_property, has_property.
  destruct (lookup_property k counts) as [n|] eqn:Hk.
  - pose proof (total_of_replace k (n + 1) n counts Hord Hk). lia.
  - destruct (array_index k).
    + rewrite total_of_insert_index. lia.
    + rewrite total_of_app, total_of_cons. unfold total_of at 2. simpl. lia.
Qed.

Lemma increment_in_order k (counts : list (string * nat)) :
  in_property_order counts -> in_property_order (increment k counts).
Proof. apply define_property_in_order. Qed.

Lemma lookup_increment k' k (counts : list (string * nat)) :
  lookup_property k' (increment k counts) =
  if (k =? k')%string
  then Some (S (match lookup_property k' counts with Some n => n | None => 0 end))
  else lookup_property k' counts.
Proof.
  unfold increment. rewrite lookup_define_property.
  destruct (String.eqb_spec k k') as [-> |]; [|reflexivity].
  f_equal. lia.
Qed.

Lemma has_property_keys k (counts : list (string * nat)) :
  has_property k counts = existsb (fun k' => (k' =? k)%string) (map fst counts).
Proof.
  unfold has_property. induction counts as [|[k' v] counts IH]; [reflexivity|].
  simpl. destruct (k' =? k)%string; [reflexivity | exact IH].
Qed.

Lemma increment_keys k (counts : list (string * nat)) :
  array_index k = None ->
  map fst (increment k counts) =
  if existsb (fun k' => (k' =? k)%string) (map fst counts)
  then map fst counts else map fst counts ++ [k].
Proof.
  intros Hk. unfold increment, define_property.
  rewrite <- has_property_keys. destruct (has_property k counts).
  - apply keys_replace_property.
  - rewrite Hk, map_app. reflexivity.
Qed.

Section Tally.
Context {A : Type} (key : A -> string).

Lemma tally_total (l : list A) (init : list (string * nat)) :
  in_property_order init ->
  in_property_order (fold_left (fun counts x => increment (key x) counts) l init)
  /\ total_of (fold_left (fun counts x => increment (key x) counts) l init)
     = total_of init + length l.
Proof.
  revert init. induction l as [|x l IH]; intros init Hord; simpl.
  - split; [exact Hord | lia].
  - destruct (IH (increment (key x) init) (increment_in_order _ _ Hord)) as [Ho Ht].
    split; [exact Ho|]. rewrite Ht, total_of_increment by exact Hord. lia.
Qed.

Lemma tally_lookup (l : list A) (init : list (string * nat)) (k : string) :
  lookup_property k (fold_left (fun counts x => increment (key x) counts) l init) =
  match length (List.filter (fun x => (key x =? k)%string) l) with
  | 0 => lookup_property k init
  | S n => Some (match lookup_property k init with Some m => m | None => 0 end + S n)
  end.
Proof.
  revert init. induction l as [|x l IH]; intros init; [reflexivity|].
  cbn [fold_left List.filter]. rewrite IH, lookup_increment.
  destruct (key x =? k)%string; cbn [length].
  - destruct (length _); f_equal; lia.
  - reflexivity.
Qed.

Lemma tally_keys (l : list A) (init : list (string * nat)) :
  Forall (fun x => array_index (key x) = None) l ->
  map fst (fold_left (fun counts x => increment (key x) counts) l init)
  = map fst init ++ first_seen (map key l) (map fst init).
Proof.
  intros Hl. revert init. induction Hl as [|x l Hx _ IH]; intros init.
  - simpl. rewrite app_nil_r. reflexivity.
  - cbn [fold_left map first_seen]. rewrite IH, (increment_keys _ _ Hx).
    destruct (existsb _ (map fst init)); [reflexivity|].
    rewrite <- app_assoc. reflexivity.
Qed.

End Tally.

(** X16.  In the status distribution of the statistics page, a status is
    listed exactly when some project has it, with the number of projects
    that have it; the counts add up to the number of projects, and no
    status is listed twice. *)
Theorem statusCounts_count (b : Browser) (s : Status) :
  lookup_property (status_text s) (statusCounts (displayStats b))
  = match with_status s (getProjects b) with
    | 0 => None
    | S n => Some (S n)
    end
  /\ total_of (statusCounts (displayStats b)) = length (getProjects b)
  /\ in_property_order (statusCounts (displayStats b)).
Proof.
  unfold displayStats. cbn [statusCounts].
  destruct (tally_total (fun p => status_text (status p)) (getProjects b) [] I)
    as [Hord Htotal].
  split; [|split; [exact Htotal | exact Hord]].
  rewrite tally_lookup. reflexivity.
Qed.

(** X17.  The status distribution lists the statuses in the order in which
    they first occur in the stored collection. *)
Theorem statusCounts_order (b : Browser) :
  map fst (statusCounts (displayStats b))
  = first_seen (map (fun p => status_text (status p)) (getProjects b)) [].
Proof.
  unfold displayStats. cbn [statusCounts].
  rewrite (tally_keys (fun p => status_text (status p))); [reflexivity|].
  apply Forall_forall. intros p _. destruct (status p); reflexivity.
Qed.

Lemma risk_loop (projects : list Project) (init : list (string * nat)) :
  fold_left
    (fun counts p =>
       match aiReview p with
       | Some review => increment (risk_text (overallRisk review)) counts
       | None => increment unreviewed counts
       end) projects init
  = fold_left (fun counts p => increment (risk_label p) counts) projects init.
Proof.
  revert init. induction projects as [|p projects IH]; intros init; [reflexivity|].
  simpl. rewrite IH. unfold risk_label. destruct (aiReview p); reflexivity.
Qed.

Lemma risk_keys (projects : list Project) (init : list (string * nat)) :
  map fst init = ["高"; "中"; "低"; unreviewed] ->
  map fst (fold_left (fun counts p => increment (risk_label p) counts) projects init)
  = ["高"; "中"; "低"; unreviewed].
Proof.
  revert init. induction projects as [|p projects IH]; intros init Hinit; [exact Hinit|].
  simpl. apply IH.
  destruct init as [|[k1 a] [|[k2 b'] [|[k3 c] [|[k4 d] [|]]]]]; try discriminate.
  injection Hinit as -> -> -> ->.
  unfold risk_label. destruct (aiReview p) as [r|]; [destruct (overallRisk r)|];
    reflexivity.
Qed.

Lemma riskCounts_lookup (b : Browser) (l : string) :
  l ∈ ["高"; "中"; "低"; unreviewed] ->
  lookup_property l (riskCounts (displayStats b)) = Some (with_label l (getProjects b)).
Proof.
  intros Hl. unfold displayStats. cbn [riskCounts].
  rewrite risk_loop, tally_lookup. unfold with_label.
  assert (Hinit : lookup_property l
                    [("高", 0); ("中", 0); ("低", 0); (unreviewed, 0)] = Some 0).
  { repeat (apply elem_of_cons in Hl as [-> | Hl]; [reflexivity|]). inversion Hl. }
  rewrite Hinit. destruct (length _); reflexivity.
Qed.

(** X18.  The risk distribution of the statistics page always has the four
    rows 高, 中, 低, 未审 in this order; each counts the projects whose
    review has that overall risk (未审: the projects without review), and
    the four counts add up to the number of projects. *)
Theorem riskCounts_count (b : Browser) :
  map fst (riskCounts (displayStats b)) = ["高"; "中"; "低"; unreviewed]
  /\ lookup_property "高" (riskCounts (displayStats b))
     = Some (with_label "高" (getProjects b))
  /\ lookup_property "中" (riskCounts (displayStats b))
     = Some (with_label "中" (getProjects b))
  /\ lookup_property "低" (riskCounts (displayStats b))
     = Some (with_label "低" (getProjects b))
  /\ lookup_property unreviewed (riskCounts (displayStats b))
     = Some (with_label unreviewed (getProjects b))
  /\ total_of (riskCounts (displayStats b)) = length (getProjects b).
Proof.
  split.
  { unfold displayStats. cbn [riskCounts]. rewrite risk_loop.
    apply risk_keys. reflexivity. }
  repeat split;
    try (apply riskCounts_lookup;
         repeat first [apply list_elem_of_here | apply list_elem_of_further]).
  unfold displayStats. cbn [riskCounts]. rewrite risk_loop.
  assert (Hord : in_property_order
                   [("高", 0); ("中", 0); ("低", 0); (unreviewed, 0)]).
  { unfold in_property_order. simpl.
    repeat split; repeat constructor; vm_compute; discriminate. }
  destruct (tally_total risk_label (getProjects b) _ Hord) as [_ Ht].
  rewrite Ht. reflexivity.
Qed.

Lemma no_other_label (projects : list Project) (l : string) :
  Forall reviews_generated projects ->
  (l =? "高")%string = false -> (l =? unreviewed)%string = false ->
  with_label l projects = 0.
Proof.
  intros Hall Hh Hu. unfold with_label.
  induction Hall as [|p projects Hp _ IH]; [reflexivity|].
  cbn [List.filter]. unfold risk_label at 1.
  destruct (aiReview p) as [r|] eqn:Hr.
  - destruct (Hp r Hr) as [-> _]. cbn [risk_text].
    rewrite String.eqb_sym, Hh. exact IH.
  - rewrite String.eqb_sym, Hu. exact IH.
Qed.

(** X19.  On a store the prototype has filled from empty, the risk
    distribution shows no project at 中 and none at 低: every review the
    generator makes is at 高, so the projects divide between 高 and
    未审. *)
Theorem no_medium_or_low_risk (evs : list Event) :
  let counts := riskCounts (displayStats (run evs fresh)) in
  lookup_property "中" counts = Some 0
  /\ lookup_property "低" counts = Some 0
  /\ exists high none,
       lookup_property "高" counts = Some high
       /\ lookup_property unreviewed counts = Some none
       /\ high + none = length (getProjects (run evs fresh)).
Proof.
  cbv zeta. pose proof (run_reviews_generated evs) as Hall.
  rewrite !riskCounts_lookup
    by (repeat first [apply list_elem_of_here | apply list_elem_of_further]).
  rewrite !(no_other_label _ _ Hall) by reflexivity.
  split; [reflexivity|]. split; [reflexivity|].
  do 2 eexists. split; [reflexivity|]. split; [reflexivity|].
  unfold with_label, getProjects.
  induction Hall as [|p projects Hp _ IH]; [reflexivity|].
  assert (Hl : risk_label p = "高" \/ risk_label p = unreviewed).
  { unfold risk_label. destruct (aiReview p) as [r|] eqn:Hr; [left | right; reflexivity].
    destruct (Hp r Hr) as [-> _]. reflexivity. }
  cbn [List.filter length]. destruct Hl as [Hl | Hl]; rewrite Hl; cbn in *; lia.
Qed.

Lemma issues_loop (projects : list Project) (init : list (string * nat)) :
  fold_left
    (fun counts p =>
       match aiReview p with
       | Some review =>
           fold_left (fun counts item => increment (category item) counts)
             (riskItems review) counts
       | None => counts
       end) projects init
  = fold_left (fun counts item => increment (category item) counts)
      (findings projects) init.
Proof.
  revert init. induction projects as [|p projects IH]; intros init; [reflexivity|].
  unfold findings in *. cbn [fold_left flat_map]. rewrite fold_left_app, IH.
  destruct (aiReview p); reflexivity.
Qed.

Lemma run_categories (evs : list Event) :
  Forall (fun p => forall r, aiReview p = Some r ->
                   Forall (fun item => category item ∈ categories) (riskItems r))
    (localStorage (run evs fresh)).
Proof.
  apply (run_everywhere _ evs fresh); [|apply everywhere_fresh].
  split; simpl.
  - intros p _ Hr r. rewrite Hr. discriminate.
  - intros p t Hp _. exact Hp.
  - intros p t e _ r [= <-]. apply Forall_forall. intros item Hin.
    unfold createDummyAIResults in Hin. cbn [riskItems] in Hin.
    apply list_elem_of_fmap in Hin as (i & -> & _).
    pose proof (random_below_range (Math_random e (1 + 2 * i)) 4 ltac:(lia)) as Hr.
    unfold dummy_item. cbn [category].
    change (Z.of_nat (length categories)) with 4%Z.
    eapply list_elem_of_lookup_2, pool_lookup; [reflexivity | lia].
  - intros p t r form saved Hp Hr _ r' [= <-]. apply (Hp r Hr).
  - intros p t r Hp _. exact Hp.
Qed.

Lemma filter_nonempty {A} (f : A -> bool) (l : list A) :
  length (List.filter f l) <> 0 -> exists x, x ∈ l /\ f x = true.
Proof.
  destruct (List.filter f l) as [|x rest] eqn:E; [simpl; congruence|]. intros _.
  assert (Hin : In x (List.filter f l)) by (rewrite E; left; reflexivity).
  apply filter_In in Hin as [Hin Hf]. exists x. split; [|exact Hf].
  apply list_elem_of_In, Hin.
Qed.

(** X20.  On a store the prototype has filled from empty, the table of
    typical issues lists a category exactly when some finding of some
    stored review has it, with the number of such findings; the counts
    add up to the number of findings in the store, and every category
    listed is one of the four of the generator. *)
Theorem issues_count (evs : list Event) (c : string) :
  let b := run evs fresh in
  lookup_property c (issues (displayStats b))
  = match in_category c (findings (getProjects b)) with
    | 0 => None
    | S n => Some (S n)
    end
  /\ total_of (issues (displayStats b)) = length (findings (getProjects b))
  /\ (has_property c (issues (displayStats b)) = true -> c ∈ categories).
Proof.
  cbv zeta. unfold displayStats. cbn [issues]. rewrite issues_loop.
  assert (Hlookup :
    lookup_property c
      (fold_left (fun counts item => increment (category item) counts)
         (findings (getProjects (run evs fresh))) [])
    = match in_category c (findings (getProjects (run evs fresh))) with
      | 0 => None
      | S n => Some (S n)
      end).
  { rewrite tally_lookup. reflexivity. }
  split; [exact Hlookup|]. split.
  - destruct (tally_total category (findings (getProjects (run evs fresh))) [] I)
      as [_ Ht].
    exact Ht.
  - unfold has_property. rewrite Hlookup. unfold in_category.
    destruct (length _) eqn:Elen; [discriminate|]. intros _.
    destruct (filter_nonempty (fun item => (category item =? c)%string)
                (findings (getProjects (run evs fresh)))) as (item & Hin & Hc);
      [rewrite Elen; discriminate|].
    apply String.eqb_eq in Hc. subst c.
    unfold findings in Hin. apply list_elem_of_In, in_flat_map in Hin as (p & Hp & Hin).
    pose proof (run_categories evs) as Hall. rewrite Forall_forall in Hall.
    apply list_elem_of_In in Hp. specialize (Hall p Hp).
    destruct (aiReview p) as [r|]; [|destruct Hin].
    specialize (Hall r eq_refl). rewrite Forall_forall in Hall.
    apply Hall, list_elem_of_In, Hin.
Qed.

End StatsFacts.

(** ** The report *)

Section ReportFacts.
Import JS Client Views.
Context `{Platform}.
#[local] Arguments String.append !s1 s2 : simpl nomatch.

Lemma fold_append {A} (f : A -> string) (l : list A) (s : string) :
  fold_left (fun html x => html +:+ f x) l s = s +:+ String.concat "" (map f l).
Proof.
  revert s. induction l as [|x l IH]; intros s.
  - simpl. rewrite append_empty. reflexivity.
  - cbn [fold_left map]. rewrite IH, append_assoc. f_equal.
    destruct l; simpl; [rewrite append_empty|]; reflexivity.
Qed.

Lemma report_is_markup (r : AIReview) (rows tail : string) (l : list Finding) :
  fold_left (fun html item => html +:+ report_row r item) l
    ("" +:+ "<h4>项目名称：" +:+ rows) +:+ tail <> no_report.
Proof.
  rewrite fold_append. simpl. unfold no_report. intros Heq. discriminate Heq.
Qed.

Lemma displayReport_present (projectId : string) (b : Browser) i p r :
  find projectId (getProjects b) = Some (i, p) -> aiReview p = Some r ->
  displayReport (Some projectId) b <> no_report.
Proof.
  intros Hf Hr. unfold displayReport. rewrite Hf, Hr.
  cbv zeta. rewrite !append_assoc.
  apply (report_is_markup r).
Qed.

(** X21.  The report page shows [未找到审查报告。] exactly when the
    address carries no identifier, or no stored project has the
    identifier, or the first project that has it has no review. *)
Theorem displayReport_missing (query_id : option string) (b : Browser) :
  displayReport query_id b = no_report
  <-> match query_id with
      | None => True
      | Some i =>
          match find i (getProjects b) with
          | None => True
          | Some (_, project) => aiReview project = None
          end
      end.
Proof.
  unfold displayReport. destruct query_id as [i|]; [|split; reflexivity || auto].
  destruct (find i (getProjects b)) as [[j project]|] eqn:Hf;
    [|split; reflexivity || auto].
  destruct (aiReview project) as [r|] eqn:Hr; [|split; reflexivity || auto].
  split; [|discriminate]. intros Heq. exfalso.
  apply (displayReport_present i b j project r Hf Hr).
  unfold displayReport. rewrite Hf, Hr. exact Heq.
Qed.

Lemma report_row_showing (r : AIReview) (item : Finding) :
  report_row r item =
  match lookup_property (risk_id item) (actions r) with
  | Some a => row_showing item (actionLabel (type a)) (desc a)
  | None => row_showing item "" ""
  end.
Proof. unfold report_row. destruct (lookup_property _ _); reflexivity. Qed.

(** X22.  What [saveRiskActions] records is what the report shows.  After
    saving on a project with a review, with a form whose identifiers are
    those of findings (the page answers the selector of each, and none is
    [__proto__]), the report of that project exists, has the findings it
    had, and its row for a finding (the identifier beginning with [R], as
    the generator forms it) shows the label of the type the form chose for
    it and the trimmed text of the element its selector finds; the row of
    a finding for which the form chose nothing is the row shown before. *)
Theorem saved_decision_is_reported (projectId : string) (form : ActionForm)
    (now : Date) (b : Browser) i p r :
  find projectId (getProjects b) = Some (i, p) -> aiReview p = Some r ->
  selectors_answer form -> ordinary_identifiers form ->
  exists p' r',
    find projectId (getProjects (fst (saveRiskActions projectId form now b)))
      = Some (i, p')
    /\ aiReview p' = Some r'
    /\ riskItems r' = riskItems r
    /\ displayReport (Some projectId) (fst (saveRiskActions projectId form now b))
       <> no_report
    /\ forall item, begins_with "R" (risk_id item) = true ->
         report_row r' item =
         match chosen form (risk_id item) with
         | Some d => row_showing item (actionLabel (type d)) (desc d)
         | None => report_row r item
         end.
Proof.
  intros Hf Hr Hanswer Hids. unfold saveRiskActions. rewrite Hf, Hr.
  rewrite (fold_save_recorded form _ _ Hanswer Hids). cbn [fst].
  set (p' := set_updatedAt _ _).
  assert (Hf' : find projectId (<[i := p']> (getProjects b)) = Some (i, p')).
  { apply (find_insert _ _ _ p); [exact Hf|]. apply find_Some in Hf as [_ Hid]. exact Hid. }
  exists p', (set_actions (fold_left (record_one form) (selects form) (actions r)) r).
  split; [exact Hf'|]. split; [reflexivity|]. split; [reflexivity|]. split.
  - apply (displayReport_present projectId
             (saveProjects (<[i := p']> (getProjects b)) b) i p' _ Hf' eq_refl).
  - intros item _. rewrite !report_row_showing. cbn [actions set_actions].
    rewrite fold_save_lookup, chosen_from_start. fold (chosen form (risk_id item)).
    destruct (chosen form (risk_id item)); reflexivity.
Qed.

End ReportFacts.

(** ** The further properties on sample data *)

Section FurtherSamples.
Import JS Client Views LiteralNumber Sample.

(** X1, on the malformed reply. *)
Lemma normalize_idempotent_witness :
  Server.normalize malformed_reply =
    Return (VObj [("riskScore", VNull); ("summary", VStr "");
                  ("issues", VArr []); ("modelNote", VStr "")])
  /\ Server.normalize (number := string)
       (VObj [("riskScore", VNull); ("summary", VStr "");
              ("issues", VArr []); ("modelNote", VStr "")])
     = Return (VObj [("riskScore", VNull); ("summary", VStr "");
                     ("issues", VArr []); ("modelNote", VStr "")]).
Proof.
  assert (Hn : Server.normalize malformed_reply =
    Return (VObj [("riskScore", VNull); ("summary", VStr "");
                  ("issues", VArr []); ("modelNote", VStr "")])) by reflexivity.
  split; [exact Hn|]. exact (normalize_idempotent _ _ Hn).
Defined.

(** X3, on a request that gives the content only. *)
Lemma review_defaults_witness :
  Server.post_review (number := string) Server.callLLM
    (VObj [("content", VStr "禁止向外地企业供货"); ("jurisdiction", VStr "")])
  = Server.post_review Server.callLLM
      (VObj [("businessType", VStr "general"); ("jurisdiction", VStr "cn");
             ("content", VStr "禁止向外地企业供货"); ("options", VBool true)]).
Proof. apply review_defaults; reflexivity. Defined.

(** X4, on a business type that hides [toString]. *)
Lemma unprintable_request_witness :
  Server.post_review (number := string) Server.callLLM
    (VObj [("content", VStr "禁止向外地企业供货");
           ("businessType", VObj [("toString", VNull)])])
  = (Server.internal_error, []).
Proof.
  apply (unprintable_request Server.callLLM _ [("toString", VNull)]).
  - reflexivity.
  - left. reflexivity.
  - reflexivity.
Defined.

(** X5, on a business type that is an array. *)
Lemma callLLM_review_witness :
  exists prompt reply,
    Server.post_review (number := string) Server.callLLM
      (VObj [("content", VStr "禁止向外地企业供货");
             ("businessType", VArr [VStr "platform"; VNull])])
    = ({| Server.status := 200; Server.body := reply |}, [prompt])
    /\ Server.callLLM prompt = Return reply
    /\ Server.buildPrompt (VStr "platform,") (VStr "cn")
         (VStr "禁止向外地企业供货") VUndefined = Return prompt.
Proof.
  apply (callLLM_review
           (VObj [("content", VStr "禁止向外地企业供货");
                  ("businessType", VArr [VStr "platform"; VNull])])
           "platform," "cn"); reflexivity.
Defined.

(** X6, at noon. *)
Lemma formatDate_read_back_witness :
  formatDate noon = "2024-01-05 12:00"
  /\ read_timestamp (formatDate noon) = Some noon.
Proof.
  split; [reflexivity|].
  apply (proj1 (proj2 (formatDate_read_back noon eq_refl))).
Defined.

(** X8, on the reviewed project. *)
Lemma stored_reviews_generated_witness :
  exists p r,
    p ∈ localStorage (run reviewed fresh) /\ aiReview p = Some r
    /\ overallRisk r = High /\ 2 <= length (riskItems r) <= 4.
Proof.
  assert (Hin : exists p r, p ∈ localStorage (run reviewed fresh)
                            /\ aiReview p = Some r).
  { do 2 eexists. split; [vm_compute; apply list_elem_of_here | reflexivity]. }
  destruct Hin as (p & r & Hin & Hr). exists p, r.
  destruct (stored_reviews_generated reviewed p r Hin Hr) as (Hhigh & Hlen & _).
  auto.
Defined.

(** X9: a project created and a submission made while the review runs are
    gone when it completes. *)
Lemma writes_during_review_are_lost_witness :
  exists p,
    find project_id (getProjects (run created fresh)) = Some (0, p)
    /\ run (StartReview project_id noon
            :: [Create form later three_quarters 1700000000001%Z;
                SubmitForDepartmentReview project_id later]
            ++ [ReviewCompletes (length (timers (run created fresh))) entropy later])
         (run created fresh)
       = {| localStorage :=
              <[0 := reviewed_project entropy later p]> (localStorage (run created fresh));
            timers := timers (run created fresh) |}.
Proof.
  assert (Hf : exists p, find project_id (getProjects (run created fresh)) = Some (0, p)).
  { eexists. vm_compute. reflexivity. }
  destruct Hf as (p & Hf). exists p. split; [exact Hf|].
  apply (writes_during_review_are_lost project_id noon later entropy _
           (run created fresh) 0 p Hf).
  repeat constructor.
Defined.

(** X10, on the created project. *)
Lemma last_completion_decides_witness :
  exists p,
    find project_id (getProjects (run created fresh)) = Some (0, p)
    /\ run [StartReview project_id noon; StartReview project_id noon;
            ReviewCompletes (length (timers (run created fresh))) entropy noon;
            ReviewCompletes (length (timers (run created fresh))) entropy later]
         (run created fresh)
       = {| localStorage :=
              <[0 := reviewed_project entropy later p]> (localStorage (run created fresh));
            timers := timers (run created fresh) |}.
Proof.
  assert (Hf : exists p, find project_id (getProjects (run created fresh)) = Some (0, p)).
  { eexists. vm_compute. reflexivity. }
  destruct Hf as (p & Hf). exists p. split; [exact Hf|].
  apply (proj1 (last_completion_decides project_id noon noon noon later entropy entropy
                  (run created fresh) 0 p Hf)).
Defined.

(** X13, on the reviewed project. *)
Lemma submitted_is_not_completed_witness :
  exists p r,
    find project_id (getProjects (run reviewed fresh)) = Some (0, p)
    /\ aiReview p = Some r /\ status p = AI_COMPLETED
    /\ displayDashboard (run reviewed fresh) =
       {| total := total (displayDashboard
                     (fst (submitForDepartmentReview project_id later (run reviewed fresh))));
          completed := S (completed (displayDashboard
                     (fst (submitForDepartmentReview project_id later (run reviewed fresh)))));
          pending := pending (displayDashboard
                     (fst (submitForDepartmentReview project_id later (run reviewed fresh)))) |}.
Proof.
  assert (Hf : exists p r,
             find project_id (getProjects (run reviewed fresh)) = Some (0, p)
             /\ aiReview p = Some r /\ status p = AI_COMPLETED).
  { do 2 eexists. split; [vm_compute; reflexivity|]. split; reflexivity. }
  destruct Hf as (p & r & Hf & Hr & Hst). exists p, r.
  split; [exact Hf|]. split; [exact Hr|]. split; [exact Hst|].
  apply (submitted_is_not_completed project_id later (run reviewed fresh) 0 p r Hf Hr Hst).
Defined.

(** X14, on the sample form and on a form without a name. *)
Lemma handleCreateProject_appends_witness :
  (exists p,
     handleCreateProject form noon half 1700000000000%Z fresh
       = ({| localStorage := localStorage fresh ++ [p]; timers := timers fresh |},
          [navigate ("project_detail.html?id=" +:+ id p)])
     /\ status p = DRAFT /\ aiReview p = None)
  /\ handleCreateProject
       {| form_projectName := "  "; form_policyTitle := "关于支持本地企业的若干措施";
          form_org := ""; form_draftType := ""; form_scope := "";
          form_releaseDate := ""; form_isSecret := false;
          form_applyException := false |} noon half 1700000000000%Z fresh
     = (fresh, [alert "请填写完整的项目名称和文件名称"]).
Proof.
  split.
  - assert (Hn : trim (form_projectName form) <> "") by (vm_compute; discriminate).
    assert (Ht : trim (form_policyTitle form) <> "") by (vm_compute; discriminate).
    destruct (proj2 (handleCreateProject_appends form noon half 1700000000000%Z fresh)
                Hn Ht) as (p & Heq & Hst & Hr & _).
    exists p. auto.
  - apply (proj1 (handleCreateProject_appends _ noon half 1700000000000%Z fresh)).
    left. reflexivity.
Defined.

(** X15, on an empty store. *)
Lemma created_project_is_shown_witness :
  exists p,
    displayProjectDetail (Some (generateId "P" half 1700000000000%Z))
      (fst (handleCreateProject form noon half 1700000000000%Z fresh))
    = [show_detail p].
Proof.
  assert (Hn : trim (form_projectName form) <> "") by (vm_compute; discriminate).
  assert (Ht : trim (form_policyTitle form) <> "") by (vm_compute; discriminate).
  pose proof (created_project_is_shown form noon half 1700000000000%Z fresh Hn Ht)
    as Hshown.
  cbv zeta in Hshown.
  change (find (generateId "P" half 1700000000000%Z) (getProjects fresh))
    with (@None (nat * Project)) in Hshown.
  destruct Hshown as (p & Hp & _). exists p. exact Hp.
Defined.

(** X21: no report without an identifier, a report for the reviewed
    project. *)
Lemma displayReport_missing_witness :
  displayReport None fresh = no_report
  /\ displayReport (Some project_id) (run reviewed fresh) <> no_report.
Proof.
  split.
  - apply (proj2 (displayReport_missing None fresh)). exact I.
  - intros Heq.
    apply (proj1 (displayReport_missing (Some project_id) (run reviewed fresh))) in Heq.
    vm_compute in Heq. discriminate Heq.
Defined.

(** X22, on the sample decisions. *)
Lemma saved_decision_is_reported_witness :
  exists p r p' r',
    find project_id (getProjects (run reviewed fresh)) = Some (0, p)
    /\ aiReview p = Some r
    /\ find project_id
         (getProjects (fst (saveRiskActions project_id decisions later
                              (run reviewed fresh)))) = Some (0, p')
    /\ aiReview p' = Some r'
    /\ forall item, begins_with "R" (risk_id item) = true ->
         report_row r' item =
         match chosen decisions (risk_id item) with
         | Some d => row_showing item (actionLabel (type d)) (desc d)
         | None => report_row r item
         end.
Proof.
  assert (Hf : exists p r,
             find project_id (getProjects (run reviewed fresh)) = Some (0, p)
             /\ aiReview p = Some r).
  { do 2 eexists. split; [vm_compute; reflexivity | reflexivity]. }
  destruct Hf as (p & r & Hf & Hr).
  assert (Hanswer : selectors_answer decisions).
  { repeat constructor; eexists; vm_compute; reflexivity. }
  assert (Hids : ordinary_identifiers decisions).
  { repeat constructor; discriminate. }
  destruct (saved_decision_is_reported project_id decisions later
              (run reviewed fresh) 0 p r Hf Hr Hanswer Hids)
    as (p' & r' & Hf' & Hr' & _ & _ & Hrows).
  exists p, r, p', r'. auto.
Defined.

End FurtherSamples.
